(** * RestHelper: the REST client of the Huawei OceanStor V3 share driver

    A shallow embedding of [Manila/Pike/v3/helper.py].  The helper is a
    Python object holding a base URL and an HTTP session; every method
    is a computation over that object and over the array it talks to.
    Python values are embedded as JSON-shaped values, exceptions as a
    result type, and the array together with the network as a transition
    function on an abstract world. *)

From Stdlib Require Import ZArith String Ascii List Lia Bool DecimalString.
From stdpp Require Import base strings gmap.

Set Warnings "-register-all".

Local Open Scope Z_scope.
Local Open Scope string_scope.
Local Open Scope list_scope.

(** ** Python values *)

(** The values that travel through the helper: what [res.json()] yields
    and what the methods build and return.  Numbers are integers: the
    array reports codes and counts as integers or as decimal strings. *)
Inductive Json : Type :=
  | JNull
  | JBool (b : bool)
  | JInt (n : Z)
  | JStr (s : string)
  | JList (l : list Json)
  | JObj (kv : list (string * Json)).

(** Exceptions the helper raises or lets through. *)
Inductive exn : Type :=
  | ShareBackendException (msg : string)
  | InvalidShare (reason : string)
  | InvalidInput (reason : string)
  | InvalidShareSnapshot (reason : string)
  | KeyError (key : string)
  | TypeError
  | AttributeError (name : string)
  | ValueError
  | ConfigError.

Inductive Result (A : Type) : Type :=
  | Return (a : A)
  | Raise (e : exn).
Arguments Return {A} a.
Arguments Raise {A} e.

Definition is_raise {A} (r : Result A) : bool :=
  match r with Raise _ => true | Return _ => false end.

Module Py.

Definition LF : string := String (ascii_of_nat 10) "".
Definition DQ : string := String (ascii_of_nat 34) "".

(** [bool(s)] for a string. *)
Definition truthy_str (s : string) : bool :=
  match s with "" => false | _ => true end.

(** [bool(v)]. *)
Definition truthy (v : Json) : bool :=
  match v with
  | JNull => false
  | JBool b => b
  | JInt n => negb (Z.eqb n 0)
  | JStr s => truthy_str s
  | JList l => match l with [] => false | _ => true end
  | JObj kv => match kv with [] => false | _ => true end
  end.

(** A dict is an association list with distinct keys, looked up by
    the first binding of the key. *)
Fixpoint dict_get (k : string) (kv : list (string * Json)) : option Json :=
  match kv with
  | [] => None
  | (k', v) :: rest => if String.eqb k k' then Some v else dict_get k rest
  end.

(** [a == b]: booleans compare as the integers 0 and 1, lists
    element by element, dicts key by key. *)
Fixpoint eq (a b : Json) {struct a} : bool :=
  match a, b with
  | JNull, JNull => true
  | JBool x, JBool y => Bool.eqb x y
  | JBool x, JInt n => Z.eqb (if x then 1 else 0) n
  | JInt n, JBool y => Z.eqb n (if y then 1 else 0)
  | JInt n, JInt m => Z.eqb n m
  | JStr s, JStr t => String.eqb s t
  | JList la, JList lb =>
      (fix eq_list (la lb : list Json) {struct la} : bool :=
         match la, lb with
         | [], [] => true
         | x :: la', y :: lb' => eq x y && eq_list la' lb'
         | _, _ => false
         end) la lb
  | JObj ka, JObj kb =>
      Nat.eqb (length ka) (length kb) &&
      (fix eq_dict (ka : list (string * Json)) {struct ka} : bool :=
         match ka with
         | [] => true
         | (k, v) :: ka' =>
             match dict_get k kb with
             | Some v' => eq v v' && eq_dict ka'
             | None => false
             end
         end) ka
  | _, _ => false
  end.

(** [opt == opt'] where [None] stands for Python's [None], as after
    [dict.get]. *)
Definition eq_opt (a b : option Json) : bool :=
  match a, b with
  | None, None => true
  | Some x, None => eq x JNull
  | None, Some y => eq JNull y
  | Some x, Some y => eq x y
  end.

(** [v[k]] for a string key. *)
Definition getitem (v : Json) (k : string) : Result Json :=
  match v with
  | JObj kv =>
      match dict_get k kv with
      | Some x => Return x
      | None => Raise (KeyError k)
      end
  | _ => Raise TypeError
  end.

(** [t in s] for strings. *)
Fixpoint is_substring (t s : string) : bool :=
  String.prefix t s ||
  match s with
  | "" => false
  | String _ s' => is_substring t s'
  end.

(** [k in v] for a string [k]. *)
Definition contains (k : string) (v : Json) : Result bool :=
  match v with
  | JObj kv => Return (match dict_get k kv with Some _ => true | None => false end)
  | JList l => Return (existsb (eq (JStr k)) l)
  | JStr s => Return (is_substring k s)
  | _ => Raise TypeError
  end.

(** [v.get(k, default)]: only dicts have the method. *)
Definition get_default (v : Json) (k : string) (default : Json) : Result Json :=
  match v with
  | JObj kv => Return (match dict_get k kv with Some x => x | None => default end)
  | _ => Raise (AttributeError "get")
  end.

(** [v.get(k)], with [None] for Python's [None]. *)
Definition get (v : Json) (k : string) : Result (option Json) :=
  match v with
  | JObj kv => Return (dict_get k kv)
  | _ => Raise (AttributeError "get")
  end.

(** The items a [for] loop over [v] visits. *)
Definition iter (v : Json) : Result (list Json) :=
  match v with
  | JList l => Return l
  | JObj kv => Return (map (fun p => JStr (fst p)) kv)
  | JStr s => Return (map (fun c => JStr (String c "")) (list_ascii_of_string s))
  | _ => Raise TypeError
  end.

(** [six.text_type(n)] for an integer. *)
Definition text_type (n : Z) : string := NilZero.string_of_int (Z.to_int n).

(** [s.split(sep)] for a one-character separator. *)
Fixpoint split (sep : ascii) (s : string) : list string :=
  match s with
  | "" => [""]
  | String c s' =>
      if Ascii.eqb c sep then "" :: split sep s'
      else match split sep s' with
           | [] => [String c ""]
           | w :: ws => String c w :: ws
           end
  end.

(** [s.lstrip(c)], [s.rstrip(c)] and [s.strip(c)] for one character. *)
Fixpoint lstrip (c : ascii) (s : string) : string :=
  match s with
  | String c' s' => if Ascii.eqb c' c then lstrip c s' else s
  | "" => ""
  end.

Fixpoint rstrip (c : ascii) (s : string) : string :=
  match s with
  | "" => ""
  | String c' s' =>
      match rstrip c s' with
      | "" => if Ascii.eqb c' c then "" else String c' ""
      | r => String c' r
      end
  end.

Definition strip (c : ascii) (s : string) : string := rstrip c (lstrip c s).

(** [s[1:-1]]. *)
Definition slice_1_m1 (s : string) : string :=
  String.substring 1 (String.length s - 2)%nat s.

(** [s.replace(a, b)] for single characters. *)
Fixpoint replace (a b : ascii) (s : string) : string :=
  match s with
  | "" => ""
  | String c s' => String (if Ascii.eqb c a then b else c) (replace a b s')
  end.

(** [s.upper()] on the ASCII letters. *)
Definition upper_char (c : ascii) : ascii :=
  let n := nat_of_ascii c in
  if Nat.leb 97 n && Nat.leb n 122 then ascii_of_nat (n - 32) else c.

Fixpoint upper (s : string) : string :=
  match s with
  | "" => ""
  | String c s' => String (upper_char c) (upper s')
  end.

(** [d[k] = v] on a dict. *)
Fixpoint dict_set (k : string) (v : Json) (kv : list (string * Json))
    : list (string * Json) :=
  match kv with
  | [] => [(k, v)]
  | (k', v') :: rest =>
      if String.eqb k k' then (k, v) :: rest else (k', v') :: dict_set k v rest
  end.

(** [sep.join(l)]. *)
Fixpoint join (sep : string) (l : list string) : string :=
  match l with
  | [] => ""
  | x :: rest =>
      match rest with
      | [] => x
      | _ :: _ => x +:+ sep +:+ join sep rest
      end
  end.

(** [c in s] for a character. *)
Fixpoint has_char (c : ascii) (s : string) : bool :=
  match s with
  | "" => false
  | String c' s' => Ascii.eqb c' c || has_char c s'
  end.

(** [d] without the key [k], as [d.pop(k)] leaves it. *)
Definition dict_del (k : string) (kv : list (string * Json)) : list (string * Json) :=
  List.filter (fun p => negb (String.eqb k (fst p))) kv.

(** [s.split(sep)] for a separator of one character or more: the
    occurrences are taken from the left and do not overlap.  [skip]
    counts the characters of a separator still to pass over. *)
Fixpoint split_go (sep : string) (skip : nat) (s : string) : list string :=
  match s with
  | "" => [""]
  | String c s' =>
      match skip with
      | S k => split_go sep k s'
      | O =>
          if String.prefix sep (String c s')
          then "" :: split_go sep (String.length sep - 1) s'
          else match split_go sep 0 s' with
               | [] => [String c ""]
               | w :: ws => String c w :: ws
               end
      end
  end.

Definition split_str (sep : string) (s : string) : list string := split_go sep 0 s.

(** The characters [s.strip()] takes off a text string are those
    [str.isspace()] holds of.  Text is held as the bytes of its UTF-8
    encoding, so such a character is one, two or three bytes: in one
    byte the blank, tab to carriage return (9 to 13) and the four
    separators 28 to 31; in two bytes U+0085 (C2 85) and U+00A0
    (C2 A0); in three bytes U+1680 (E1 9A 80), U+2000 to U+200A
    (E2 80 80 to E2 80 8A), U+2028, U+2029 and U+202F (E2 80 A8,
    E2 80 A9, E2 80 AF), U+205F (E2 81 9F) and U+3000 (E3 80 80). *)
Definition is_space (c : ascii) : bool :=
  let n := nat_of_ascii c in
  Nat.eqb n 32 || (Nat.leb 9 n && Nat.leb n 13) || (Nat.leb 28 n && Nat.leb n 31).

Definition is_space2 (c1 c2 : ascii) : bool :=
  Nat.eqb (nat_of_ascii c1) 194
  && (Nat.eqb (nat_of_ascii c2) 133 || Nat.eqb (nat_of_ascii c2) 160).

Definition is_space3 (c1 c2 c3 : ascii) : bool :=
  let n1 := nat_of_ascii c1 in
  let n2 := nat_of_ascii c2 in
  let n3 := nat_of_ascii c3 in
  (Nat.eqb n1 225 && Nat.eqb n2 154 && Nat.eqb n3 128)
  || (Nat.eqb n1 226 && Nat.eqb n2 128
      && ((Nat.leb 128 n3 && Nat.leb n3 138)
          || Nat.eqb n3 168 || Nat.eqb n3 169 || Nat.eqb n3 175))
  || (Nat.eqb n1 226 && Nat.eqb n2 129 && Nat.eqb n3 159)
  || (Nat.eqb n1 227 && Nat.eqb n2 128 && Nat.eqb n3 128).

(** [s] begins with such a character. *)
Definition starts_space (s : string) : bool :=
  match s with
  | String c1 s1 =>
      is_space c1
      || match s1 with
         | String c2 s2 =>
             is_space2 c1 c2
             || match s2 with
                | String c3 _ => is_space3 c1 c2 c3
                | "" => false
                end
         | "" => false
         end
  | "" => false
  end.

(** [s] is one such character. *)
Definition is_space_char (s : string) : bool :=
  match s with
  | String c1 "" => is_space c1
  | String c1 (String c2 "") => is_space2 c1 c2
  | String c1 (String c2 (String c3 "")) => is_space3 c1 c2 c3
  | _ => false
  end.

(** [s.lstrip()]: such characters are taken off the front, one after
    the other. *)
Fixpoint lstrip_ws (s : string) : string :=
  match s with
  | "" => ""
  | String c1 s1 =>
      if is_space c1 then lstrip_ws s1
      else
        match s1 with
        | "" => s
        | String c2 s2 =>
            if is_space2 c1 c2 then lstrip_ws s2
            else
              match s2 with
              | "" => s
              | String c3 s3 => if is_space3 c1 c2 c3 then lstrip_ws s3 else s
              end
        end
  end.

(** [s.rstrip()]: what is left of the rest of the string, with the
    byte in front of it, is empty when the two make up one such
    character. *)
Fixpoint rstrip_ws (s : string) : string :=
  match s with
  | "" => ""
  | String c s' =>
      let r := String c (rstrip_ws s') in
      if is_space_char r then "" else r
  end.

(** [s.strip()]. *)
Definition strip_ws (s : string) : string := rstrip_ws (lstrip_ws s).

(** [int(v)]: integers and booleans as they are, strings by their
    decimal reading: white space around it is dropped, then come an
    optional sign, plus or minus, and ASCII digits.  Decimal digits of
    other scripts, which Python reads as well, end in [ValueError]
    here. *)
Definition int (v : Json) : Result Z :=
  match v with
  | JInt n => Return n
  | JBool b => Return (if b then 1 else 0)
  | JStr s =>
      let digits := strip_ws s in
      let reading :=
        match digits with
        | String c rest =>
            if Ascii.eqb c "+"
            then option_map Z.of_uint (NilZero.uint_of_string rest)
            else option_map Z.of_int (NilZero.int_of_string digits)
        | "" => None
        end in
      match reading with
      | Some n => Return n
      | None => Raise ValueError
      end
  | _ => Raise TypeError
  end.

End Py.

(** ** The constants module

    [manila.share.drivers.huawei.constants] is imported by the helper;
    its values are parameters of the development. *)
Record Constants : Type := {
  SOCKET_TIMEOUT : Z;
  LOGIN_SOCKET_TIMEOUT : Z;
  ERROR_CONNECT_TO_SERVER : Z;
  ERROR_UNAUTHORIZED_TO_SERVER : Z;
  ERROR_USER_OR_GROUP_NOT_EXIST : Z;
  ERROR_REPLICATION_PAIR_NOT_EXIST : Z;
  ERROR_HYPERMETRO_NOT_EXIST : Z;
  MSG_SNAPSHOT_NOT_FOUND : Z;
  PWD_EXPIRED_OR_INITIAL : list Z;
  STATUS_QOS_ACTIVE : string;
  QOS_NAME_PREFIX : string;
  OPTS_QOS_VALUE : list string;
  MAX_FS_NUM_IN_QOS : Z
}.

(** ** The array and the network *)

(** What the [requests] session is asked to send. *)
Record Request : Type := {
  req_method : string;
  req_url : string;
  req_data : option string;
  req_timeout : Z;
  req_headers : gmap string Json
}.

(** What comes back: the send raised, or a response arrived with a
    status code, the text [HTTPError] would carry for it, and a body
    that parses as JSON or does not. *)
Inductive Outcome : Type :=
  | ConnectFailure
  | Response (status_code : Z) (error_text : string) (body : option Json).

(** [res.raise_for_status()] raises for the 4xx and 5xx codes. *)
Definition raises_for_status (status_code : Z) : bool :=
  Z.leb 400 status_code && Z.ltb status_code 600.

(** The [requests.Session] object: the headers the helper sets, and the
    verify flag. *)
Record Session : Type := {
  headers : gmap string Json;
  verify : bool
}.

(** The attributes [init_http_head] creates.  Before it has run the
    object has neither. *)
Record Attrs : Type := {
  self_url : option string;
  self_session : Session
}.

(** What the configuration file yields to [_get_login_info]. *)
Record LoginInfo : Type := {
  RestURL : string;
  UserName : string;
  UserPassword : string
}.

(** Ghost record of what the helper did, in order: it is not part of
    the Python object and no method reads it. *)
Inductive Event : Type :=
  | EvCall (url : string) (data : option string) (method : option string)
  | EvExchange (r : Request)
  | EvLogin
  | EvInitHead
  | EvLogout.

(** The envelope [do_call] synthesises for a failure. *)
Definition error_envelope (code : Z) (description : string) : Json :=
  JObj [("error", JObj [("code", JInt code); ("description", JStr description)])].

(** [method in ('POST', 'PUT', 'GET', 'DELETE')]. *)
Definition valid_method (method : string) : bool :=
  String.eqb method "POST" || String.eqb method "PUT" ||
  String.eqb method "GET" || String.eqb method "DELETE".

(** ** The helper's collaborators

    Everything the helper reaches outside its own file: the array
    behind the [requests] session, the constants module, the JSON
    encoder, Python's string conversion and the configuration file. *)
Class Env (World : Type) : Type := {
  (** One request/response exchange with the array. *)
  http : World -> Request -> Outcome * World;
  consts : Constants;
  (** [jsonutils.dumps]. *)
  dumps : Json -> string;
  (** [str(v)], as the [%s] conversion of a value renders it. *)
  py_str : Json -> string;
  (** What [_get_login_info] returns, or the exception reading the
      configuration file ends in. *)
  _get_login_info : Result LoginInfo
}.

(** ** The helper object and its methods *)

Section RestHelper.

Context {World : Type} `{E : Env World}.

Record State : Type := {
  world : World;
  self : option Attrs;
  trace : list Event
}.

(** Computations over the helper that may raise. *)
Definition M (A : Type) : Type := State -> Result A * State.

Definition ret {A} (a : A) : M A := fun st => (Return a, st).

Definition raise {A} (e : exn) : M A := fun st => (Raise e, st).

Definition bind {A B} (m : M A) (k : A -> M B) : M B :=
  fun st =>
    match m st with
    | (Return a, st') => k a st'
    | (Raise e, st') => (Raise e, st')
    end.

Definition lift {A} (r : Result A) : M A := fun st => (r, st).

Notation "x <- m ;; k" := (bind m (fun x => k))
  (at level 100, m at next level, right associativity).
Notation "m ;;; k" := (bind m (fun _ => k))
  (at level 100, right associativity).

Definition log (e : Event) : M unit :=
  fun st => (Return tt, {| world := world st; self := self st; trace := trace st ++ [e] |}).

(** Reading an attribute that [init_http_head] creates. *)
Definition attr (name : string) : M Attrs :=
  fun st =>
    match self st with
    | Some a => (Return a, st)
    | None => (Raise (AttributeError name), st)
    end.

Definition set_attrs (a : Attrs) : M unit :=
  fun st => (Return tt, {| world := world st; self := Some a; trace := trace st |}).

Definition exchange (r : Request) : M Outcome :=
  fun st =>
    let (out, w) := http (world st) r in
    (Return out, {| world := w; self := self st; trace := trace st ++ [EvExchange r] |}).

(** The attributes as [init_http_head] leaves them. *)
Definition fresh_attrs : Attrs :=
  {| self_url := None;
     self_session :=
       {| headers := <["Connection" := JStr "keep-alive"]>
                       (<["Content-Type" := JStr "application/json"]> ∅);
          verify := false |} |}.

Definition init_http_head : M unit :=
  log EvInitHead ;;;
  set_attrs fresh_attrs.

(** The request [do_call] sends for its arguments, given the object's
    attributes. *)
Definition request_of (a : Attrs) (url : string) (data : option string)
    (method : option string) (calltimeout : Z) : Request :=
  {| req_method := match method with
                   | Some m => if Py.truthy_str m then m else "POST"
                   | None => "POST"
                   end;
     req_url := match self_url a with
                | Some base => if Py.truthy_str base then base +:+ url else url
                | None => url
                end;
     req_data := match data with
                 | Some d => if Py.truthy_str d then Some d else None
                 | None => None
                 end;
     req_timeout := calltimeout;
     req_headers := headers (self_session a) |}.

(** What [do_call] makes of the outcome of the exchange: the two
    [try] blocks and the final [res.json()]. *)
Definition outcome_result (out : Outcome) : Result Json :=
  match out with
  | ConnectFailure =>
      Return (error_envelope (ERROR_CONNECT_TO_SERVER consts) "Connect server error")
  | Response status_code error_text body =>
      if raises_for_status status_code
      then Return (error_envelope status_code error_text)
      else match body with
           | Some result => Return result
           | None => Raise ValueError
           end
  end.

Definition do_call (url : string) (data : option string) (method : option string)
    (calltimeout : Z) : M Json :=
  a <- attr "url" ;;
  let r := request_of a url data method calltimeout in
  if valid_method (req_method r) then
    out <- exchange r ;;
    lift (outcome_result out)
  else raise (ShareBackendException
                ("Request method " +:+ req_method r +:+ " is invalid.")).

(** [result['error']['code']]. *)
Definition error_code (result : Json) : Result Json :=
  match Py.getitem result "error" with
  | Return e => Py.getitem e "code"
  | Raise x => Raise x
  end.

Definition _assert_rest_result (result : Json) (err_str : string) : M unit :=
  code <- lift (error_code result) ;;
  if negb (Py.eq code (JInt 0))
  then raise (InvalidShare (err_str +:+ Py.LF +:+ "result: " +:+ py_str result +:+ "."))
  else ret tt.

Definition _assert_data_in_result (result : Json) (msg : string) : M unit :=
  present <- lift (Py.contains "data" result) ;;
  if negb present
  then raise (InvalidShare (msg +:+ " " +:+ Py.DQ +:+ "data" +:+ Py.DQ +:+ " was not in result."))
  else ret tt.

Definition logout : M unit :=
  log EvLogout ;;;
  a <- attr "url" ;;
  match self_url a with
  | Some base =>
      if Py.truthy_str base then
        result <- do_call "/sessions" None (Some "DELETE") (SOCKET_TIMEOUT consts) ;;
        _assert_rest_result result "Logout session error."
      else ret tt
  | None => ret tt
  end.

(** The test that sends [login] on to the next candidate:
    [result['error']['code'] != 0 or "data" not in result or
    result['data']['deviceid'] is None], evaluated left to right. *)
Definition login_rejects (result : Json) : Result bool :=
  match error_code result with
  | Raise x => Raise x
  | Return code =>
      if negb (Py.eq code (JInt 0)) then Return true
      else
        match Py.contains "data" result with
        | Raise x => Raise x
        | Return present =>
            if negb present then Return true
            else
              match Py.getitem result "data" with
              | Raise x => Raise x
              | Return d =>
                  match Py.getitem d "deviceid" with
                  | Raise x => Raise x
                  | Return JNull => Return true
                  | Return _ => Return false
                  end
              end
        end
  end.

(** [item_url + deviceid]. *)
Definition concat_url (item_url : string) (deviceid : Json) : Result string :=
  match deviceid with
  | JStr d => Return (item_url +:+ d)
  | _ => Raise TypeError
  end.

(** [accountstate in constants.PWD_EXPIRED_OR_INITIAL]. *)
Definition pwd_expired_or_initial (accountstate : Json) : bool :=
  existsb (fun c => Py.eq accountstate (JInt c)) (PWD_EXPIRED_OR_INITIAL consts).

Definition login_data (login_info : LoginInfo) : string :=
  dumps (JObj [("username", JStr (UserName login_info));
               ("password", JStr (UserPassword login_info));
               ("scope", JStr "0")]).

Definition login_url (item_url : string) : string :=
  Py.strip (ascii_of_nat 10) item_url +:+ "xx/sessions".

(** The [for item_url in url_list] loop of [login]; its value is the
    [deviceid] variable when the loop is left. *)
Fixpoint login_loop (login_info : LoginInfo) (url_list : list string) : M Json :=
  match url_list with
  | [] => ret JNull
  | item_url :: rest =>
      init_http_head ;;;
      result <- do_call (login_url item_url) (Some (login_data login_info)) None
                  (LOGIN_SOCKET_TIMEOUT consts) ;;
      rejected <- lift (login_rejects result) ;;
      if (rejected : bool) then login_loop login_info rest
      else
        d <- lift (Py.getitem result "data") ;;
        deviceid <- lift (Py.getitem d "deviceid") ;;
        new_url <- lift (concat_url item_url deviceid) ;;
        a <- attr "url" ;;
        set_attrs {| self_url := Some new_url; self_session := self_session a |} ;;;
        d <- lift (Py.getitem result "data") ;;
        token <- lift (Py.getitem d "iBaseToken") ;;
        a <- attr "session" ;;
        set_attrs {| self_url := self_url a;
                     self_session :=
                       {| headers := <["iBaseToken" := token]> (headers (self_session a));
                          verify := verify (self_session a) |} |} ;;;
        d <- lift (Py.getitem result "data") ;;
        accountstate <- lift (Py.getitem d "accountstate") ;;
        if pwd_expired_or_initial accountstate then
          logout ;;;
          raise (ShareBackendException
                   "Password has expired or initial, please change the password.")
        else ret deviceid
  end.

Definition login : M Json :=
  log EvLogin ;;;
  login_info <- lift _get_login_info ;;
  deviceid <- login_loop login_info (Py.split ";" (RestURL login_info)) ;;
  match deviceid with
  | JNull => raise (InvalidShare "All url login fail.")
  | _ => ret deviceid
  end.

(** [error_code == constants.ERROR_CONNECT_TO_SERVER or
    error_code == constants.ERROR_UNAUTHORIZED_TO_SERVER]. *)
Definition needs_relogin (code : Json) : bool :=
  Py.eq code (JInt (ERROR_CONNECT_TO_SERVER consts)) ||
  Py.eq code (JInt (ERROR_UNAUTHORIZED_TO_SERVER consts)).

Definition call (url : string) (data : option string) (method : option string) : M Json :=
  log (EvCall url data method) ;;;
  old_url <- attr "url" ;;
  result <- do_call url data method (SOCKET_TIMEOUT consts) ;;
  code <- lift (error_code result) ;;
  deviceid <- (if needs_relogin code then login else ret JNull) ;;
  match deviceid with
  | JNull => ret result
  | _ => do_call url data method (SOCKET_TIMEOUT consts)
  end.

(** *** Replication pairs, HyperMetro pairs and snapshots *)

Definition delete_replication_pair (pair_id : string) : M unit :=
  result <- call ("/REPLICATIONPAIR/" +:+ pair_id) None (Some "DELETE") ;;
  code <- lift (error_code result) ;;
  if Py.eq code (JInt (ERROR_REPLICATION_PAIR_NOT_EXIST consts)) then ret tt
  else _assert_rest_result result ("Failed to delete replication pair " +:+ pair_id +:+ ".").

Definition delete_hypermetro_pair (pair_id : string) : M unit :=
  result <- call ("/HyperMetroPair/" +:+ pair_id) None (Some "DELETE") ;;
  code <- lift (error_code result) ;;
  if Py.eq code (JInt (ERROR_HYPERMETRO_NOT_EXIST consts)) then ret tt
  else _assert_rest_result result ("Delete HyperMetro pair " +:+ pair_id +:+ " error.").

Definition _delete_snapshot (snap_id : string) : M unit :=
  result <- call ("/FSSNAPSHOT/" +:+ snap_id)
              (Some (dumps (JObj [("TYPE", JStr "48"); ("ID", JStr snap_id)])))
              (Some "DELETE") ;;
  _assert_rest_result result "Delete snapshot error.".

Definition _check_snapshot_id_exist (snapshot_info : Json) : Result bool :=
  match error_code snapshot_info with
  | Raise x => Raise x
  | Return code =>
      if Py.eq code (JInt (MSG_SNAPSHOT_NOT_FOUND consts)) then Return false
      else if Py.eq code (JInt 0) then Return true
      else Raise (InvalidShareSnapshot
                    ("Check the snapshot id exists error!" +:+ Py.LF +:+ "result: "
                     +:+ py_str snapshot_info +:+ "."))
  end.

(** *** Shares and access rules *)

Definition _get_share_client_type (share_proto : string) : M string :=
  if String.eqb share_proto "NFS" then ret "NFS_SHARE_AUTH_CLIENT"
  else if String.eqb share_proto "CIFS" then ret "CIFS_SHARE_AUTH_CLIENT"
  else raise (InvalidInput ("Invalid NAS protocol supplied: " +:+ share_proto +:+ ".")).

(** [params = {'vstoreId': vstore_id} if vstore_id else None], then
    [jsonutils.dumps(params)] when it is set. *)
Definition vstore_params (vstore_id : option string) : option string :=
  match vstore_id with
  | Some v => if Py.truthy_str v then Some (dumps (JObj [("vstoreId", JStr v)])) else None
  | None => None
  end.

Definition _get_access_count (share_id share_client_type : string)
    (vstore_id : option string) : M Z :=
  result <- call ("/" +:+ share_client_type +:+ "/count?" +:+ "filter=PARENTID::" +:+ share_id)
              (vstore_params vstore_id) (Some "GET") ;;
  _assert_rest_result result "Get access count by share error!" ;;;
  _assert_data_in_result result "Get access count by share error!" ;;;
  d <- lift (Py.getitem result "data") ;;
  c <- lift (Py.getitem d "COUNT") ;;
  lift (Py.int c).

Definition access_range_url (share_id share_client_type : string) (range_begin : Z) : string :=
  "/" +:+ share_client_type +:+ "?filter=PARENTID::" +:+ share_id +:+ "&range=["
  +:+ Py.text_type range_begin +:+ "-" +:+ Py.text_type (range_begin + 100) +:+ "]".

Definition _get_access_from_share_range (share_id : string) (range_begin : Z)
    (share_client_type : string) (vstore_id : option string) : M Json :=
  result <- call (access_range_url share_id share_client_type range_begin)
              (vstore_params vstore_id) (Some "GET") ;;
  _assert_rest_result result "Get access id by share error!" ;;;
  lift (Py.get_default result "data" (JList [])).

(** [item['NAME'] in (access_to, '@' + access_to)]. *)
Definition names_access (access_to : string) (name : Json) : bool :=
  Py.eq name (JStr access_to) || Py.eq name (JStr ("@" +:+ access_to)).

(** The [for item in access_range] loop of [_get_access_from_share]:
    every item is looked at, and the last match stays. *)
Fixpoint scan_access (access_to : string) (items : list Json) (access_id : Json)
    : Result Json :=
  match items with
  | [] => Return access_id
  | item :: rest =>
      match Py.getitem item "NAME" with
      | Raise x => Raise x
      | Return name =>
          if names_access access_to name then
            match Py.getitem item "ID" with
            | Raise x => Raise x
            | Return i => scan_access access_to rest i
            end
          else scan_access access_to rest access_id
      end
  end.

(** The [while count > 0] loop of [_get_access_from_share].  [fuel]
    bounds the number of iterations; the loop answers [None] only when
    it runs out of it. *)
Fixpoint access_loop (fuel : nat) (share_id access_to share_client_type : string)
    (vstore_id : option string) (count range_begin : Z) (access_id : Json)
    (st : State) : option (Result Json * State) :=
  match fuel with
  | O => None
  | S fuel' =>
      if Z.ltb 0 count then
        if Py.truthy access_id then Some (Return access_id, st)
        else
          match _get_access_from_share_range share_id range_begin share_client_type
                  vstore_id st with
          | (Raise x, st') => Some (Raise x, st')
          | (Return access_range, st') =>
              match Py.iter access_range with
              | Raise x => Some (Raise x, st')
              | Return items =>
                  match scan_access access_to items access_id with
                  | Raise x => Some (Raise x, st')
                  | Return access_id' =>
                      access_loop fuel' share_id access_to share_client_type vstore_id
                        (count - 100) (range_begin + 100) access_id' st'
                  end
              end
          end
      else Some (Return access_id, st)
  end.

Definition _get_access_from_share (fuel : nat) (share_id access_to share_proto : string)
    (vstore_id : option string) (st : State) : option (Result Json * State) :=
  match _get_share_client_type share_proto st with
  | (Raise x, st1) => Some (Raise x, st1)
  | (Return share_client_type, st1) =>
      match _get_access_count share_id share_client_type vstore_id st1 with
      | (Raise x, st2) => Some (Raise x, st2)
      | (Return count, st2) =>
          access_loop fuel share_id access_to share_client_type vstore_id count 0 JNull st2
      end
  end.

Definition _get_share_path (share_name : string) : string :=
  "/" +:+ Py.replace "-" "_" share_name +:+ "/".

Definition _get_share_count (share_url_type : string) : M Z :=
  result <- call ("/" +:+ share_url_type +:+ "/count") None (Some "GET") ;;
  _assert_rest_result result "Get share count error!" ;;;
  d <- lift (Py.getitem result "data") ;;
  c <- lift (Py.getitem d "COUNT") ;;
  lift (Py.int c).

Definition share_range_url (share_url_type : string) (range_begin : Z) : string :=
  "/" +:+ share_url_type +:+ "?range=[" +:+ Py.text_type range_begin +:+ "-"
  +:+ Py.text_type (range_begin + 100) +:+ "]".

(** The [for item in result.get('data', [])] loop of
    [_get_share_by_name_range]: the first item with the path wins. *)
Fixpoint find_share (share_path : string) (items : list Json) : Result Json :=
  match items with
  | [] => Return (JObj [])
  | item :: rest =>
      match Py.getitem item "SHAREPATH" with
      | Raise x => Raise x
      | Return sp =>
          if Py.eq (JStr share_path) sp then
            match Py.getitem item "ID" with
            | Raise x => Raise x
            | Return i =>
                match Py.getitem item "FSID" with
                | Raise x => Raise x
                | Return f => Return (JObj [("ID", i); ("FSID", f)])
                end
            end
          else find_share share_path rest
      end
  end.

Definition _get_share_by_name_range (share_name : string) (range_begin : Z)
    (share_url_type : string) (vstore_id : option string) : M Json :=
  result <- call (share_range_url share_url_type range_begin)
              (vstore_params vstore_id) (Some "GET") ;;
  _assert_rest_result result "Get share by name error!" ;;;
  data <- lift (Py.get_default result "data" (JList [])) ;;
  items <- lift (Py.iter data) ;;
  lift (find_share (_get_share_path share_name) items).

(** The [while True] loop of [_get_share_by_name], left by its [break]. *)
Fixpoint share_loop (fuel : nat) (share_name share_url_type : string)
    (vstore_id : option string) (count range_begin : Z) (share : Json)
    (st : State) : option (Result Json * State) :=
  match fuel with
  | O => None
  | S fuel' =>
      if Z.ltb count 0 || Py.truthy share then Some (Return share, st)
      else
        match _get_share_by_name_range share_name range_begin share_url_type vstore_id st with
        | (Raise x, st') => Some (Raise x, st')
        | (Return share', st') =>
            share_loop fuel' share_name share_url_type vstore_id
              (count - 100) (range_begin + 100) share' st'
        end
  end.

Definition _get_share_by_name (fuel : nat) (share_name share_url_type : string)
    (vstore_id : option string) (st : State) : option (Result Json * State) :=
  match _get_share_count share_url_type st with
  | (Raise x, st1) => Some (Raise x, st1)
  | (Return count, st1) =>
      share_loop fuel share_name share_url_type vstore_id count 0 (JObj []) st1
  end.

(** *** CIFS access *)

Definition cifs_access (share_id access_to access_level domain_type : string)
    (vstore_id : option string) : Json :=
  JObj ([("NAME", JStr access_to);
         ("PARENTID", JStr share_id);
         ("PERMISSION", JStr access_level);
         ("DOMAINTYPE", JStr domain_type)]
        ++ match vstore_id with
           | Some v => if Py.truthy_str v then [("vstoreId", JStr v)] else []
           | None => []
           end).

(** The inner function [send_rest] of [_allow_cifs_access_rest]. *)
Definition send_rest (share_id access_level : string) (access_to domain_type : string)
    (vstore_id : option string) : M bool :=
  result <- call "/CIFS_SHARE_AUTH_CLIENT"
              (Some (dumps (cifs_access share_id access_to access_level domain_type vstore_id)))
              (Some "POST") ;;
  code <- lift (error_code result) ;;
  if Py.eq code (JInt 0) then ret true
  else if negb (Py.eq code (JInt (ERROR_USER_OR_GROUP_NOT_EXIST consts))) then
    _assert_rest_result result "Allow access error." ;;;
    ret false
  else ret false.

(** [domain_type = {'local': '2', 'ad': '0'}]. *)
Definition domain_type_local : string := "2".
Definition domain_type_ad : string := "0".

Definition _allow_cifs_access_rest (share_id access_to access_level : string)
    (vstore : option string) : M unit :=
  if negb (Py.has_char "\" access_to) then
    granted <- send_rest share_id access_level access_to domain_type_local vstore ;;
    if (granted : bool) then ret tt
    else
      granted <- send_rest share_id access_level ("@" +:+ access_to) domain_type_local vstore ;;
      if (granted : bool) then ret tt
      else raise (InvalidShare "Allow access error.")
  else
    granted <- send_rest share_id access_level access_to domain_type_ad vstore ;;
    if (granted : bool) then ret tt
    else
      granted <- send_rest share_id access_level ("@" +:+ access_to) domain_type_ad vstore ;;
      if (granted : bool) then ret tt
      else raise (InvalidShare "Allow access error.").

(** *** QoS policies *)

Definition get_qos : M Json :=
  result <- call "/ioclass" None (Some "GET") ;;
  _assert_rest_result result "Get QoS information error." ;;;
  ret result.

(** The [for key in constants.OPTS_QOS_VALUE] loop of
    [find_available_qos]: [true] when it ends without [break]. *)
Fixpoint qos_keys_match (temp_qos item : Json) (keys : list string) : Result bool :=
  match keys with
  | [] => Return true
  | key :: rest =>
      match Py.get temp_qos (Py.upper key) with
      | Raise x => Raise x
      | Return a =>
          match Py.get item (Py.upper key) with
          | Raise x => Raise x
          | Return b =>
              if negb (Py.eq_opt a b) then Return false
              else qos_keys_match temp_qos item rest
          end
      end
  end.

(** [len(item['FSLIST'].split(","))]. *)
Definition fs_num (fslist : string) : Z :=
  Z.of_nat (length (Py.split "," fslist)).

(** The literal ['[""]']. *)
Definition empty_list_string : string := "[" +:+ Py.DQ +:+ Py.DQ +:+ "]".

(** The test under the [else] of the key loop, evaluated left to
    right: running status, number of filesystems, name, LUN list. *)
Definition qos_usable (item : Json) : Result bool :=
  match Py.getitem item "FSLIST" with
  | Raise x => Raise x
  | Return (JStr fslist) =>
      match Py.getitem item "RUNNINGSTATUS" with
      | Raise x => Raise x
      | Return status =>
          if negb (Py.eq status (JStr (STATUS_QOS_ACTIVE consts))) then Return false
          else if negb (Z.ltb (fs_num fslist) (MAX_FS_NUM_IN_QOS consts)) then Return false
          else
            match Py.getitem item "NAME" with
            | Raise x => Raise x
            | Return (JStr name) =>
                if negb (String.prefix (QOS_NAME_PREFIX consts) name) then Return false
                else
                  match Py.getitem item "LUNLIST" with
                  | Raise x => Raise x
                  | Return lunlist => Return (Py.eq lunlist (JStr empty_list_string))
                  end
            | Return _ => Raise (AttributeError "startswith")
            end
      end
  | Return _ => Raise (AttributeError "split")
  end.

(** The [for item in result['data']] loop of [find_available_qos]; its
    value is the pair [(qos_id, fs_list)] when the loop is left. *)
Fixpoint qos_loop (temp_qos : Json) (items : list Json) : Result (Json * Json) :=
  match items with
  | [] => Return (JNull, JList [])
  | item :: rest =>
      match qos_keys_match temp_qos item (OPTS_QOS_VALUE consts) with
      | Raise x => Raise x
      | Return false => qos_loop temp_qos rest
      | Return true =>
          match qos_usable item with
          | Raise x => Raise x
          | Return false => qos_loop temp_qos rest
          | Return true =>
              match Py.getitem item "ID" with
              | Raise x => Raise x
              | Return qos_id =>
                  match Py.getitem item "FSLIST" with
                  | Raise x => Raise x
                  | Return fs_list => Return (qos_id, fs_list)
                  end
              end
          end
      end
  end.

(** [if 'LATENCY' not in temp_qos: temp_qos['LATENCY'] = '0']. *)
Definition with_latency (qos : Json) : Result Json :=
  match Py.contains "LATENCY" qos with
  | Raise x => Raise x
  | Return true => Return qos
  | Return false =>
      match qos with
      | JObj kv => Return (JObj (Py.dict_set "LATENCY" (JStr "0") kv))
      | _ => Raise TypeError
      end
  end.

Definition find_available_qos (qos : Json) : M (Json * Json) :=
  result <- get_qos ;;
  present <- lift (Py.contains "data" result) ;;
  if (present : bool) then
    temp_qos <- lift (with_latency qos) ;;
    data <- lift (Py.getitem result "data") ;;
    items <- lift (Py.iter data) ;;
    lift (qos_loop temp_qos items)
  else ret (JNull, JList []).

(** The list [add_share_to_qos] builds from the policy's [FSLIST]
    string before it appends [fs_id]. *)
Definition kept_fs_ids (fs_id : string) (fs_list : string) : list string :=
  List.filter
    (fun tmp_fs_id => negb (String.eqb "" tmp_fs_id) && negb (String.eqb tmp_fs_id fs_id))
    (map Py.slice_1_m1 (Py.split "," (Py.slice_1_m1 fs_list))).

Definition new_fs_list (fs_id : string) (fs_list : string) : list string :=
  kept_fs_ids fs_id fs_list ++ [fs_id].

Definition qos_update (qos_id fs_id fs_list : string) : Json :=
  JObj [("FSLIST", JList (map JStr (new_fs_list fs_id fs_list)));
        ("TYPE", JInt 230);
        ("ID", JStr qos_id)].

Definition add_share_to_qos (qos_id fs_id fs_list : string) : M unit :=
  result <- call ("/ioclass/" +:+ qos_id) (Some (dumps (qos_update qos_id fs_id fs_list)))
              (Some "PUT") ;;
  _assert_rest_result result "Associate filesystem to Qos error.".

(** *** More of the resource operations *)

(** [constants.ERROR_LOGICAL_PORT_EXIST]. *)
Variable ERROR_LOGICAL_PORT_EXIST : Z.

(** What [huawei_utils.get_logical_ips(self)] returns, or the exception
    it ends in. *)
Variable get_logical_ips : Result (list string).

Definition _get_share_url_type (share_proto : string) : M string :=
  if String.eqb share_proto "NFS" then ret "NFSHARE"
  else if String.eqb share_proto "CIFS" then ret "CIFSHARE"
  else raise (InvalidInput ("Invalid NAS protocol supplied: " +:+ share_proto +:+ ".")).

(** The [filepath] dict of [create_share] before [vstoreId] is added. *)
Definition share_fields (share_name fs_id share_proto : string)
    : Result (list (string * Json)) :=
  if String.eqb share_proto "NFS" then
    Return [("DESCRIPTION", JStr "");
            ("FSID", JStr fs_id);
            ("SHAREPATH", JStr (_get_share_path share_name))]
  else if String.eqb share_proto "CIFS" then
    Return [("SHAREPATH", JStr (_get_share_path share_name));
            ("DESCRIPTION", JStr "");
            ("ABEENABLE", JStr "false");
            ("ENABLENOTIFY", JStr "true");
            ("ENABLEOPLOCK", JStr "true");
            ("NAME", JStr (Py.replace "-" "_" share_name));
            ("FSID", JStr fs_id);
            ("TENANCYID", JStr "0")]
  else Raise (InvalidShare ("Invalid NAS protocol supplied: " +:+ share_proto +:+ ".")).

(** [if vstore_id: d["vstoreId"] = vstore_id]. *)
Definition with_vstore (vstore_id : option string) (d : list (string * Json))
    : list (string * Json) :=
  match vstore_id with
  | Some v => if Py.truthy_str v then Py.dict_set "vstoreId" (JStr v) d else d
  | None => d
  end.

Definition create_share (share_name fs_id share_proto : string)
    (vstore_id : option string) : M Json :=
  share_url_type <- _get_share_url_type share_proto ;;
  filepath <- lift (share_fields share_name fs_id share_proto) ;;
  result <- call ("/" +:+ share_url_type)
              (Some (dumps (JObj (with_vstore vstore_id filepath)))) (Some "POST") ;;
  _assert_rest_result result "Create share error." ;;;
  _assert_data_in_result result "Create share error." ;;;
  d <- lift (Py.getitem result "data") ;;
  lift (Py.getitem d "ID").


Definition _remove_access_from_share (access_id share_proto : string)
    (vstore_id : option string) : M unit :=
  access_type <- _get_share_client_type share_proto ;;
  result <- call ("/" +:+ access_type +:+ "/" +:+ access_id) (vstore_params vstore_id)
              (Some "DELETE") ;;
  _assert_rest_result result "delete access from share error!".

(** [v.get(k)] with [None] as the value it is in Python. *)
Definition get_or_none (v : Json) (k : string) : Result Json :=
  match Py.get v k with
  | Return (Some x) => Return x
  | Return None => Return JNull
  | Raise x => Raise x
  end.

Definition _get_level_by_access_id (access_id share_proto : string)
    (vstore_id : option string) : M Json :=
  share_client_type <- _get_share_client_type share_proto ;;
  result <- call ("/" +:+ share_client_type +:+ "/" +:+ access_id) (vstore_params vstore_id)
              (Some "GET") ;;
  _assert_rest_result result "Get access information error!" ;;;
  access_info <- lift (Py.get_default result "data" (JList [])) ;;
  access_level <- lift (get_or_none access_info "ACCESSVAL") ;;
  if negb (Py.truthy access_level) then lift (get_or_none access_info "PERMISSION")
  else ret access_level.

Definition _change_nfs_access_rest (access_id access_level : string)
    (vstore_id : option string) : M unit :=
  result <- call ("/NFS_SHARE_AUTH_CLIENT/" +:+ access_id)
              (Some (dumps (JObj (with_vstore vstore_id
                                    [("ACCESSVAL", JStr access_level);
                                     ("SYNC", JStr "0");
                                     ("ALLSQUASH", JStr "1");
                                     ("ROOTSQUASH", JStr "0")]))))
              (Some "PUT") ;;
  _assert_rest_result result "Change access error.".

Definition _change_cifs_access_rest (access_id access_level : string)
    (vstore_id : option string) : M unit :=
  result <- call ("/CIFS_SHARE_AUTH_CLIENT/" +:+ access_id)
              (Some (dumps (JObj (with_vstore vstore_id
                                    [("PERMISSION", JStr access_level)]))))
              (Some "PUT") ;;
  _assert_rest_result result "Change access error.".

Definition _change_access_rest (access_id share_proto access_level : string)
    (vstore_id : option string) : M unit :=
  if String.eqb share_proto "NFS" then _change_nfs_access_rest access_id access_level vstore_id
  else if String.eqb share_proto "CIFS"
  then _change_cifs_access_rest access_id access_level vstore_id
  else raise (InvalidInput ("Invalid NAS protocol supplied: " +:+ share_proto +:+ ".")).

(** The [for item in access_range] loop of [_get_all_access_from_share]:
    the ids the page adds. *)
Fixpoint page_ids (items : list Json) : Result (list Json) :=
  match items with
  | [] => Return []
  | item :: rest =>
      match Py.getitem item "ID" with
      | Raise x => Raise x
      | Return i =>
          match page_ids rest with
          | Raise x => Raise x
          | Return ids => Return (i :: ids)
          end
      end
  end.

(** The [while count > 0] loop of [_get_all_access_from_share]. *)
Fixpoint all_access_loop (fuel : nat) (share_id share_client_type : string)
    (vstore_id : option string) (count range_begin : Z) (access_ids : list Json)
    (st : State) : option (Result (list Json) * State) :=
  match fuel with
  | O => None
  | S fuel' =>
      if Z.ltb 0 count then
        match _get_access_from_share_range share_id range_begin share_client_type
                vstore_id st with
        | (Raise x, st') => Some (Raise x, st')
        | (Return access_range, st') =>
            match Py.iter access_range with
            | Raise x => Some (Raise x, st')
            | Return items =>
                match page_ids items with
                | Raise x => Some (Raise x, st')
                | Return ids =>
                    all_access_loop fuel' share_id share_client_type vstore_id
                      (count - 100) (range_begin + 100) (access_ids ++ ids) st'
                end
            end
        end
      else Some (Return access_ids, st)
  end.

Definition _get_all_access_from_share (fuel : nat) (share_id share_proto : string)
    (vstore_id : option string) (st : State) : option (Result (list Json) * State) :=
  match _get_share_client_type share_proto st with
  | (Raise x, st1) => Some (Raise x, st1)
  | (Return share_client_type, st1) =>
      match _get_access_count share_id share_client_type None st1 with
      | (Raise x, st2) => Some (Raise x, st2)
      | (Return count, st2) =>
          all_access_loop fuel share_id share_client_type vstore_id count 0 [] st2
      end
  end.

(** The loop [for item in ...: if name == item['NAME']: return item['ID']]
    of the lookups by name; [None] when it runs out. *)
Fixpoint find_id_by_name (name : string) (items : list Json) : Result Json :=
  match items with
  | [] => Return JNull
  | item :: rest =>
      match Py.getitem item "NAME" with
      | Raise x => Raise x
      | Return n =>
          if Py.eq (JStr name) n then Py.getitem item "ID"
          else find_id_by_name name rest
      end
  end.

Definition get_fsid_by_name (share_name : string) : M Json :=
  result <- call "/FILESYSTEM?range=[0-8191]" None (Some "GET") ;;
  _assert_rest_result result "Get filesystem by name error!" ;;;
  data <- lift (Py.get_default result "data" (JList [])) ;;
  items <- lift (Py.iter data) ;;
  lift (find_id_by_name (Py.replace "-" "_" share_name) items).

Definition _get_partition_id_by_name (name : string) : M Json :=
  result <- call "/cachepartition" None (Some "GET") ;;
  _assert_rest_result result "Get partition by name error." ;;;
  present <- lift (Py.contains "data" result) ;;
  if (present : bool) then
    data <- lift (Py.getitem result "data") ;;
    items <- lift (Py.iter data) ;;
    lift (find_id_by_name name items)
  else ret JNull.

Definition _get_cache_id_by_name (name : string) : M Json :=
  result <- call "/SMARTCACHEPARTITION" None (Some "GET") ;;
  _assert_rest_result result "Get cache by name error." ;;;
  present <- lift (Py.contains "data" result) ;;
  if (present : bool) then
    data <- lift (Py.getitem result "data") ;;
    items <- lift (Py.iter data) ;;
    lift (find_id_by_name name items)
  else ret JNull.

(** [d.pop(k)] on a dict: the value, and the dict without the key. *)
Definition dict_pop (k : string) (kv : list (string * Json))
    : Result (Json * list (string * Json)) :=
  match Py.dict_get k kv with
  | Some v => Return (v, Py.dict_del k kv)
  | None => Raise (KeyError k)
  end.

(** The [fs_result.update({...fs_result.pop(...)...})] of
    [_get_fs_info_by_id]: the five values are popped in the order of
    the literal, then stored under their new names. *)
Definition rename_fs_fields (fs_result : Json) : Result Json :=
  match fs_result with
  | JObj kv0 =>
      match dict_pop "PARENTNAME" kv0 with
      | Raise x => Raise x
      | Return (v1, kv1) =>
      match dict_pop "ENABLECOMPRESSION" kv1 with
      | Raise x => Raise x
      | Return (v2, kv2) =>
      match dict_pop "ENABLEDEDUP" kv2 with
      | Raise x => Raise x
      | Return (v3, kv3) =>
      match dict_pop "CACHEPARTITIONID" kv3 with
      | Raise x => Raise x
      | Return (v4, kv4) =>
      match dict_pop "SMARTCACHEPARTITIONID" kv4 with
      | Raise x => Raise x
      | Return (v5, kv5) =>
          Return (JObj (Py.dict_set "SMARTCACHEID" v5
                         (Py.dict_set "SMARTPARTITIONID" v4
                           (Py.dict_set "DEDUP" v3
                             (Py.dict_set "COMPRESSION" v2
                               (Py.dict_set "POOLNAME" v1 kv5))))))
      end end end end end
  | _ => Raise (AttributeError "update")
  end.

Definition _get_fs_info_by_id (fsid : string) : M Json :=
  result <- call ("/filesystem/" +:+ fsid) None (Some "GET") ;;
  _assert_rest_result result "Get filesystem info by id error!" ;;;
  _assert_data_in_result result "Get filesystem info by id error!" ;;;
  fs_result <- lift (Py.getitem result "data") ;;
  lift (rename_fs_fields fs_result).

(** The parsing of [_get_share_name_by_export_location]: the pair
    [(share_name, share_ip)], or [None] for both. *)
Definition parse_export_location (export_location : option string) (share_proto : string)
    : option (string * string) :=
  match export_location with
  | None => None
  | Some loc =>
      if Py.truthy_str loc then
        if String.eqb share_proto "NFS" then
          match Py.split_str ":/" loc with
          | [share_ip; share_name] => Some (share_name, share_ip)
          | _ => None
          end
        else if String.eqb share_proto "CIFS" then
          match Py.split "\" loc with
          | [e0; e1; share_ip; share_name] =>
              if String.eqb e0 "" && String.eqb e1 "" then Some (share_name, share_ip)
              else None
          | _ => None
          end
        else None
      else None
  end.

Definition _get_share_name_by_export_location (export_location : option string)
    (share_proto : string) : Result string :=
  match parse_export_location export_location share_proto with
  | None =>
      Raise (InvalidInput
               ("No share with export location "
                +:+ match export_location with Some loc => loc | None => "None" end
                +:+ " could be found."))
  | Some (share_name, share_ip) =>
      match get_logical_ips with
      | Raise x => Raise x
      | Return target_ips =>
          if negb (existsb (String.eqb share_ip) target_ips)
          then Raise (InvalidInput ("The share IP " +:+ share_ip +:+ " is not configured."))
          else Return share_name
      end
  end.

Definition get_qos_info (qos_id : string) : M Json :=
  result <- call ("/ioclass/" +:+ qos_id) None (Some "GET") ;;
  _assert_rest_result result "Get QoS information error." ;;;
  lift (Py.getitem result "data").

(** [qos_info['FSLIST'][1:-1]] and the loop over its [split(",")]. *)
Definition fs_list_of (fslist : Json) : Result (list string) :=
  match fslist with
  | JStr s => Return (map Py.slice_1_m1 (Py.split "," (Py.slice_1_m1 s)))
  | JList _ => Raise (AttributeError "split")
  | _ => Raise TypeError
  end.

Definition get_fs_list_in_qos (qos_id : string) : M (list string) :=
  qos_info <- get_qos_info qos_id ;;
  fslist <- lift (Py.getitem qos_info "FSLIST") ;;
  lift (fs_list_of fslist).

(** [[i for i in fs_list if i != fs_id]]. *)
Definition without_fs (fs_id : string) (fs_list : list string) : list string :=
  List.filter (fun i => negb (String.eqb i fs_id)) fs_list.

Definition remove_fs_from_qos (fs_id : string) (fs_list : list string) (qos_id : string)
    : M unit :=
  result <- call ("/ioclass/" +:+ qos_id)
              (Some (dumps (JObj [("FSLIST", JList (map JStr (without_fs fs_id fs_list)));
                                  ("TYPE", JInt 230);
                                  ("ID", JStr qos_id)])))
              (Some "PUT") ;;
  _assert_rest_result result "Remove filesystem from QoS error.".

Definition delete_vlan (vlan_id : string) : M unit :=
  result <- call ("/vlan/" +:+ vlan_id) None (Some "DELETE") ;;
  code <- lift (error_code result) ;;
  if Py.eq code (JInt ERROR_LOGICAL_PORT_EXIST) then ret tt
  else _assert_rest_result result "Delete vlan error.".

Definition _activate_logical_port (logical_port_id : Json) : M unit :=
  url <- lift (concat_url "/LIF/" logical_port_id) ;;
  result <- call url (Some (dumps (JObj [("OPERATIONALSTATUS", JStr "true")])))
              (Some "PUT") ;;
  _assert_rest_result result "Activate logical port error.".

(** [home_port_id == item['HOMEPORTID'] and ip == item['IPV4ADDR'] and
    subnet == item['IPV4MASK']], evaluated left to right. *)
Definition lif_matches (home_port_id ip subnet : string) (item : Json) : Result bool :=
  match Py.getitem item "HOMEPORTID" with
  | Raise x => Raise x
  | Return h =>
      if negb (Py.eq (JStr home_port_id) h) then Return false
      else
        match Py.getitem item "IPV4ADDR" with
        | Raise x => Raise x
        | Return a =>
            if negb (Py.eq (JStr ip) a) then Return false
            else
              match Py.getitem item "IPV4MASK" with
              | Raise x => Raise x
              | Return m => Return (Py.eq (JStr subnet) m)
              end
        end
  end.

(** The [for item in result['data']] loop of [get_logical_port]. *)
Fixpoint lif_loop (home_port_id ip subnet : string) (items : list Json)
    : M (bool * Json) :=
  match items with
  | [] => ret (false, JNull)
  | item :: rest =>
      matches <- lift (lif_matches home_port_id ip subnet item) ;;
      if (matches : bool) then
        status <- lift (Py.getitem item "OPERATIONALSTATUS") ;;
        (if negb (Py.eq status (JStr "true"))
         then (i <- lift (Py.getitem item "ID") ;; _activate_logical_port i)
         else ret tt) ;;;
        i <- lift (Py.getitem item "ID") ;;
        ret (true, i)
      else lif_loop home_port_id ip subnet rest
  end.

Definition get_logical_port (home_port_id ip subnet : string) : M (bool * Json) :=
  result <- call "/LIF" None (Some "GET") ;;
  _assert_rest_result result "Get logical port error." ;;;
  present <- lift (Py.contains "data" result) ;;
  if negb present then ret (false, JNull)
  else
    data <- lift (Py.getitem result "data") ;;
    items <- lift (Py.iter data) ;;
    lif_loop home_port_id ip subnet items.

Definition set_DNS_ip_address (dns_ip_list : list string) : M Json :=
  if Nat.ltb 3 (length dns_ip_list)
  then raise (InvalidInput "Most three ips can be set to DNS.")
  else
    result <- call "/DNS_Server"
                (Some (dumps (JObj [("ADDRESS", JStr (dumps (JList (map JStr dns_ip_list))));
                                    ("TYPE", JStr "260")])))
                (Some "PUT") ;;
    _assert_rest_result result "Set DNS ip address error." ;;;
    present <- lift (Py.contains "data" result) ;;
    if (present : bool) then lift (Py.getitem result "data") else ret JNull.

(** The [poolinfo] dict [_find_pool_info] fills from the pool it
    takes. *)
Definition pool_fields (pool_name : string) (item : Json) : Result Json :=
  match Py.getitem item "ID" with
  | Raise x => Raise x
  | Return i =>
  match Py.getitem item "USERFREECAPACITY" with
  | Raise x => Raise x
  | Return free =>
  match Py.getitem item "USERTOTALCAPACITY" with
  | Raise x => Raise x
  | Return total =>
  match Py.getitem item "USERCONSUMEDCAPACITY" with
  | Raise x => Raise x
  | Return consumed =>
  match Py.getitem item "TIER0CAPACITY" with
  | Raise x => Raise x
  | Return tier0 =>
      let poolinfo :=
        [("name", JStr pool_name); ("ID", i); ("CAPACITY", free);
         ("TOTALCAPACITY", total); ("CONSUMEDCAPACITY", consumed);
         ("TIER0CAPACITY", tier0)] in
      match Py.contains "TIER1CAPACITY" item with
      | Raise x => Raise x
      | Return has1 =>
          match (if has1 then Py.getitem item "TIER1CAPACITY" else Return JNull) with
          | Raise x => Raise x
          | Return tier1 =>
              let poolinfo :=
                if has1 then Py.dict_set "TIER1CAPACITY" tier1 poolinfo else poolinfo in
              match Py.contains "TIER2CAPACITY" item with
              | Raise x => Raise x
              | Return has2 =>
                  match (if has2 then Py.getitem item "TIER2CAPACITY" else Return JNull) with
                  | Raise x => Raise x
                  | Return tier2 =>
                      Return (JObj (if has2
                                    then Py.dict_set "TIER2CAPACITY" tier2 poolinfo
                                    else poolinfo))
                  end
              end
          end
      end
  end end end end end.

(** [pool_name == item['NAME'] and '2' == item['USAGETYPE']]. *)
Definition pool_matches (pool_name : string) (item : Json) : Result bool :=
  match Py.getitem item "NAME" with
  | Raise x => Raise x
  | Return n =>
      if negb (Py.eq (JStr pool_name) n) then Return false
      else
        match Py.getitem item "USAGETYPE" with
        | Raise x => Raise x
        | Return u => Return (Py.eq (JStr "2") u)
        end
  end.

(** The [for item in result.get('data', [])] loop of [_find_pool_info],
    left by [break] at the first pool that matches. *)
Fixpoint find_pool (pool_name : string) (items : list Json) : Result Json :=
  match items with
  | [] => Return (JObj [])
  | item :: rest =>
      match pool_matches pool_name item with
      | Raise x => Raise x
      | Return true => pool_fields pool_name item
      | Return false => find_pool pool_name rest
      end
  end.

Definition _find_pool_info (pool_name : option string) (result : Json) : Result Json :=
  match pool_name with
  | None => Return JNull
  | Some name =>
      match Py.get_default result "data" (JList []) with
      | Raise x => Raise x
      | Return data =>
          match Py.iter data with
          | Raise x => Raise x
          | Return items => find_pool (Py.strip_ws name) items
          end
      end
  end.

(** What [huawei_utils.get_share_extra_specs_params(share_type_id)]
    returns, or the exception it ends in. *)
Variable get_share_extra_specs_params : string -> Result Json.

(** [if specs.get(k): access[K] = specs[k]]. *)
Definition spec_override (specs : Json) (k K : string) (access : list (string * Json))
    : Result (list (string * Json)) :=
  match get_or_none specs k with
  | Raise x => Raise x
  | Return v =>
      if Py.truthy v then
        match Py.getitem specs k with
        | Raise x => Raise x
        | Return x => Return (Py.dict_set K x access)
        end
      else Return access
  end.

(** The [access] dict of [_allow_nfs_access_rest] before [vstoreId]
    is added. *)
Definition nfs_access (share_id access_to access_level : string)
    (share_type_id : option string) : Result (list (string * Json)) :=
  let access :=
    [("TYPE", JStr "16409");
     ("NAME", JStr access_to);
     ("PARENTID", JStr share_id);
     ("ACCESSVAL", JStr access_level);
     ("SYNC", JStr "0");
     ("ALLSQUASH", JStr "1");
     ("ROOTSQUASH", JStr "0")] in
  match share_type_id with
  | None => Return access
  | Some t =>
      if Py.truthy_str t then
        match get_share_extra_specs_params t with
        | Raise x => Raise x
        | Return specs =>
            if Py.truthy specs then
              match spec_override specs "sync" "SYNC" access with
              | Raise x => Raise x
              | Return access1 =>
              match spec_override specs "allsquash" "ALLSQUASH" access1 with
              | Raise x => Raise x
              | Return access2 =>
              match spec_override specs "rootsquash" "ROOTSQUASH" access2 with
              | Raise x => Raise x
              | Return access3 => spec_override specs "secure" "SECURE" access3
              end end end
            else Return access
        end
      else Return access
  end.

Definition _allow_nfs_access_rest (share_id access_to access_level : string)
    (share_type_id vstore_id : option string) : M unit :=
  access <- lift (nfs_access share_id access_to access_level share_type_id) ;;
  result <- call "/NFS_SHARE_AUTH_CLIENT"
              (Some (dumps (JObj (with_vstore vstore_id access)))) (Some "POST") ;;
  _assert_rest_result result "Allow access error.".

Definition _allow_access_rest (share_id access_to share_proto access_level : string)
    (share_type_id vstore_id : option string) : M unit :=
  if String.eqb share_proto "NFS"
  then _allow_nfs_access_rest share_id access_to access_level share_type_id vstore_id
  else if String.eqb share_proto "CIFS"
  then _allow_cifs_access_rest share_id access_to access_level vstore_id
  else raise (InvalidInput ("Invalid NAS protocol supplied: " +:+ share_proto +:+ ".")).

(** *** Reading the ghost record *)

(** The domain type [_allow_cifs_access_rest] grants under. *)
Definition grant_domain (access_to : string) : string :=
  if Py.has_char "\" access_to then domain_type_ad else domain_type_local.

(** The grant request for a name. *)
Definition grant (share_id access_level : string) (vstore : option string)
    (name domain_type : string) : M Json :=
  call "/CIFS_SHARE_AUTH_CLIENT"
    (Some (dumps (cifs_access share_id name access_level domain_type vstore)))
    (Some "POST").

(** The reason [_assert_rest_result] gives for a failed envelope. *)
Definition failure_reason (err_str : string) (result : Json) : string :=
  err_str +:+ Py.LF +:+ "result: " +:+ py_str result +:+ ".".

(** The requests handed to [call], in order. *)
Fixpoint calls (t : list Event) : list (string * option string * option string) :=
  match t with
  | [] => []
  | EvCall url data method :: t' => (url, data, method) :: calls t'
  | _ :: t' => calls t'
  end.

(** The requests sent to the array, in order. *)
Fixpoint exchanges (t : list Event) : list Request :=
  match t with
  | [] => []
  | EvExchange r :: t' => r :: exchanges t'
  | _ :: t' => exchanges t'
  end.

(** How many times [login] was entered. *)
Fixpoint logins (t : list Event) : nat :=
  match t with
  | [] => O
  | EvLogin :: t' => S (logins t')
  | _ :: t' => logins t'
  end.

(** A computation is silent when it adds to the record neither a
    [call] nor a [login]. *)
Definition silent {A} (m : M A) : Prop :=
  forall st, exists t,
    trace (snd (m st)) = trace st ++ t /\ calls t = [] /\ logins t = O.

(** A computation that hands nothing to [call]. *)
Definition callfree {A} (m : M A) : Prop :=
  forall st, calls (trace (snd (m st))) = calls (trace st).

(** The state [call] works from once it has been entered. *)
Definition entered (url : string) (data : option string) (method : option string)
    (st : State) : State :=
  {| world := world st; self := self st; trace := trace st ++ [EvCall url data method] |}.

(** The request [login] sends to a candidate: the session is fresh. *)
Definition login_request (login_info : LoginInfo) (item_url : string) : Request :=
  request_of fresh_attrs (login_url item_url) (Some (login_data login_info)) None
    (LOGIN_SOCKET_TIMEOUT consts).

(** The array's answers to the candidates [urls], asked in order from
    the world [w], are all envelopes that [login] rejects; the value is
    the world after the last of them. *)
Fixpoint rejected_run (login_info : LoginInfo) (urls : list string) (w : World)
    : option World :=
  match urls with
  | [] => Some w
  | item_url :: rest =>
      let (out, w') := http w (login_request login_info item_url) in
      match outcome_result out with
      | Return result =>
          match login_rejects result with
          | Return true => rejected_run login_info rest w'
          | _ => None
          end
      | Raise _ => None
      end
  end.

(** What [login] leaves in the ghost record for the candidates it
    went through. *)
Definition attempt_events (login_info : LoginInfo) (urls : list string) : list Event :=
  flat_map (fun item_url => [EvInitHead; EvExchange (login_request login_info item_url)]) urls.

(** The attributes once [login] has stored the base URL and the token
    of the candidate it accepted. *)
Definition accepted_attrs (item_url deviceid : string) (token : Json) : Attrs :=
  {| self_url := Some (item_url +:+ deviceid);
     self_session :=
       {| headers := <["iBaseToken" := token]> (headers (self_session fresh_attrs));
          verify := false |} |}.

(** The helper after [login] went through the candidates [urls], which
    took the world to [w]. *)
Definition after_attempts (login_info : LoginInfo) (urls : list string) (st : State)
    (w : World) : State :=
  match urls with
  | [] => st
  | _ :: _ => {| world := w; self := Some fresh_attrs;
                 trace := trace st ++ attempt_events login_info urls |}
  end.

(** The state [login] works from once it has been entered. *)
Definition login_entered (st : State) : State :=
  {| world := world st; self := self st; trace := trace st ++ [EvLogin] |}.

(** The base URL and the token the helper has stored. *)
Definition stored_url (st : State) : option string :=
  match self st with
  | Some a => self_url a
  | None => None
  end.

Definition stored_token (st : State) : option Json :=
  match self st with
  | Some a => headers (self_session a) !! "iBaseToken"
  | None => None
  end.

(** The starts [b, b + 100, ...] of [k] successive windows. *)
Fixpoint windows_from (b : Z) (k : nat) : list Z :=
  match k with
  | O => []
  | S k' => b :: windows_from (b + 100) k'
  end.

Definition windows (k : nat) : list Z := windows_from 0 k.

(** The page requests of the two scans, as [call] receives them. *)
Definition access_page_call (share_id share_client_type : string)
    (vstore_id : option string) (b : Z) : string * option string * option string :=
  (access_range_url share_id share_client_type b, vstore_params vstore_id, Some "GET").

Definition share_page_call (share_url_type : string) (vstore_id : option string) (b : Z)
    : string * option string * option string :=
  (share_range_url share_url_type b, vstore_params vstore_id, Some "GET").

(** No item of a page is named [access_to] or [@access_to]. *)
Definition no_match (access_to : string) (items : list Json) : bool :=
  forallb (fun item =>
             match Py.getitem item "NAME" with
             | Return name => negb (names_access access_to name)
             | Raise _ => false
             end) items.

(** The array's answers to the [k] windows from [b] on, asked in
    order from [st], are pages without a match; the value is the helper
    after the last of them. *)
Fixpoint access_misses (share_id access_to share_client_type : string)
    (vstore_id : option string) (k : nat) (b : Z) (st : State) : option State :=
  match k with
  | O => Some st
  | S k' =>
      match _get_access_from_share_range share_id b share_client_type vstore_id st with
      | (Return access_range, st') =>
          match Py.iter access_range with
          | Return items =>
              if no_match access_to items
              then access_misses share_id access_to share_client_type vstore_id k'
                     (b + 100) st'
              else None
          | Raise _ => None
          end
      | (Raise _, _) => None
      end
  end.

Fixpoint share_misses (share_name share_url_type : string) (vstore_id : option string)
    (k : nat) (b : Z) (st : State) : option State :=
  match k with
  | O => Some st
  | S k' =>
      match _get_share_by_name_range share_name b share_url_type vstore_id st with
      | (Return share, st') =>
          if Py.truthy share then None
          else share_misses share_name share_url_type vstore_id k' (b + 100) st'
      | (Raise _, _) => None
      end
  end.

(** The string the array keeps a policy's filesystem list in, as the
    spec words it: the ids wrapped in quotes, separated by commas, in
    brackets; the empty list is the ['[""]'] that [find_available_qos]
    tests the LUN list against. *)
Definition fslist_string (ids : list string) : string :=
  match ids with
  | [] => empty_list_string
  | _ :: _ => "[" +:+ Py.join "," (map (fun i => Py.DQ +:+ i +:+ Py.DQ) ids) +:+ "]"
  end.

(** An id that can stand in such a string: not empty, and without a
    comma. *)
Definition id_ok (i : string) : bool :=
  negb (String.eqb "" i) && negb (Py.has_char "," i).

(** What the two scans hand to [call] when they ask for the count and
    then for [k] windows. *)
Definition access_scan_calls (share_id share_client_type : string)
    (vstore_id : option string) (k : nat) : list (string * option string * option string) :=
  ("/" +:+ share_client_type +:+ "/count?" +:+ "filter=PARENTID::" +:+ share_id,
   vstore_params vstore_id, Some "GET")
  :: map (access_page_call share_id share_client_type vstore_id) (windows k).

Definition share_scan_calls (share_url_type : string) (vstore_id : option string) (k : nat)
    : list (string * option string * option string) :=
  ("/" +:+ share_url_type +:+ "/count", None, Some "GET")
  :: map (share_page_call share_url_type vstore_id) (windows k).

(** The number of windows in a budget of [n] items: [ceil(n / 100)]
    for the access scan, [floor(n / 100) + 1] for the share scan. *)
Definition pages_access (n : Z) : nat := Z.to_nat ((n + 99) / 100).

Definition pages_share (n : Z) : nat := S (Z.to_nat (n / 100)).

(** The outcome of an operation that turns the protocol down before
    anything is sent. *)
Definition protocol_rejected {A} (share_proto : string) (st : State) : Result A * State :=
  (Raise (InvalidInput ("Invalid NAS protocol supplied: " +:+ share_proto +:+ ".")), st).

(** The ids the [k] windows from [b] on hold, asked in order from
    [st], and the helper after the last of them. *)
Fixpoint access_pages (share_id share_client_type : string) (vstore_id : option string)
    (k : nat) (b : Z) (st : State) : option (list Json * State) :=
  match k with
  | O => Some ([], st)
  | S k' =>
      match _get_access_from_share_range share_id b share_client_type vstore_id st with
      | (Return access_range, st') =>
          match Py.iter access_range with
          | Return items =>
              match page_ids items with
              | Return ids =>
                  match access_pages share_id share_client_type vstore_id k' (b + 100) st' with
                  | Some (more, st2) => Some (ids ++ more, st2)
                  | None => None
                  end
              | Raise _ => None
              end
          | Raise _ => None
          end
      | (Raise _, _) => None
      end
  end.

(** The keys [_get_fs_info_by_id] renames: the array's name, then
    the driver's. *)
Definition fs_renames : list (string * string) :=
  [("PARENTNAME", "POOLNAME");
   ("ENABLECOMPRESSION", "COMPRESSION");
   ("ENABLEDEDUP", "DEDUP");
   ("CACHEPARTITIONID", "SMARTPARTITIONID");
   ("SMARTCACHEPARTITIONID", "SMARTCACHEID")].

(** The two headers [init_http_head] sets. *)
Definition json_headers (h : gmap string Json) : Prop :=
  h !! "Connection" = Some (JStr "keep-alive")
  /\ h !! "Content-Type" = Some (JStr "application/json").

(** A request as the helper means to send them: one of the four
    methods, one of the two timeouts, and the two headers. *)
Definition well_formed (r : Request) : Prop :=
  valid_method (req_method r) = true
  /\ (req_timeout r = SOCKET_TIMEOUT consts \/ req_timeout r = LOGIN_SOCKET_TIMEOUT consts)
  /\ json_headers (req_headers r).

(** The helper has sent only such requests so far, and the session it
    holds, if any, carries the two headers. *)
Definition sends_well_formed (st : State) : Prop :=
  (forall a, self st = Some a -> json_headers (headers (self_session a)))
  /\ Forall well_formed (exchanges (trace st)).

(** The value a share type gives a setting, or the default when it
    gives none or a false one. *)
Definition spec_or (skv : list (string * Json)) (k : string) (default : Json) : Json :=
  match Py.dict_get k skv with
  | Some v => if Py.truthy v then v else default
  | None => default
  end.

(** The [access] dict of [_allow_nfs_access_rest] when no share type
    changes it. *)
Definition nfs_access_defaults (share_id access_to access_level : string)
    : list (string * Json) :=
  [("TYPE", JStr "16409");
   ("NAME", JStr access_to);
   ("PARENTID", JStr share_id);
   ("ACCESSVAL", JStr access_level);
   ("SYNC", JStr "0");
   ("ALLSQUASH", JStr "1");
   ("ROOTSQUASH", JStr "0")].

(** The array's answers to the session requests for the candidates
    [urls], asked in order from the world [w], and the world after the
    last of them. *)
Fixpoint session_answers (login_info : LoginInfo) (urls : list string) (w : World)
    : list Outcome * World :=
  match urls with
  | [] => ([], w)
  | item_url :: rest =>
      let (out, w') := http w (login_request login_info item_url) in
      let (outs, w'') := session_answers login_info rest w' in
      (out :: outs, w'')
  end.

End RestHelper.

(** ** A scripted array

    A world for running the helper: the array's answers are a script,
    given out one per exchange whatever the request; when the script is
    used up the connection fails. *)
Module Demo.

(** A setting of the constants: negative codes for the two session
    sentinels, large array codes for the others. *)
Definition constants : Constants :=
  {| SOCKET_TIMEOUT := 52;
     LOGIN_SOCKET_TIMEOUT := 32;
     ERROR_CONNECT_TO_SERVER := -403;
     ERROR_UNAUTHORIZED_TO_SERVER := -401;
     ERROR_USER_OR_GROUP_NOT_EXIST := 1077939723;
     ERROR_REPLICATION_PAIR_NOT_EXIST := 1077937923;
     ERROR_HYPERMETRO_NOT_EXIST := 1077674242;
     MSG_SNAPSHOT_NOT_FOUND := 1073754118;
     PWD_EXPIRED_OR_INITIAL := [3; 4];
     STATUS_QOS_ACTIVE := "2";
     QOS_NAME_PREFIX := "OpenStack_";
     OPTS_QOS_VALUE := ["maxiops"; "miniops"; "minbandwidth"; "maxbandwidth";
                        "latency"; "iotype"];
     MAX_FS_NUM_IN_QOS := 64 |}.

Definition scripted (w : list Outcome) (r : Request) : Outcome * list Outcome :=
  match w with
  | [] => (ConnectFailure, [])
  | out :: w' => (out, w')
  end.

(** [json.dumps] with its defaults, as [jsonutils.dumps] calls it:
    items are parted by a comma and a blank, a key from its value by a
    colon and a blank, and text is written in ASCII.  The quote and the
    backslash get a backslash before them; line feed, carriage return,
    tab, backspace and form feed their letter; every other character
    outside blank to tilde is written by its code, four hexadecimal
    digits after a backslash and u, as a surrogate pair above U+FFFF.
    Text is held as UTF-8 bytes, so a character is read from one to
    four bytes. *)
Definition backslash : ascii := ascii_of_nat 92.

Definition hex_digit (n : N) : ascii :=
  ascii_of_N (if N.ltb n 10 then 48 + n else 87 + n)%N.

Definition u_escape (cp : N) : string :=
  String backslash
    (String "u"
       (String (hex_digit (N.modulo (N.div cp 4096) 16))
          (String (hex_digit (N.modulo (N.div cp 256) 16))
             (String (hex_digit (N.modulo (N.div cp 16) 16))
                (String (hex_digit (N.modulo cp 16)) ""))))).

Definition escape_char (cp : N) : string :=
  if N.ltb cp 65536 then u_escape cp
  else u_escape (55296 + N.div (cp - 65536) 1024)%N
       +:+ u_escape (56320 + N.modulo (cp - 65536) 1024)%N.

Definition escape_ascii (c : ascii) : string :=
  let n := N_of_ascii c in
  if N.eqb n 34 then String backslash Py.DQ
  else if N.eqb n 92 then String backslash (String backslash "")
  else if N.eqb n 10 then String backslash "n"
  else if N.eqb n 13 then String backslash "r"
  else if N.eqb n 9 then String backslash "t"
  else if N.eqb n 8 then String backslash "b"
  else if N.eqb n 12 then String backslash "f"
  else if N.leb 32 n && N.leb n 126 then String c ""
  else u_escape n.

(** The six low bits of a continuation byte. *)
Definition low6 (c : ascii) : N := N.modulo (N_of_ascii c) 64.

Fixpoint escape (s : string) : string :=
  match s with
  | "" => ""
  | String c1 s1 =>
      let n1 := N_of_ascii c1 in
      if N.ltb n1 192 then escape_ascii c1 +:+ escape s1
      else
        match s1 with
        | "" => escape_ascii c1
        | String c2 s2 =>
            if N.ltb n1 224
            then escape_char (N.modulo n1 32 * 64 + low6 c2)%N +:+ escape s2
            else
              match s2 with
              | "" => escape_ascii c1 +:+ escape s1
              | String c3 s3 =>
                  if N.ltb n1 240
                  then escape_char (N.modulo n1 16 * 4096 + low6 c2 * 64 + low6 c3)%N
                       +:+ escape s3
                  else
                    match s3 with
                    | "" => escape_ascii c1 +:+ escape s1
                    | String c4 s4 =>
                        escape_char (N.modulo n1 8 * 262144 + low6 c2 * 4096
                                     + low6 c3 * 64 + low6 c4)%N
                        +:+ escape s4
                    end
              end
        end
  end.

Definition quoted (s : string) : string := Py.DQ +:+ escape s +:+ Py.DQ.

Fixpoint encode (j : Json) : string :=
  match j with
  | JNull => "null"
  | JBool b => if b then "true" else "false"
  | JInt n => Py.text_type n
  | JStr s => quoted s
  | JList l => "[" +:+ Py.join ", " (map encode l) +:+ "]"
  | JObj kv =>
      "{" +:+ Py.join ", " (map (fun p => quoted (fst p) +:+ ": " +:+ encode (snd p)) kv)
      +:+ "}"
  end.

Definition login_info : LoginInfo :=
  {| RestURL := "https://a:8088/rest/;https://b:8088/rest/;https://c:8088/rest/";
     UserName := "admin";
     UserPassword := "secret" |}.

(** The text of [str(result)] in a message differs between
    interpreters (the order of a dict's keys, the [u] before text); the
    scripted setting writes [result] as [encode] does. *)
#[global] Instance env : Env (list Outcome) :=
  {| http := scripted;
     consts := constants;
     dumps := encode;
     py_str := encode;
     _get_login_info := Return login_info |}.

(** An envelope with a code and, when given, a payload. *)
Definition envelope (code : Z) (data : option Json) : Json :=
  JObj ([("error", JObj [("code", JInt code); ("description", JStr "")])]
        ++ match data with Some d => [("data", d)] | None => [] end).

(** A 200 response carrying a JSON value. *)
Definition ok (j : Json) : Outcome := Response 200 "" (Some j).

(** The answer of the session endpoint to an accepted login. *)
Definition session_data (deviceid token : string) (accountstate : Z) : Json :=
  JObj [("deviceid", JStr deviceid); ("iBaseToken", JStr token);
        ("accountstate", JInt accountstate)].

(** A helper that has logged in at the first candidate. *)
Definition logged_in (script : list Outcome) : State :=
  {| world := script;
     self := Some {| self_url := Some "https://a:8088/rest/dev0";
                     self_session :=
                       {| headers := <["iBaseToken" := JStr "tok0"]>
                                       (headers (self_session fresh_attrs));
                          verify := false |} |};
     trace := [] |}.

(** A helper just constructed: [init_http_head] has not run. *)
Definition constructed (script : list Outcome) : State :=
  {| world := script; self := None; trace := [] |}.

(** An access rule as the array lists it. *)
Definition access_item (i : Z) : Json :=
  JObj [("ID", JStr (Py.text_type i)); ("NAME", JStr ("client" +:+ Py.text_type i))].

(** The items [lo, lo + n) of the collection. *)
Definition access_items (lo : Z) (n : nat) : list Json :=
  map (fun i => access_item (lo + Z.of_nat i)) (seq 0 n).

Definition page (items : list Json) : Outcome := ok (envelope 0 (Some (JList items))).

Definition count_reply (n : Z) : Outcome :=
  ok (envelope 0 (Some (JObj [("COUNT", JStr (Py.text_type n))]))).

(** The session has expired; the first candidate lets the helper in
    again, and the request then goes through. *)
Definition relogin_script : list Outcome :=
  [ok (envelope (-401) None);
   ok (envelope 0 (Some (session_data "dev1" "tok1" 1)));
   ok (envelope 0 (Some (JStr "payload")))].

(** The session has expired and no candidate can be reached. *)
Definition unreachable_script : list Outcome :=
  [ok (envelope (-401) None)].

(** The array knows no user of the name, but a group. *)
Definition group_script : list Outcome :=
  [ok (envelope 1077939723 None); ok (envelope 0 None)].

(** The array knows neither a user nor a group of the name; a third
    grant would be accepted. *)
Definition unknown_identity_script : list Outcome :=
  [ok (envelope 1077939723 None); ok (envelope 1077939723 None); ok (envelope 0 None)].

(** The body of a CIFS grant without vstore. *)
Definition grant_body (name domain_type : string) : option string :=
  Some (encode (JObj [("NAME", JStr name); ("PARENTID", JStr "5");
                      ("PERMISSION", JStr "full_control");
                      ("DOMAINTYPE", JStr domain_type)])).

(** The first candidate cannot be reached, the second lets the helper
    in. *)
Definition failover_script : list Outcome :=
  [ConnectFailure; ok (envelope 0 (Some (session_data "dev1" "tok1" 1)))].

(** The first candidate lets the helper in, but the password has
    expired; the logout that follows is accepted. *)
Definition expired_script : list Outcome :=
  [ok (envelope 0 (Some (session_data "dev9" "tok9" 3))); ok (envelope 0 None)].

(** 250 access rules, served window by window. *)
Definition lookup_script : list Outcome :=
  [count_reply 250; page (access_items 0 100); page (access_items 100 100);
   page (access_items 200 50)].

(** The same collection, but the array leaves the first window empty. *)
Definition empty_page_script : list Outcome :=
  [count_reply 250; page []; page (access_items 100 100); page (access_items 200 50)].

(** 200 access rules. *)
Definition access_200_script : list Outcome :=
  [count_reply 200; page (access_items 0 100); page (access_items 100 100)].

(** A count of 200 shares, and windows without the share looked for. *)
Definition share_200_script : list Outcome :=
  [count_reply 200; page []; page []; page []].

(** The helper of the 250-rule lookup after the count query, after
    the first window and after the second. *)
Definition lookup_counted : State :=
  snd (_get_access_count "7" "NFS_SHARE_AUTH_CLIENT" None (logged_in lookup_script)).

Definition lookup_window1 : State :=
  snd (_get_access_from_share_range "7" 0 "NFS_SHARE_AUTH_CLIENT" None lookup_counted).

Definition lookup_window2 : State :=
  snd (_get_access_from_share_range "7" 100 "NFS_SHARE_AUTH_CLIENT" None lookup_window1).

(** An active policy of the driver with two filesystems and no LUN. *)
Definition policy : Json :=
  JObj [("ID", JStr "q1"); ("NAME", JStr "OpenStack_q1"); ("RUNNINGSTATUS", JStr "2");
        ("FSLIST", JStr (fslist_string ["1"; "2"]));
        ("LUNLIST", JStr empty_list_string);
        ("MAXIOPS", JStr "100"); ("LATENCY", JStr "0")].

Definition qos_script : list Outcome :=
  [ok (envelope 0 (Some (JList [policy])))].

(** A setting of [ERROR_LOGICAL_PORT_EXIST]. *)
Definition logical_port_exist : Z := 1073813505.

(** A logical port as the array lists it. *)
Definition port (i home addr mask status : string) : Json :=
  JObj [("ID", JStr i); ("HOMEPORTID", JStr home); ("IPV4ADDR", JStr addr);
        ("IPV4MASK", JStr mask); ("OPERATIONALSTATUS", JStr status)].

(** Three ports; the second and the third have the same home port,
    address and mask, and only the third is operational. *)
Definition ports : list Json :=
  [port "1" "eth0" "10.0.0.1" "255.255.255.0" "true";
   port "2" "eth1" "10.0.0.2" "255.255.255.0" "false";
   port "3" "eth1" "10.0.0.2" "255.255.255.0" "true"].

(** The list of ports, and the array accepting the request after it. *)
Definition port_script : list Outcome :=
  [page ports; ok (envelope 0 None)].

(** A named resource as the array lists it. *)
Definition named (i name : string) : Json :=
  JObj [("ID", JStr i); ("NAME", JStr name)].

(** Three filesystems, two of them of the same name. *)
Definition filesystems : list Json :=
  [named "11" "share_a"; named "12" "share_b"; named "13" "share_b"].

(** A filesystem as the array describes it. *)
Definition fs_fields : list (string * Json) :=
  [("ID", JStr "4"); ("NAME", JStr "share_a"); ("PARENTNAME", JStr "pool0");
   ("ENABLECOMPRESSION", JStr "false"); ("ENABLEDEDUP", JStr "true");
   ("CACHEPARTITIONID", JStr "p1"); ("SMARTCACHEPARTITIONID", JStr "c1")].

(** A storage pool as the array lists it, with a second tier. *)
Definition pool (i name usage : string) : list (string * Json) :=
  [("ID", JStr i); ("NAME", JStr name); ("USAGETYPE", JStr usage);
   ("USERFREECAPACITY", JStr "100"); ("USERTOTALCAPACITY", JStr "300");
   ("USERCONSUMEDCAPACITY", JStr "200"); ("TIER0CAPACITY", JStr "0");
   ("TIER1CAPACITY", JStr "300")].

(** Three pools: another name, the name with usage type 1 (block
    storage), and the name with usage type 2 (file storage). *)
Definition pools : list Json :=
  [JObj (pool "0" "pool1" "2"); JObj (pool "1" "pool0" "1"); JObj (pool "2" "pool0" "2")].

(** The settings of a share type: one that replaces a default, one
    given empty, and one without a default. *)
Definition share_type_specs (share_type_id : string) : Result Json :=
  Return (JObj [("sync", JStr "1"); ("allsquash", JStr ""); ("secure", JStr "true")]).

(** A policy with another limit, listed before [policy]. *)
Definition other_policy : Json :=
  JObj [("ID", JStr "q0"); ("NAME", JStr "OpenStack_q0"); ("RUNNINGSTATUS", JStr "2");
        ("FSLIST", JStr (fslist_string ["9"]));
        ("LUNLIST", JStr empty_list_string);
        ("MAXIOPS", JStr "200"); ("LATENCY", JStr "0")].

Definition policies_script : list Outcome :=
  [ok (envelope 0 (Some (JList [other_policy; policy])))].

(** U+00A0 (no-break space) and U+2003 (em space), in UTF-8. *)
Definition nbsp : string := String (ascii_of_nat 194) (String (ascii_of_nat 160) "").

Definition em_space : string :=
  String (ascii_of_nat 226) (String (ascii_of_nat 128) (String (ascii_of_nat 131) "")).

(** The name of a pool as a configuration may give it: with a blank and
    an em space in front and a no-break space behind. *)
Definition padded_pool_name : string := " " +:+ em_space +:+ "pool0" +:+ nbsp.

(** Every candidate answers with code 0 and a payload that has a
    token but no device id. *)
Definition no_deviceid : Outcome :=
  ok (envelope 0 (Some (JObj [("iBaseToken", JStr "tok1"); ("accountstate", JInt 1)]))).

Definition no_deviceid_script : list Outcome := [no_deviceid; no_deviceid; no_deviceid].

(** Every candidate answers 200 with a body that is not JSON. *)
Definition not_json_script : list Outcome :=
  [Response 200 "" None; Response 200 "" None; Response 200 "" None].

End Demo.

(** * Properties *)

(** ** The result contract *)

Section ResultContract.

Context {World : Type} `{E : Env World}.

Lemma assert_rest_result_eq (result : Json) (err_str : string) (code : Json) (st : State) :
  error_code result = Return code ->
  _assert_rest_result result err_str st =
    (if Py.eq code (JInt 0) then Return tt
     else Raise (InvalidShare (err_str +:+ Py.LF +:+ "result: " +:+ py_str result +:+ ".")),
     st).
Proof.
  intros Hc. unfold _assert_rest_result, bind, lift. rewrite Hc.
  destruct (Py.eq code (JInt 0)); reflexivity.
Qed.

(** C9.  For an envelope whose error code can be read, the
    assert-success helper raises [InvalidShare], with a reason made of
    the caller's message and the rendering of the whole envelope,
    exactly when the code is not 0, and otherwise returns; the
    assert-payload helper raises [InvalidShare] exactly when the
    envelope has no ["data"] field, and otherwise returns.  Neither
    changes the helper. *)
Theorem assert_helpers_spec (kv : list (string * Json)) (code : Json)
    (err_str : string) (st : State) :
  error_code (JObj kv) = Return code ->
  _assert_rest_result (JObj kv) err_str st =
    (if Py.eq code (JInt 0) then Return tt
     else Raise (InvalidShare
                   (err_str +:+ Py.LF +:+ "result: " +:+ py_str (JObj kv) +:+ ".")),
     st)
  /\ _assert_data_in_result (JObj kv) err_str st =
    (match Py.dict_get "data" kv with
     | Some _ => Return tt
     | None => Raise (InvalidShare
                        (err_str +:+ " " +:+ Py.DQ +:+ "data" +:+ Py.DQ
                         +:+ " was not in result."))
     end, st).
Proof.
  intros Hc. split.
  - now apply assert_rest_result_eq.
  - unfold _assert_data_in_result, bind, lift. cbn [Py.contains].
    destruct (Py.dict_get "data" kv); reflexivity.
Qed.

End ResultContract.

Lemma assert_helpers_spec_witness :
  _assert_rest_result (Demo.envelope 5 None) "Create share error." (Demo.logged_in []) =
    (Raise (InvalidShare
              ("Create share error." +:+ Py.LF +:+ "result: "
               +:+ Demo.encode (Demo.envelope 5 None) +:+ ".")),
     Demo.logged_in [])
  /\ _assert_data_in_result (Demo.envelope 5 None) "Create share error." (Demo.logged_in []) =
    (Raise (InvalidShare
              ("Create share error." +:+ " " +:+ Py.DQ +:+ "data" +:+ Py.DQ
               +:+ " was not in result.")),
     Demo.logged_in []).
Proof.
  exact (assert_helpers_spec
           [("error", JObj [("code", JInt 5); ("description", JStr "")])]
           (JInt 5) "Create share error." (Demo.logged_in []) eq_refl).
Defined.

(** ** Transport *)

Section Transport.

Context {World : Type} `{E : Env World}.

Lemma do_call_eq (url : string) (data : option string) (method : option string)
    (calltimeout : Z) (st : State) (a : Attrs) :
  self st = Some a ->
  valid_method (req_method (request_of a url data method calltimeout)) = true ->
  do_call url data method calltimeout st =
    (outcome_result (fst (http (world st) (request_of a url data method calltimeout))),
     {| world := snd (http (world st) (request_of a url data method calltimeout));
        self := self st;
        trace := trace st ++ [EvExchange (request_of a url data method calltimeout)] |}).
Proof.
  intros Ha Hm. unfold do_call, bind, attr, exchange, lift.
  destruct st as [w s t]; cbn [self world trace] in *. subst s. rewrite Hm.
  cbn [self world trace].
  destruct (http w (request_of a url data method calltimeout)); reflexivity.
Qed.

(** C7.  Once the helper has a session and the method is one of the
    four it sends, [do_call] returns an envelope for every failure of
    the exchange, and does not raise: the envelope
    [{"error": {"code": ERROR_CONNECT_TO_SERVER, "description":
    "Connect server error"}}] when the send fails, the envelope whose
    code is the HTTP status and whose description is the exception
    text when the status is a 4xx or 5xx one; and a response with any
    other status and a JSON body is returned as that body. *)
Theorem do_call_uniform_failures (url : string) (data : option string)
    (method : option string) (calltimeout : Z) (st : State) (a : Attrs) :
  self st = Some a ->
  valid_method (req_method (request_of a url data method calltimeout)) = true ->
  let r := request_of a url data method calltimeout in
  (fst (http (world st) r) = ConnectFailure ->
   fst (do_call url data method calltimeout st) =
     Return (JObj [("error",
                    JObj [("code", JInt (ERROR_CONNECT_TO_SERVER consts));
                          ("description", JStr "Connect server error")])]))
  /\ (forall status_code error_text body,
        fst (http (world st) r) = Response status_code error_text body ->
        400 <= status_code < 600 ->
        fst (do_call url data method calltimeout st) =
          Return (JObj [("error",
                         JObj [("code", JInt status_code);
                               ("description", JStr error_text)])]))
  /\ (forall status_code error_text result,
        fst (http (world st) r) = Response status_code error_text (Some result) ->
        ~ 400 <= status_code < 600 ->
        fst (do_call url data method calltimeout st) = Return result).
Proof.
  intros Ha Hm r. rewrite (do_call_eq _ _ _ _ _ _ Ha Hm). fold r. cbn [fst].
  split; [|split].
  - intros ->. reflexivity.
  - intros sc txt body -> Hsc. cbn [outcome_result]. unfold raises_for_status.
    replace (Z.leb 400 sc) with true by (symmetry; apply Z.leb_le; lia).
    replace (Z.ltb sc 600) with true by (symmetry; apply Z.ltb_lt; lia).
    reflexivity.
  - intros sc txt result -> Hsc. cbn [outcome_result]. unfold raises_for_status.
    destruct (Z.leb 400 sc) eqn:H1; [|reflexivity].
    destruct (Z.ltb sc 600) eqn:H2; [|reflexivity].
    exfalso. apply Hsc. apply Z.leb_le in H1. apply Z.ltb_lt in H2. lia.
Qed.

End Transport.

Lemma do_call_uniform_failures_witness :
  fst (do_call "/filesystem" None (Some "GET") 52 (Demo.logged_in [])) =
    Return (JObj [("error",
                   JObj [("code", JInt (-403));
                         ("description", JStr "Connect server error")])])
  /\ fst (do_call "/filesystem" None (Some "GET") 52
            (Demo.logged_in [Response 404 "404 Client Error: Not Found" None])) =
    Return (JObj [("error",
                   JObj [("code", JInt 404);
                         ("description", JStr "404 Client Error: Not Found")])])
  /\ fst (do_call "/filesystem" None (Some "GET") 52
            (Demo.logged_in [Demo.ok (JStr "body")])) =
    Return (JStr "body").
Proof.
  split; [|split].
  - destruct (do_call_uniform_failures "/filesystem" None (Some "GET") 52
                (Demo.logged_in []) _ eq_refl eq_refl) as (H & _ & _).
    apply H. reflexivity.
  - destruct (do_call_uniform_failures "/filesystem" None (Some "GET") 52
                (Demo.logged_in [Response 404 "404 Client Error: Not Found" None])
                _ eq_refl eq_refl) as (_ & H & _).
    apply (H 404 "404 Client Error: Not Found" None); [reflexivity | lia].
  - destruct (do_call_uniform_failures "/filesystem" None (Some "GET") 52
                (Demo.logged_in [Demo.ok (JStr "body")]) _ eq_refl eq_refl) as (_ & _ & H).
    apply (H 200 "" (JStr "body")); [reflexivity | lia].
Defined.

(** ** What the methods leave in the ghost record *)

Section Footprint.

Context {World : Type} `{E : Env World}.

Local Abbreviation silent := (@silent World _).

Lemma calls_app (t1 t2 : list Event) : calls (t1 ++ t2) = calls t1 ++ calls t2.
Proof.
  induction t1 as [|e t1 IH]; [reflexivity|].
  destruct e; cbn [calls app]; rewrite IH; reflexivity.
Qed.

Lemma logins_app (t1 t2 : list Event) : logins (t1 ++ t2) = (logins t1 + logins t2)%nat.
Proof.
  induction t1 as [|e t1 IH]; [reflexivity|].
  destruct e; cbn [logins app]; rewrite IH; reflexivity.
Qed.

Lemma exchanges_app (t1 t2 : list Event) : exchanges (t1 ++ t2) = exchanges t1 ++ exchanges t2.
Proof.
  induction t1 as [|e t1 IH]; [reflexivity|].
  destruct e; cbn [exchanges app]; rewrite IH; reflexivity.
Qed.

Lemma silent_ret {A} (a : A) : silent (@ret World A a).
Proof. intros st. exists []. cbn. rewrite app_nil_r. auto. Qed.

Lemma silent_raise {A} (e : exn) : silent (@raise World A e).
Proof. intros st. exists []. cbn. rewrite app_nil_r. auto. Qed.

Lemma silent_lift {A} (r : Result A) : silent (@lift World A r).
Proof. intros st. exists []. cbn. rewrite app_nil_r. auto. Qed.

Lemma silent_attr (name : string) : silent (attr name).
Proof.
  intros st. exists []. unfold attr. destruct (self st); cbn; rewrite app_nil_r; auto.
Qed.

Lemma silent_set_attrs (a : Attrs) : silent (set_attrs a).
Proof. intros st. exists []. cbn. rewrite app_nil_r. auto. Qed.

Lemma silent_exchange (r : Request) : silent (exchange r).
Proof.
  intros st. exists [EvExchange r]. unfold exchange.
  destruct (http (world st) r). cbn. auto.
Qed.

Lemma silent_bind {A B} (m : @M World A) (k : A -> @M World B) :
  silent m -> (forall a, silent (k a)) -> silent (bind m k).
Proof.
  intros Hm Hk st. unfold bind. destruct (Hm st) as (t1 & H1 & Hc1 & Hl1).
  destruct (m st) as [[a|e] st1]; cbn [snd] in *.
  - destruct (Hk a st1) as (t2 & H2 & Hc2 & Hl2). exists (t1 ++ t2).
    rewrite H2, H1, calls_app, logins_app, Hc1, Hc2, Hl1, Hl2, app_assoc. auto.
  - exists t1. auto.
Qed.

Lemma silent_init_http_head : silent init_http_head.
Proof.
  apply silent_bind; [|intros; apply silent_set_attrs].
  intros st. exists [EvInitHead]. cbn. auto.
Qed.

Lemma silent_do_call (url : string) (data method : option string) (calltimeout : Z) :
  silent (do_call url data method calltimeout).
Proof.
  apply silent_bind; [apply silent_attr|]. intros a. cbv beta zeta.
  destruct (valid_method _); [|apply silent_raise].
  apply silent_bind; [apply silent_exchange|]. intros; apply silent_lift.
Qed.

Lemma silent_assert_rest_result (result : Json) (err_str : string) :
  silent (_assert_rest_result result err_str).
Proof.
  apply silent_bind; [apply silent_lift|]. intros code. cbv beta.
  destruct (negb _); [apply silent_raise | apply silent_ret].
Qed.

Lemma silent_logout : silent logout.
Proof.
  apply silent_bind; [intros st; exists [EvLogout]; cbn; auto|]. intros _.
  apply silent_bind; [apply silent_attr|]. intros a. cbv beta.
  destruct (self_url a) as [base|]; [|apply silent_ret].
  destruct (Py.truthy_str base); [|apply silent_ret].
  apply silent_bind; [apply silent_do_call|]. intros; apply silent_assert_rest_result.
Qed.

Lemma silent_login_loop (login_info : LoginInfo) (url_list : list string) :
  silent (login_loop login_info url_list).
Proof.
  induction url_list as [|item_url rest IH]; cbn [login_loop]; [apply silent_ret|].
  apply silent_bind; [apply silent_init_http_head|]. intros _.
  apply silent_bind; [apply silent_do_call|]. intros result.
  apply silent_bind; [apply silent_lift|]. intros [|]; [exact IH|].
  repeat first
    [ apply silent_bind; [first [apply silent_lift | apply silent_attr
                                | apply silent_set_attrs | apply silent_logout]|];
      intros ?; cbv beta
    | apply silent_raise | apply silent_ret
    | match goal with |- silent (if ?b then _ else _) => destruct b end ].
Qed.

(** [login] is entered once and hands nothing to [call]. *)
Lemma login_footprint (st : State) :
  exists t, trace (snd (login st)) = trace st ++ EvLogin :: t
            /\ calls t = [] /\ logins t = O.
Proof.
  assert (Hrest : silent (bind (lift _get_login_info) (fun login_info =>
            bind (login_loop login_info (Py.split ";" (RestURL login_info)))
              (fun deviceid => match deviceid with
                               | JNull => raise (InvalidShare "All url login fail.")
                               | _ => ret deviceid
                               end)))).
  { apply silent_bind; [apply silent_lift|]. intros info.
    apply silent_bind; [apply silent_login_loop|].
    intros []; first [apply silent_raise | apply silent_ret]. }
  unfold login, bind at 1, log. cbn [fst snd].
  destruct (Hrest {| world := world st; self := self st; trace := trace st ++ [EvLogin] |})
    as (t & Ht & Hc & Hl).
  exists t. rewrite Ht. cbn [trace]. rewrite <- app_assoc. auto.
Qed.

(** What [login] returns is never [None]. *)
Lemma login_returns_deviceid (st st' : State) (deviceid : Json) :
  login st = (Return deviceid, st') -> deviceid <> JNull.
Proof.
  unfold login, bind, log, lift. cbn [fst snd].
  destruct _get_login_info as [info|e]; [|discriminate].
  destruct (login_loop info _ _) as [[d|e] st1]; [|discriminate].
  destruct d; cbn; intros H; inversion H; discriminate.
Qed.

End Footprint.

(** ** The session manager: [call] *)

Section Call.

Context {World : Type} `{E : Env World}.

Lemma do_call_session (url : string) (data method : option string) (calltimeout : Z)
    (st st1 : State) (r : Json) :
  do_call url data method calltimeout st = (Return r, st1) ->
  exists a, self st = Some a /\ self st1 = Some a.
Proof.
  unfold do_call, bind, attr, exchange, lift.
  destruct (self st) as [a|] eqn:Ha; [|discriminate].
  destruct (valid_method _); [|discriminate].
  destruct (http (world st) _) as [out w]. cbn [fst snd].
  intros H. inversion H; subst. exists a. cbn. auto.
Qed.

Lemma do_call_trace (url : string) (data method : option string) (calltimeout : Z)
    (st : State) :
  trace (snd (do_call url data method calltimeout st)) = trace st
  \/ exists r, trace (snd (do_call url data method calltimeout st))
               = trace st ++ [EvExchange r].
Proof.
  unfold do_call, bind, attr, exchange, lift, raise.
  destruct (self st) as [a|]; [|left; reflexivity].
  destruct (valid_method _); [|left; reflexivity].
  destruct (http (world st) _) as [out w]. right. eexists.
  destruct (outcome_result out); reflexivity.
Qed.

Lemma do_call_one_exchange (url : string) (data method : option string) (calltimeout : Z)
    (st : State) :
  (length (exchanges (trace (snd (do_call url data method calltimeout st))))
   <= S (length (exchanges (trace st))))%nat.
Proof.
  destruct (do_call_trace url data method calltimeout st) as [-> | [r ->]]; [lia|].
  rewrite exchanges_app, length_app. cbn. lia.
Qed.

(** [call] as its three steps. *)
Lemma call_eq (url : string) (data method : option string) (st : State) :
  call url data method st =
    match do_call url data method (SOCKET_TIMEOUT consts) (entered url data method st) with
    | (Raise e, st1) => (Raise e, st1)
    | (Return result, st1) =>
        match error_code result with
        | Raise e => (Raise e, st1)
        | Return code =>
            if needs_relogin code then
              match login st1 with
              | (Raise e, st2) => (Raise e, st2)
              | (Return _, st2) => do_call url data method (SOCKET_TIMEOUT consts) st2
              end
            else (Return result, st1)
        end
    end.
Proof.
  unfold call, bind at 1, log. cbn [fst snd]. fold (entered url data method st).
  unfold bind at 1, attr.
  destruct (self (entered url data method st)) as [a|] eqn:Ha.
  - unfold bind at 1.
    destruct (do_call url data method _ (entered url data method st)) as [[r|e] st1];
      [|reflexivity].
    unfold bind at 1, lift. destruct (error_code r) as [code|e]; [|reflexivity].
    unfold bind. destruct (needs_relogin code); [|reflexivity].
    destruct (login st1) as [[d|e] st2] eqn:Hl; [|reflexivity].
    apply login_returns_deviceid in Hl. destruct d; congruence.
  - unfold do_call, bind, attr. rewrite Ha. reflexivity.
Qed.

(** C1, as the code has it.  When the first exchange returns an
    envelope whose code is the connect-to-server or the unauthorized
    sentinel, [call] runs [login] once; if [login] returns, the
    exchange is made once more and its outcome is the outcome of
    [call], and if [login] raises, so does [call], without a second
    exchange.  With any other code the first envelope is returned as
    it is.  In all cases [login] is entered at most once, and each of
    the at most two [do_call]s makes at most one exchange. *)
Theorem call_relogin_once (url : string) (data method : option string)
    (st st1 : State) (result : Json) (code : Json) :
  do_call url data method (SOCKET_TIMEOUT consts) (entered url data method st)
    = (Return result, st1) ->
  error_code result = Return code ->
  (needs_relogin code = false -> call url data method st = (Return result, st1))
  /\ (needs_relogin code = true ->
      (forall deviceid st2, login st1 = (Return deviceid, st2) ->
         call url data method st = do_call url data method (SOCKET_TIMEOUT consts) st2)
      /\ (forall e st2, login st1 = (Raise e, st2) ->
            call url data method st = (Raise e, st2)))
  /\ (logins (trace (snd (call url data method st))) <= S (logins (trace st)))%nat
  /\ (forall s, (length (exchanges (trace (snd (do_call url data method
                                                   (SOCKET_TIMEOUT consts) s))))
                 <= S (length (exchanges (trace s))))%nat).
Proof.
  intros Hd Hc.
  assert (Heq := call_eq url data method st). rewrite Hd, Hc in Heq.
  assert (Hl1 : logins (trace st1) = logins (trace st)).
  { destruct (silent_do_call url data method (SOCKET_TIMEOUT consts)
                (entered url data method st)) as (t & Ht & _ & Hl).
    rewrite Hd in Ht. cbn [snd] in Ht. rewrite Ht, logins_app, Hl.
    unfold entered. cbn [trace]. rewrite logins_app. cbn. lia. }
  split; [|split; [|split]].
  - intros Hn. rewrite Hn in Heq. exact Heq.
  - intros Hn. rewrite Hn in Heq. split.
    + intros deviceid st2 Hl. rewrite Hl in Heq. exact Heq.
    + intros e st2 Hl. rewrite Hl in Heq. exact Heq.
  - destruct (needs_relogin code).
    + destruct (login_footprint st1) as (t & Ht & _ & Hl).
      destruct (login st1) as [[d|e] st2]; cbn [snd] in Ht; rewrite Heq.
      * destruct (silent_do_call url data method (SOCKET_TIMEOUT consts) st2)
          as (t2 & Ht2 & _ & Hl2).
        rewrite Ht2, Ht, !logins_app, Hl2. cbn [logins]. lia.
      * cbn [snd]. rewrite Ht, logins_app. cbn [logins]. lia.
    + rewrite Heq. cbn [snd]. lia.
  - intros s. apply do_call_one_exchange.
Qed.

End Call.

Lemma call_relogin_once_witness :
  fst (call "/filesystem" None (Some "GET") (Demo.logged_in Demo.relogin_script))
    = Return (Demo.envelope 0 (Some (JStr "payload")))
  /\ (logins (trace (snd (call "/filesystem" None (Some "GET")
                            (Demo.logged_in Demo.relogin_script)))) <= 1)%nat.
Proof.
  assert (Hd : do_call "/filesystem" None (Some "GET") (SOCKET_TIMEOUT consts)
                 (entered "/filesystem" None (Some "GET")
                    (Demo.logged_in Demo.relogin_script))
               = (Return (Demo.envelope (-401) None),
                  snd (do_call "/filesystem" None (Some "GET") 52
                         (entered "/filesystem" None (Some "GET")
                            (Demo.logged_in Demo.relogin_script)))))
    by (vm_compute; reflexivity).
  destruct (call_relogin_once _ _ _ _ _ _ (JInt (-401)) Hd eq_refl)
    as (_ & Hretry & Hlogins & _).
  split; [|exact Hlogins].
  destruct (Hretry ltac:(vm_compute; reflexivity)) as (Hok & _).
  erewrite Hok by (vm_compute; reflexivity). vm_compute. reflexivity.
Defined.

(** C1 as stated fails when the re-login fails.  The first exchange
    returns the unauthorized sentinel and no candidate can be reached:
    [call] raises the error of [login]; the request is not sent a
    second time and no result is returned. *)
Lemma call_relogin_failure_counterexample :
  fst (do_call "/filesystem" None (Some "GET") 52
         (entered "/filesystem" None (Some "GET")
            (Demo.logged_in Demo.unreachable_script)))
    = Return (Demo.envelope (-401) None)
  /\ needs_relogin (JInt (-401)) = true
  /\ fst (call "/filesystem" None (Some "GET") (Demo.logged_in Demo.unreachable_script))
     = Raise (InvalidShare "All url login fail.")
  /\ map req_url (exchanges (trace (snd (call "/filesystem" None (Some "GET")
                                          (Demo.logged_in Demo.unreachable_script)))))
     = ["https://a:8088/rest/dev0/filesystem"; "https://a:8088/rest/xx/sessions";
        "https://b:8088/rest/xx/sessions"; "https://c:8088/rest/xx/sessions"].
Proof. vm_compute. repeat split. Qed.

(** ** Deleting pairs and snapshots *)

Section Deletes.

Context {World : Type} `{E : Env World}.

Lemma tolerant_delete_eq (url : string) (sentinel : Z) (err_str : string) (st st1 : State)
    (result code : Json) :
  call url None (Some "DELETE") st = (Return result, st1) ->
  error_code result = Return code ->
  bind (call url None (Some "DELETE")) (fun result =>
    bind (lift (error_code result)) (fun code =>
      if Py.eq code (JInt sentinel) then ret tt
      else _assert_rest_result result err_str)) st =
  (if Py.eq code (JInt sentinel) then Return tt
   else if Py.eq code (JInt 0) then Return tt
   else Raise (InvalidShare (failure_reason err_str result)), st1).
Proof.
  intros Hcall Hcode. unfold bind at 1. rewrite Hcall.
  unfold bind at 1, lift. rewrite Hcode.
  destruct (Py.eq code (JInt sentinel)); [reflexivity|].
  rewrite (assert_rest_result_eq _ _ _ _ Hcode).
  destruct (Py.eq code (JInt 0)); reflexivity.
Qed.

(** C2, as the code has it.  Deleting a replication pair that the
    array answers with the replication-pair-not-exist code, or a
    HyperMetro pair that it answers with the hypermetro-not-exist code,
    returns without error, and any other code that is not 0 raises
    [InvalidShare].  Deleting a snapshot tolerates no code: every code
    that is not 0 raises [InvalidShare], the snapshot-not-found code
    like any other; that code is known to [_check_snapshot_id_exist],
    which answers [False] for it. *)
Theorem delete_tolerances (pair_id snap_id : string) (st st1 : State)
    (result code : Json) :
  error_code result = Return code ->
  (call ("/REPLICATIONPAIR/" +:+ pair_id) None (Some "DELETE") st = (Return result, st1) ->
   (Py.eq code (JInt (ERROR_REPLICATION_PAIR_NOT_EXIST consts)) = true ->
    delete_replication_pair pair_id st = (Return tt, st1))
   /\ (Py.eq code (JInt (ERROR_REPLICATION_PAIR_NOT_EXIST consts)) = false ->
       Py.eq code (JInt 0) = false ->
       delete_replication_pair pair_id st =
         (Raise (InvalidShare
                   (failure_reason ("Failed to delete replication pair " +:+ pair_id +:+ ".")
                      result)), st1)))
  /\ (call ("/HyperMetroPair/" +:+ pair_id) None (Some "DELETE") st = (Return result, st1) ->
      (Py.eq code (JInt (ERROR_HYPERMETRO_NOT_EXIST consts)) = true ->
       delete_hypermetro_pair pair_id st = (Return tt, st1))
      /\ (Py.eq code (JInt (ERROR_HYPERMETRO_NOT_EXIST consts)) = false ->
          Py.eq code (JInt 0) = false ->
          delete_hypermetro_pair pair_id st =
            (Raise (InvalidShare
                      (failure_reason ("Delete HyperMetro pair " +:+ pair_id +:+ " error.")
                         result)), st1)))
  /\ (call ("/FSSNAPSHOT/" +:+ snap_id)
        (Some (dumps (JObj [("TYPE", JStr "48"); ("ID", JStr snap_id)])))
        (Some "DELETE") st = (Return result, st1) ->
      Py.eq code (JInt 0) = false ->
      _delete_snapshot snap_id st =
        (Raise (InvalidShare (failure_reason "Delete snapshot error." result)), st1))
  /\ (Py.eq code (JInt (MSG_SNAPSHOT_NOT_FOUND consts)) = true ->
      _check_snapshot_id_exist result = Return false).
Proof.
  intros Hcode. split; [|split; [|split]].
  - intros Hcall.
    assert (H := tolerant_delete_eq _ (ERROR_REPLICATION_PAIR_NOT_EXIST consts)
                   ("Failed to delete replication pair " +:+ pair_id +:+ ".")
                   _ _ _ _ Hcall Hcode).
    split.
    + intros Hs. rewrite Hs in H. exact H.
    + intros Hs H0. rewrite Hs, H0 in H. exact H.
  - intros Hcall.
    assert (H := tolerant_delete_eq _ (ERROR_HYPERMETRO_NOT_EXIST consts)
                   ("Delete HyperMetro pair " +:+ pair_id +:+ " error.")
                   _ _ _ _ Hcall Hcode).
    split.
    + intros Hs. rewrite Hs in H. exact H.
    + intros Hs H0. rewrite Hs, H0 in H. exact H.
  - intros Hcall H0. unfold _delete_snapshot, bind. rewrite Hcall.
    rewrite (assert_rest_result_eq _ _ _ _ Hcode), H0. reflexivity.
  - intros Hs. unfold _check_snapshot_id_exist. rewrite Hcode, Hs. reflexivity.
Qed.

End Deletes.

Lemma delete_tolerances_witness :
  delete_replication_pair "12"
    (Demo.logged_in [Demo.ok (Demo.envelope 1077937923 None)])
    = (Return tt,
       snd (call "/REPLICATIONPAIR/12" None (Some "DELETE")
              (Demo.logged_in [Demo.ok (Demo.envelope 1077937923 None)]))).
Proof.
  assert (Hcall : call ("/REPLICATIONPAIR/" +:+ "12") None (Some "DELETE")
                    (Demo.logged_in [Demo.ok (Demo.envelope 1077937923 None)])
                  = (Return (Demo.envelope 1077937923 None),
                     snd (call "/REPLICATIONPAIR/12" None (Some "DELETE")
                            (Demo.logged_in [Demo.ok (Demo.envelope 1077937923 None)]))))
    by (vm_compute; reflexivity).
  destruct (delete_tolerances "12" "7@snap"
              (Demo.logged_in [Demo.ok (Demo.envelope 1077937923 None)])
              (snd (call "/REPLICATIONPAIR/12" None (Some "DELETE")
                      (Demo.logged_in [Demo.ok (Demo.envelope 1077937923 None)])))
              (Demo.envelope 1077937923 None) (JInt 1077937923) eq_refl)
    as (Hpair & _).
  destruct (Hpair Hcall) as (Hgone & _).
  apply Hgone. reflexivity.
Defined.

(** C2 as stated fails for snapshots.  The array answers the delete
    with the snapshot-not-found code, and [_delete_snapshot] raises. *)
Lemma delete_snapshot_counterexample :
  fst (call "/FSSNAPSHOT/7@snap"
         (Some (Demo.encode (JObj [("TYPE", JStr "48"); ("ID", JStr "7@snap")])))
         (Some "DELETE")
         (Demo.logged_in [Demo.ok (Demo.envelope 1073754118 None)]))
    = Return (Demo.envelope (MSG_SNAPSHOT_NOT_FOUND Demo.constants) None)
  /\ fst (_delete_snapshot "7@snap"
            (Demo.logged_in [Demo.ok (Demo.envelope 1073754118 None)]))
     = Raise (InvalidShare
                ("Delete snapshot error." +:+ Py.LF +:+ "result: "
                 +:+ Demo.encode (Demo.envelope 1073754118 None) +:+ ".")).
Proof. vm_compute. split; reflexivity. Qed.

(** ** Granting CIFS access *)

Section CifsAccess.

Context {World : Type} `{E : Env World}.

Lemma send_rest_eq (share_id access_level name domain_type : string)
    (vstore : option string) (st st1 : State) (result code : Json) :
  grant share_id access_level vstore name domain_type st = (Return result, st1) ->
  error_code result = Return code ->
  send_rest share_id access_level name domain_type vstore st =
    (if Py.eq code (JInt 0) then Return true
     else if Py.eq code (JInt (ERROR_USER_OR_GROUP_NOT_EXIST consts)) then Return false
     else Raise (InvalidShare (failure_reason "Allow access error." result)), st1).
Proof.
  unfold grant. intros Hcall Hcode. unfold send_rest, bind at 1. rewrite Hcall.
  unfold bind at 1, lift. rewrite Hcode.
  destruct (Py.eq code (JInt 0)) eqn:H0; [reflexivity|].
  destruct (Py.eq code (JInt (ERROR_USER_OR_GROUP_NOT_EXIST consts))); [reflexivity|].
  cbn [negb]. unfold bind. rewrite (assert_rest_result_eq _ _ _ _ Hcode), H0. reflexivity.
Qed.

Lemma allow_cifs_access_eq (share_id access_to access_level : string)
    (vstore : option string) (st : State) :
  _allow_cifs_access_rest share_id access_to access_level vstore st =
    match send_rest share_id access_level access_to (grant_domain access_to) vstore st with
    | (Raise e, st1) => (Raise e, st1)
    | (Return true, st1) => (Return tt, st1)
    | (Return false, st1) =>
        match send_rest share_id access_level ("@" +:+ access_to)
                (grant_domain access_to) vstore st1 with
        | (Raise e, st2) => (Raise e, st2)
        | (Return true, st2) => (Return tt, st2)
        | (Return false, st2) => (Raise (InvalidShare "Allow access error."), st2)
        end
    end.
Proof.
  unfold _allow_cifs_access_rest, grant_domain.
  destruct (Py.has_char "\" access_to); cbn [negb]; unfold bind;
    destruct (send_rest _ _ access_to _ _ st) as [[[|]|e] st1]; try reflexivity;
    destruct (send_rest _ _ ("@" +:+ access_to) _ _ st1) as [[[|]|e] st2]; reflexivity.
Qed.

(** C4, as the code has it.  The grant is made under one domain type
    only: AD when the identity contains a backslash, local otherwise.
    The identity is granted first as it is; if and only if the array
    answers with the user-or-group-not-exist code, the grant is made
    once more for the identity prefixed by [@].  An answer with any
    other code that is not 0 raises [InvalidShare] at once, and two
    not-exist answers raise [InvalidShare] as well. *)
Theorem cifs_access_fallback (share_id access_to access_level : string)
    (vstore : option string) (st st1 : State) (result1 code1 : Json) :
  let domain_type := grant_domain access_to in
  let not_exist := JInt (ERROR_USER_OR_GROUP_NOT_EXIST consts) in
  grant share_id access_level vstore access_to domain_type st = (Return result1, st1) ->
  error_code result1 = Return code1 ->
  (Py.eq code1 (JInt 0) = true ->
   _allow_cifs_access_rest share_id access_to access_level vstore st = (Return tt, st1))
  /\ (Py.eq code1 (JInt 0) = false -> Py.eq code1 not_exist = false ->
      _allow_cifs_access_rest share_id access_to access_level vstore st =
        (Raise (InvalidShare (failure_reason "Allow access error." result1)), st1))
  /\ (Py.eq code1 (JInt 0) = false -> Py.eq code1 not_exist = true ->
      forall st2 result2 code2,
        grant share_id access_level vstore ("@" +:+ access_to) domain_type st1
          = (Return result2, st2) ->
        error_code result2 = Return code2 ->
        _allow_cifs_access_rest share_id access_to access_level vstore st =
          (if Py.eq code2 (JInt 0) then Return tt
           else if Py.eq code2 not_exist then Raise (InvalidShare "Allow access error.")
           else Raise (InvalidShare (failure_reason "Allow access error." result2)), st2)).
Proof.
  intros domain_type not_exist Hg1 Hc1.
  assert (Heq := allow_cifs_access_eq share_id access_to access_level vstore st).
  fold domain_type in Heq.
  rewrite (send_rest_eq _ _ _ _ _ _ _ _ _ Hg1 Hc1) in Heq. fold not_exist in Heq.
  split; [|split].
  - intros H0. rewrite H0 in Heq. exact Heq.
  - intros H0 Hn. rewrite H0, Hn in Heq. exact Heq.
  - intros H0 Hn st2 result2 code2 Hg2 Hc2. rewrite H0, Hn in Heq.
    rewrite (send_rest_eq _ _ _ _ _ _ _ _ _ Hg2 Hc2) in Heq. fold not_exist in Heq.
    destruct (Py.eq code2 (JInt 0)); [exact Heq|].
    destruct (Py.eq code2 not_exist); exact Heq.
Qed.

End CifsAccess.

Lemma cifs_access_fallback_witness :
  _allow_cifs_access_rest "5" "alice" "full_control" None (Demo.logged_in Demo.group_script)
    = (Return tt,
       snd (_allow_cifs_access_rest "5" "alice" "full_control" None
              (Demo.logged_in Demo.group_script)))
  /\ calls (trace (snd (_allow_cifs_access_rest "5" "alice" "full_control" None
                          (Demo.logged_in Demo.group_script))))
     = [("/CIFS_SHARE_AUTH_CLIENT", Demo.grant_body "alice" "2", Some "POST");
        ("/CIFS_SHARE_AUTH_CLIENT", Demo.grant_body "@alice" "2", Some "POST")].
Proof.
  split; [|vm_compute; reflexivity].
  assert (Hg1 : grant "5" "full_control" None "alice" (grant_domain "alice")
                  (Demo.logged_in Demo.group_script)
                = (Return (Demo.envelope 1077939723 None),
                   snd (grant "5" "full_control" None "alice" "2"
                          (Demo.logged_in Demo.group_script))))
    by (vm_compute; reflexivity).
  assert (Hc1 : error_code (Demo.envelope 1077939723 None) = Return (JInt 1077939723))
    by reflexivity.
  destruct (cifs_access_fallback _ _ _ _ _ _ _ _ Hg1 Hc1) as (_ & _ & Hgroup).
  assert (Hg2 : grant "5" "full_control" None ("@" +:+ "alice") (grant_domain "alice")
                  (snd (grant "5" "full_control" None "alice" "2"
                          (Demo.logged_in Demo.group_script)))
                = (Return (Demo.envelope 0 None),
                   snd (_allow_cifs_access_rest "5" "alice" "full_control" None
                          (Demo.logged_in Demo.group_script))))
    by (vm_compute; reflexivity).
  assert (Hc2 : error_code (Demo.envelope 0 None) = Return (JInt 0)) by reflexivity.
  exact (Hgroup ltac:(vm_compute; reflexivity) ltac:(vm_compute; reflexivity)
           _ _ _ Hg2 Hc2).
Defined.

(** C4 as stated fails for a domain-qualified identity.  The array
    answers both AD grants with the not-exist code: the helper raises
    after these two grants and makes none under the local domain
    type. *)
Lemma cifs_access_domain_counterexample :
  Py.has_char "\" "DOMAIN\bob" = true
  /\ fst (_allow_cifs_access_rest "5" "DOMAIN\bob" "full_control" None
            (Demo.logged_in Demo.unknown_identity_script))
     = Raise (InvalidShare "Allow access error.")
  /\ calls (trace (snd (_allow_cifs_access_rest "5" "DOMAIN\bob" "full_control" None
                          (Demo.logged_in Demo.unknown_identity_script))))
     = [("/CIFS_SHARE_AUTH_CLIENT", Demo.grant_body "DOMAIN\bob" "0", Some "POST");
        ("/CIFS_SHARE_AUTH_CLIENT", Demo.grant_body "@DOMAIN\bob" "0", Some "POST")]
  /\ world (snd (_allow_cifs_access_rest "5" "DOMAIN\bob" "full_control" None
                   (Demo.logged_in Demo.unknown_identity_script)))
     = [Demo.ok (Demo.envelope 0 None)].
Proof. vm_compute. repeat split. Qed.

(** ** The session manager: [login] *)

Section Login.

Context {World : Type} `{E : Env World}.

(** One candidate: the session is reset and the credentials are sent. *)
Lemma login_attempt_eq (login_info : LoginInfo) (item_url : string) (st : State) :
  bind init_http_head (fun _ =>
    do_call (login_url item_url) (Some (login_data login_info)) None
      (LOGIN_SOCKET_TIMEOUT consts)) st =
  (outcome_result (fst (http (world st) (login_request login_info item_url))),
   {| world := snd (http (world st) (login_request login_info item_url));
      self := Some fresh_attrs;
      trace := trace st ++ [EvInitHead; EvExchange (login_request login_info item_url)] |}).
Proof.
  unfold bind at 1, init_http_head, bind at 1, log, set_attrs. cbn [fst snd].
  rewrite (do_call_eq _ _ _ _ _ fresh_attrs); [|reflexivity|reflexivity].
  cbn [world self trace]. rewrite <- app_assoc. reflexivity.
Qed.

Lemma bind_assoc {A B C} (m : @M World A) (k : A -> M B) (h : B -> M C) (st : State) :
  bind m (fun a => bind (k a) h) st = bind (bind m k) h st.
Proof.
  unfold bind. destruct (m st) as [[a|e] st1]; [|reflexivity].
  destruct (k a st1) as [[b|e] st2]; reflexivity.
Qed.

(** The candidates the array rejects are passed over. *)
Lemma login_loop_rejected (login_info : LoginInfo) (pre rest : list string) :
  forall (st : State) (w : World),
    rejected_run login_info pre (world st) = Some w ->
    login_loop login_info (pre ++ rest) st =
      login_loop login_info rest (after_attempts login_info pre st w).
Proof.
  induction pre as [|item_url pre IH]; intros st w Hrun; [reflexivity|].
  cbn [app login_loop]. rewrite bind_assoc. unfold bind at 1. rewrite login_attempt_eq.
  cbn [rejected_run] in Hrun.
  destruct (http (world st) (login_request login_info item_url)) as [out w'].
  cbn [fst snd].
  destruct (outcome_result out) as [result|e]; [|discriminate].
  unfold bind at 1, lift.
  destruct (login_rejects result) as [[|]|e]; try discriminate.
  rewrite (IH _ w) by exact Hrun.
  f_equal. unfold after_attempts. destruct pre as [|item_url' pre].
  - cbn in Hrun. inversion Hrun; subst. reflexivity.
  - cbn [trace attempt_events flat_map]. rewrite <- app_assoc. reflexivity.
Qed.

Lemma split_cons (sep : ascii) (s : string) :
  exists w ws, Py.split sep s = w :: ws.
Proof.
  induction s as [|c s IH]; cbn [Py.split]; [eauto|].
  destruct (Ascii.eqb c sep); [eauto|].
  destruct IH as (w & ws & ->). eauto.
Qed.

(** The candidate the array accepts: the base URL and the token are
    stored, and the account state decides between returning the device
    id and logging out. *)
Lemma login_loop_accepted (login_info : LoginInfo) (item_url : string)
    (rest : list string) (st : State) (result d token accountstate : Json)
    (deviceid : string) :
  outcome_result (fst (http (world st) (login_request login_info item_url)))
    = Return result ->
  login_rejects result = Return false ->
  Py.getitem result "data" = Return d ->
  Py.getitem d "deviceid" = Return (JStr deviceid) ->
  Py.getitem d "iBaseToken" = Return token ->
  Py.getitem d "accountstate" = Return accountstate ->
  login_loop login_info (item_url :: rest) st =
    let accepted :=
      {| world := snd (http (world st) (login_request login_info item_url));
         self := Some (accepted_attrs item_url deviceid token);
         trace := trace st
                  ++ [EvInitHead; EvExchange (login_request login_info item_url)] |} in
    if pwd_expired_or_initial accountstate then
      match logout accepted with
      | (Return _, st') =>
          (Raise (ShareBackendException
                    "Password has expired or initial, please change the password."), st')
      | (Raise e, st') => (Raise e, st')
      end
    else (Return (JStr deviceid), accepted).
Proof.
  intros Hout Hrej Hd Hdev Htok Hacc.
  cbn [login_loop]. rewrite bind_assoc. unfold bind at 1. rewrite login_attempt_eq, Hout.
  unfold bind at 1, lift. rewrite Hrej. unfold attr, set_attrs.
  do 11 (unfold bind at 1; cbv beta; rewrite ?Hd, ?Hdev, ?Htok, ?Hacc;
         cbn [concat_url self fst snd world trace]).
  cbv zeta. destruct (pwd_expired_or_initial accountstate); [|reflexivity].
  unfold bind, accepted_attrs. cbn [self_url self_session fresh_attrs headers verify].
  destruct (logout _) as [[[]|e] st']; reflexivity.
Qed.

Lemma do_call_self (url : string) (data method : option string) (calltimeout : Z)
    (st : State) :
  self (snd (do_call url data method calltimeout st)) = self st.
Proof.
  unfold do_call, bind, attr, exchange, lift, raise.
  destruct (self st) as [a|] eqn:Ha; [|cbn [snd]; congruence].
  destruct (valid_method _); [|cbn [snd]; congruence].
  destruct (http (world st) _) as [out w].
  destruct (outcome_result out); cbn [snd self]; congruence.
Qed.

(** [logout] leaves the stored base URL and the session as they are. *)
Lemma logout_self (st : State) : self (snd (logout st)) = self st.
Proof.
  unfold logout, bind at 1, log. cbn [fst snd].
  unfold bind at 1, attr. cbn [self].
  destruct (self st) as [a|]; [|reflexivity].
  destruct (self_url a) as [base|]; [|reflexivity].
  destruct (Py.truthy_str base); [|reflexivity].
  unfold bind. cbn [fst snd].
  match goal with |- context [do_call ?u ?d ?m ?t ?s] =>
    pose proof (do_call_self u d m t s) as Hs;
    destruct (do_call u d m t s) as [[r|e] st1] end;
    cbn [snd self] in Hs; [|exact Hs].
  unfold _assert_rest_result, bind, lift.
  destruct (error_code r) as [code|e]; [|exact Hs].
  destruct (negb _); exact Hs.
Qed.

(** The base URL is stored as soon as the device id has been read. *)
Lemma login_loop_stores_url (login_info : LoginInfo) (item_url : string)
    (rest : list string) (st : State) (result d : Json) (deviceid : string) :
  outcome_result (fst (http (world st) (login_request login_info item_url)))
    = Return result ->
  login_rejects result = Return false ->
  Py.getitem result "data" = Return d ->
  Py.getitem d "deviceid" = Return (JStr deviceid) ->
  stored_url (snd (login_loop login_info (item_url :: rest) st))
    = Some (item_url +:+ deviceid).
Proof.
  intros Hout Hrej Hd Hdev.
  cbn [login_loop]. rewrite bind_assoc. unfold bind at 1. rewrite login_attempt_eq, Hout.
  unfold bind at 1, lift. rewrite Hrej. unfold attr, set_attrs.
  do 6 (unfold bind at 1; cbv beta; rewrite ?Hd, ?Hdev;
        cbn [concat_url self fst snd world trace]).
  unfold bind at 1. cbv beta.
  destruct (Py.getitem d "iBaseToken") as [token|e]; [|reflexivity].
  do 3 (unfold bind at 1; cbv beta; cbn [self fst snd world trace]).
  unfold bind at 1. cbv beta.
  destruct (Py.getitem d "accountstate") as [accountstate|e]; [|reflexivity].
  destruct (pwd_expired_or_initial accountstate); [|reflexivity].
  unfold bind, stored_url, raise.
  match goal with |- context [logout ?s] =>
    pose proof (logout_self s) as Hs; destruct (logout s) as [[[]|e] st'] end;
    cbn [fst snd self] in *; rewrite Hs; reflexivity.
Qed.

Lemma after_attempts_world (login_info : LoginInfo) (urls : list string) (st : State)
    (w : World) :
  rejected_run login_info urls (world st) = Some w ->
  world (after_attempts login_info urls st w) = w.
Proof.
  destruct urls; cbn [after_attempts rejected_run world]; [|reflexivity].
  intros H; inversion H; reflexivity.
Qed.

Lemma after_attempts_trace (login_info : LoginInfo) (urls : list string) (st : State)
    (w : World) :
  trace (after_attempts login_info urls st w) = trace st ++ attempt_events login_info urls.
Proof.
  destruct urls; cbn [after_attempts trace]; [|reflexivity].
  symmetry. apply app_nil_r.
Qed.

Lemma attempt_events_snoc (login_info : LoginInfo) (urls : list string) (item_url : string) :
  attempt_events login_info (urls ++ [item_url]) =
    attempt_events login_info urls
    ++ [EvInitHead; EvExchange (login_request login_info item_url)].
Proof. unfold attempt_events. rewrite flat_map_app. reflexivity. Qed.

(** [login] as the loop and the test that follows it. *)
Lemma login_eq (login_info : LoginInfo) (st : State) :
  _get_login_info = Return login_info ->
  login st =
    match login_loop login_info (Py.split ";" (RestURL login_info)) (login_entered st) with
    | (Return JNull, st') => (Raise (InvalidShare "All url login fail."), st')
    | (Return deviceid, st') => (Return deviceid, st')
    | (Raise e, st') => (Raise e, st')
    end.
Proof.
  intros Hinfo. unfold login, bind at 1, log. cbn [fst snd]. fold (login_entered st).
  unfold bind at 1, lift. rewrite Hinfo. unfold bind.
  destruct (login_loop _ _ _) as [[d|e] st']; [|reflexivity].
  destruct d; reflexivity.
Qed.

(** The state of the helper that has accepted the candidate [item_url]
    after passing over [pre]. *)
Lemma login_accepting (login_info : LoginInfo) (pre post : list string) (item_url : string)
    (st : State) (w : World) (result d token accountstate : Json) (deviceid : string) :
  rejected_run login_info pre (world st) = Some w ->
  outcome_result (fst (http w (login_request login_info item_url))) = Return result ->
  login_rejects result = Return false ->
  Py.getitem result "data" = Return d ->
  Py.getitem d "deviceid" = Return (JStr deviceid) ->
  Py.getitem d "iBaseToken" = Return token ->
  Py.getitem d "accountstate" = Return accountstate ->
  login_loop login_info (pre ++ item_url :: post) (login_entered st) =
    let accepted :=
      {| world := snd (http w (login_request login_info item_url));
         self := Some (accepted_attrs item_url deviceid token);
         trace := trace st ++ EvLogin :: attempt_events login_info (pre ++ [item_url]) |} in
    if pwd_expired_or_initial accountstate then
      match logout accepted with
      | (Return _, st') =>
          (Raise (ShareBackendException
                    "Password has expired or initial, please change the password."), st')
      | (Raise e, st') => (Raise e, st')
      end
    else (Return (JStr deviceid), accepted).
Proof.
  intros Hrun Hout Hrej Hd Hdev Htok Hacc.
  rewrite (login_loop_rejected _ _ _ (login_entered st) w) by exact Hrun.
  assert (Hw := after_attempts_world login_info pre (login_entered st) w Hrun).
  rewrite (login_loop_accepted login_info item_url post _ result d token accountstate
             deviceid); rewrite ?Hw; try assumption.
  rewrite after_attempts_trace, attempt_events_snoc. cbn [login_entered trace].
  rewrite <- !app_assoc. reflexivity.
Qed.

Lemma login_all_rejected (login_info : LoginInfo) (st : State) (w : World) :
  _get_login_info = Return login_info ->
  rejected_run login_info (Py.split ";" (RestURL login_info)) (world st) = Some w ->
  login st = (Raise (InvalidShare "All url login fail."),
              after_attempts login_info (Py.split ";" (RestURL login_info))
                (login_entered st) w).
Proof.
  intros Hinfo Hrun. rewrite (login_eq _ _ Hinfo).
  rewrite <- (app_nil_r (Py.split ";" (RestURL login_info))) at 1.
  rewrite (login_loop_rejected _ _ _ (login_entered st) w) by exact Hrun.
  reflexivity.
Qed.

(** A candidate's answer fails the checks of [login]: it is an
    envelope whose error code is not 0, or that has no data, or whose
    data has a device id that is [None]. *)
Local Abbreviation fails_checks :=
  (fun out : Outcome =>
     exists kv e code,
       outcome_result out = Return (JObj kv)
       /\ Py.dict_get "error" kv = Some (JObj e)
       /\ Py.dict_get "code" e = Some code
       /\ (Py.eq code (JInt 0) = false
           \/ Py.dict_get "data" kv = None
           \/ exists d, Py.dict_get "data" kv = Some (JObj d)
                        /\ Py.dict_get "deviceid" d = Some JNull)).

Lemma fails_checks_rejects (out : Outcome) :
  fails_checks out ->
  exists result, outcome_result out = Return result /\ login_rejects result = Return true.
Proof.
  intros (kv & e & code & Hout & He & Hc & Hfail). exists (JObj kv). split; [exact Hout|].
  unfold login_rejects, error_code. cbn [Py.getitem Py.contains]. rewrite He.
  cbn [Py.getitem]. rewrite Hc.
  destruct (Py.eq code (JInt 0)) eqn:H0; cbn [negb]; [|reflexivity].
  destruct Hfail as [Hne|[Hnone|(d & Hd & Hdev)]]; [discriminate| |].
  - now rewrite Hnone.
  - rewrite Hd. cbn [negb Py.getitem]. now rewrite Hdev.
Qed.

(** Candidates whose answers fail the checks are gone through one
    after the other. *)
Lemma failing_run (login_info : LoginInfo) (urls : list string) :
  forall w : World,
    Forall fails_checks (fst (session_answers login_info urls w)) ->
    rejected_run login_info urls w = Some (snd (session_answers login_info urls w)).
Proof.
  induction urls as [|item_url urls IH]; intros w Hall; [reflexivity|].
  cbn [session_answers rejected_run] in *.
  destruct (http w (login_request login_info item_url)) as [out w'].
  specialize (IH w').
  destruct (session_answers login_info urls w') as [outs w'']. cbn [fst snd] in *.
  inversion Hall as [|? ? Hout Houts]; subst.
  destruct (fails_checks_rejects _ Hout) as (result & Hres & Hrej).
  rewrite Hres, Hrej. now apply IH.
Qed.

(** An answer that passes the three checks is not rejected. *)
Lemma passes_checks_accepts (kv e d : list (string * Json)) (code deviceid : Json) :
  Py.dict_get "error" kv = Some (JObj e) ->
  Py.dict_get "code" e = Some code ->
  Py.eq code (JInt 0) = true ->
  Py.dict_get "data" kv = Some (JObj d) ->
  Py.dict_get "deviceid" d = Some deviceid ->
  deviceid <> JNull ->
  login_rejects (JObj kv) = Return false.
Proof.
  intros He Hc H0 Hd Hdev Hne. unfold login_rejects, error_code.
  cbn [Py.getitem Py.contains]. rewrite He. cbn [Py.getitem]. rewrite Hc, H0, Hd.
  cbn [negb Py.getitem]. rewrite Hdev. destruct deviceid; congruence.
Qed.

(** A candidate whose answer cannot be read ends the loop: the
    exception leaves [login_loop], and the candidates behind it are not
    asked. *)
Lemma login_loop_unreadable (login_info : LoginInfo) (item_url : string)
    (rest : list string) (st : State) (x : exn) :
  outcome_result (fst (http (world st) (login_request login_info item_url))) = Raise x
  \/ (exists result,
        outcome_result (fst (http (world st) (login_request login_info item_url)))
          = Return result
        /\ login_rejects result = Raise x) ->
  login_loop login_info (item_url :: rest) st =
    (Raise x,
     {| world := snd (http (world st) (login_request login_info item_url));
        self := Some fresh_attrs;
        trace := trace st ++ [EvInitHead; EvExchange (login_request login_info item_url)] |}).
Proof.
  intros H. cbn [login_loop]. rewrite bind_assoc. unfold bind at 1.
  rewrite login_attempt_eq. destruct H as [Hout|(result & Hout & Hrej)]; rewrite Hout.
  - reflexivity.
  - unfold bind at 1, lift. now rewrite Hrej.
Qed.

Lemma login_unreadable (login_info : LoginInfo) (pre post : list string)
    (item_url : string) (st : State) (x : exn) :
  _get_login_info = Return login_info ->
  Py.split ";" (RestURL login_info) = pre ++ item_url :: post ->
  Forall fails_checks (fst (session_answers login_info pre (world st))) ->
  let w := snd (session_answers login_info pre (world st)) in
  outcome_result (fst (http w (login_request login_info item_url))) = Raise x
  \/ (exists result,
        outcome_result (fst (http w (login_request login_info item_url))) = Return result
        /\ login_rejects result = Raise x) ->
  login st =
    (Raise x,
     {| world := snd (http w (login_request login_info item_url));
        self := Some fresh_attrs;
        trace := trace st ++ EvLogin :: attempt_events login_info (pre ++ [item_url]) |}).
Proof.
  intros Hinfo Hsplit Hpre w Hbad.
  pose proof (failing_run _ _ _ Hpre) as Hrun. fold w in Hrun.
  rewrite (login_eq _ _ Hinfo), Hsplit.
  rewrite (login_loop_rejected _ _ _ (login_entered st) w) by exact Hrun.
  assert (Hw := after_attempts_world login_info pre (login_entered st) w Hrun).
  rewrite (login_loop_unreadable _ _ _ _ x) by (rewrite Hw; exact Hbad).
  rewrite Hw, after_attempts_trace, attempt_events_snoc. cbn [login_entered trace].
  rewrite <- !app_assoc. reflexivity.
Qed.

(** C5, as the code has it.  [login] takes the candidates of the
    semicolon-separated list in their order and resets the session
    before each.  A candidate whose answer is an envelope with an error
    code other than 0, or without data, or with a device id that is
    [None], is passed over.  When the candidates [pre] are passed over
    and the next one, [item_url], answers with code 0, data and a
    device id that is a string, the stored base URL becomes [item_url]
    followed by the device id; with the token and the account state in
    the payload, and the account state not a password-expired one,
    [login] stores the token as well and returns the device id, having
    sent exactly the requests for [pre] and [item_url].  When every
    candidate is passed over, [login] raises [InvalidShare]
    "All url login fail.".  A candidate whose answer cannot be put to
    the checks is not passed over: for a body that is not JSON
    [login] ends in [ValueError], for a payload with code 0 and data
    but no device id in [KeyError], and the candidates behind it are
    not asked. *)
Theorem login_first_accepted (login_info : LoginInfo) :
  _get_login_info = Return login_info ->
  (forall (st : State),
     Forall fails_checks
       (fst (session_answers login_info (Py.split ";" (RestURL login_info)) (world st))) ->
     login st = (Raise (InvalidShare "All url login fail."),
                 after_attempts login_info (Py.split ";" (RestURL login_info))
                   (login_entered st)
                   (snd (session_answers login_info (Py.split ";" (RestURL login_info))
                           (world st)))))
  /\ (forall (pre post : list string) (item_url : string) (st : State),
        Py.split ";" (RestURL login_info) = pre ++ item_url :: post ->
        Forall fails_checks (fst (session_answers login_info pre (world st))) ->
        let w := snd (session_answers login_info pre (world st)) in
        let answer := fst (http w (login_request login_info item_url)) in
        let tried :=
          {| world := snd (http w (login_request login_info item_url));
             self := Some fresh_attrs;
             trace := trace st
                      ++ EvLogin :: attempt_events login_info (pre ++ [item_url]) |} in
        (forall (kv e d : list (string * Json)) (code : Json) (deviceid : string),
           outcome_result answer = Return (JObj kv) ->
           Py.dict_get "error" kv = Some (JObj e) ->
           Py.dict_get "code" e = Some code ->
           Py.eq code (JInt 0) = true ->
           Py.dict_get "data" kv = Some (JObj d) ->
           Py.dict_get "deviceid" d = Some (JStr deviceid) ->
           stored_url (snd (login st)) = Some (item_url +:+ deviceid)
           /\ (forall token accountstate : Json,
                 Py.dict_get "iBaseToken" d = Some token ->
                 Py.dict_get "accountstate" d = Some accountstate ->
                 pwd_expired_or_initial accountstate = false ->
                 login st =
                   (Return (JStr deviceid),
                    {| world := snd (http w (login_request login_info item_url));
                       self := Some (accepted_attrs item_url deviceid token);
                       trace := trace st
                                ++ EvLogin
                                :: attempt_events login_info (pre ++ [item_url]) |})))
        /\ (forall (status_code : Z) (error_text : string),
              answer = Response status_code error_text None ->
              ~ 400 <= status_code < 600 ->
              login st = (Raise ValueError, tried))
        /\ (forall (kv e d : list (string * Json)) (code : Json),
              outcome_result answer = Return (JObj kv) ->
              Py.dict_get "error" kv = Some (JObj e) ->
              Py.dict_get "code" e = Some code ->
              Py.eq code (JInt 0) = true ->
              Py.dict_get "data" kv = Some (JObj d) ->
              Py.dict_get "deviceid" d = None ->
              login st = (Raise (KeyError "deviceid"), tried))).
Proof.
  intros Hinfo. split.
  - intros st Hall. apply login_all_rejected; [exact Hinfo|]. now apply failing_run.
  - intros pre post item_url st Hsplit Hpre w answer tried.
    pose proof (failing_run _ _ _ Hpre) as Hrun. fold w in Hrun.
    split; [|split].
    + intros kv e d code deviceid Hout He Hc H0 Hd Hdev.
      assert (Hrej : login_rejects (JObj kv) = Return false).
      { apply (passes_checks_accepts kv e d code (JStr deviceid)); try assumption.
        discriminate. }
      assert (Hgd : Py.getitem (JObj kv) "data" = Return (JObj d)).
      { cbn [Py.getitem]. now rewrite Hd. }
      assert (Hgdev : Py.getitem (JObj d) "deviceid" = Return (JStr deviceid)).
      { cbn [Py.getitem]. now rewrite Hdev. }
      split.
      * assert (Hst : stored_url (snd (login st))
                      = stored_url (snd (login_loop login_info
                                           (Py.split ";" (RestURL login_info))
                                           (login_entered st)))).
        { rewrite (login_eq _ _ Hinfo).
          destruct (login_loop _ _ _) as [[[]|x] st']; reflexivity. }
        rewrite Hst, Hsplit.
        rewrite (login_loop_rejected _ _ _ (login_entered st) w) by exact Hrun.
        apply (login_loop_stores_url _ _ _ _ (JObj kv) (JObj d)); try assumption.
        rewrite (after_attempts_world login_info pre (login_entered st) w Hrun).
        exact Hout.
      * intros token accountstate Htok Hacc Hok.
        assert (Hgtok : Py.getitem (JObj d) "iBaseToken" = Return token).
        { cbn [Py.getitem]. now rewrite Htok. }
        assert (Hgacc : Py.getitem (JObj d) "accountstate" = Return accountstate).
        { cbn [Py.getitem]. now rewrite Hacc. }
        rewrite (login_eq _ _ Hinfo), Hsplit.
        rewrite (login_accepting _ _ _ _ _ _ _ _ _ _ _ Hrun Hout Hrej Hgd Hgdev Hgtok
                   Hgacc).
        cbv zeta. rewrite Hok. reflexivity.
    + intros status_code error_text Hanswer Hstatus.
      apply (login_unreadable login_info pre post item_url st ValueError Hinfo Hsplit Hpre).
      left. fold w answer. rewrite Hanswer. cbn [outcome_result].
      unfold raises_for_status.
      destruct (Z.leb 400 status_code) eqn:H1; [|reflexivity].
      destruct (Z.ltb status_code 600) eqn:H2; [|reflexivity].
      exfalso. apply Hstatus. apply Z.leb_le in H1. apply Z.ltb_lt in H2. lia.
    + intros kv e d code Hout He Hc H0 Hd Hdev.
      apply (login_unreadable login_info pre post item_url st (KeyError "deviceid") Hinfo
               Hsplit Hpre).
      right. exists (JObj kv). split; [exact Hout|].
      unfold login_rejects, error_code. cbn [Py.getitem Py.contains]. rewrite He.
      cbn [Py.getitem]. rewrite Hc, H0, Hd. cbn [negb Py.getitem]. now rewrite Hdev.
Qed.

(** C6, as the code has it.  When the accepted candidate reports a
    password-expired account state, [login] runs [logout] on the
    session it has just stored and then raises; the stored base URL
    and token are those of that session still.  When every candidate
    is rejected, [login] raises with no base URL and no token
    stored. *)
Theorem login_failure_state (login_info : LoginInfo) :
  _get_login_info = Return login_info ->
  (forall (pre post : list string) (item_url : string) (st : State) (w : World)
          (result d token accountstate : Json) (deviceid : string),
     Py.split ";" (RestURL login_info) = pre ++ item_url :: post ->
     rejected_run login_info pre (world st) = Some w ->
     outcome_result (fst (http w (login_request login_info item_url))) = Return result ->
     login_rejects result = Return false ->
     Py.getitem result "data" = Return d ->
     Py.getitem d "deviceid" = Return (JStr deviceid) ->
     Py.getitem d "iBaseToken" = Return token ->
     Py.getitem d "accountstate" = Return accountstate ->
     pwd_expired_or_initial accountstate = true ->
     login st =
       match logout {| world := snd (http w (login_request login_info item_url));
                       self := Some (accepted_attrs item_url deviceid token);
                       trace := trace st ++ EvLogin
                                :: attempt_events login_info (pre ++ [item_url]) |} with
       | (Return _, st') =>
           (Raise (ShareBackendException
                     "Password has expired or initial, please change the password."), st')
       | (Raise e, st') => (Raise e, st')
       end
     /\ is_raise (fst (login st)) = true
     /\ stored_url (snd (login st)) = Some (item_url +:+ deviceid)
     /\ stored_token (snd (login st)) = Some token)
  /\ (forall (st : State) (w : World),
        rejected_run login_info (Py.split ";" (RestURL login_info)) (world st) = Some w ->
        is_raise (fst (login st)) = true
        /\ stored_url (snd (login st)) = None
        /\ stored_token (snd (login st)) = None).
Proof.
  intros Hinfo. split.
  - intros pre post item_url st w result d token accountstate deviceid
      Hsplit Hrun Hout Hrej Hd Hdev Htok Hacc Hexp.
    rewrite (login_eq _ _ Hinfo), Hsplit.
    rewrite (login_accepting _ _ _ _ _ _ _ _ _ _ _ Hrun Hout Hrej Hd Hdev Htok Hacc).
    cbv zeta. rewrite Hexp. unfold stored_url, stored_token.
    match goal with |- context [logout ?s] =>
      pose proof (logout_self s) as Hs; destruct (logout s) as [[[]|e] st'] end;
      cbn [fst snd self] in *; rewrite Hs; cbn [accepted_attrs self_url self_session headers];
      rewrite lookup_insert_eq; auto.
  - intros st w Hrun. rewrite (login_all_rejected _ _ _ Hinfo Hrun).
    cbn [fst snd is_raise]. unfold stored_url, stored_token.
    destruct (split_cons ";" (RestURL login_info)) as (u & us & ->).
    cbn [after_attempts self fresh_attrs self_url self_session headers].
    split; [reflexivity|split; [reflexivity|]]. vm_compute. reflexivity.
Qed.

End Login.

Lemma login_first_accepted_witness :
  fst (login (Demo.constructed Demo.failover_script)) = Return (JStr "dev1")
  /\ stored_url (snd (login (Demo.constructed Demo.failover_script)))
     = Some ("https://b:8088/rest/" +:+ "dev1")
  /\ fst (login (Demo.constructed [])) = Raise (InvalidShare "All url login fail.")
  /\ fst (login (Demo.constructed [ConnectFailure; Response 200 "" None]))
     = Raise ValueError.
Proof.
  assert (Hunreachable : exists kv e code,
            outcome_result ConnectFailure = Return (JObj kv)
            /\ Py.dict_get "error" kv = Some (JObj e)
            /\ Py.dict_get "code" e = Some code
            /\ (Py.eq code (JInt 0) = false
                \/ Py.dict_get "data" kv = None
                \/ exists d, Py.dict_get "data" kv = Some (JObj d)
                             /\ Py.dict_get "deviceid" d = Some JNull)).
  { exists [("error", JObj [("code", JInt (-403));
                            ("description", JStr "Connect server error")])],
           [("code", JInt (-403)); ("description", JStr "Connect server error")],
           (JInt (-403)).
    repeat split; try reflexivity. left. reflexivity. }
  assert (Hsplit : Py.split ";" (RestURL Demo.login_info)
                   = ["https://a:8088/rest/"] ++ "https://b:8088/rest/"
                     :: ["https://c:8088/rest/"]) by (vm_compute; reflexivity).
  destruct (login_first_accepted (E := Demo.env) Demo.login_info eq_refl) as (Hall & Hacc).
  assert (Hpre : forall script,
            Forall (fun out => exists kv e code,
                      outcome_result out = Return (JObj kv)
                      /\ Py.dict_get "error" kv = Some (JObj e)
                      /\ Py.dict_get "code" e = Some code
                      /\ (Py.eq code (JInt 0) = false
                          \/ Py.dict_get "data" kv = None
                          \/ exists d, Py.dict_get "data" kv = Some (JObj d)
                                       /\ Py.dict_get "deviceid" d = Some JNull))
              (fst (session_answers Demo.login_info ["https://a:8088/rest/"]
                      (world (Demo.constructed (ConnectFailure :: script)))))).
  { intros script. constructor; [exact Hunreachable|constructor]. }
  destruct (Hacc _ _ _ (Demo.constructed Demo.failover_script) Hsplit
              (Hpre [Demo.ok (Demo.envelope 0 (Some (Demo.session_data "dev1" "tok1" 1)))]))
    as (Haccept & _ & _).
  destruct (Haccept
              [("error", JObj [("code", JInt 0); ("description", JStr "")]);
               ("data", Demo.session_data "dev1" "tok1" 1)]
              [("code", JInt 0); ("description", JStr "")]
              [("deviceid", JStr "dev1"); ("iBaseToken", JStr "tok1");
               ("accountstate", JInt 1)]
              (JInt 0) "dev1" eq_refl eq_refl eq_refl eq_refl eq_refl eq_refl)
    as (Hurl & Hret).
  destruct (Hacc _ _ _ (Demo.constructed [ConnectFailure; Response 200 "" None]) Hsplit
              (Hpre [Response 200 "" None])) as (_ & Hbody & _).
  assert (Hstatus : ~ 400 <= 200 < 600) by lia.
  assert (Hnone : Forall (fun out => exists kv e code,
                      outcome_result out = Return (JObj kv)
                      /\ Py.dict_get "error" kv = Some (JObj e)
                      /\ Py.dict_get "code" e = Some code
                      /\ (Py.eq code (JInt 0) = false
                          \/ Py.dict_get "data" kv = None
                          \/ exists d, Py.dict_get "data" kv = Some (JObj d)
                                       /\ Py.dict_get "deviceid" d = Some JNull))
                    (fst (session_answers Demo.login_info
                            (Py.split ";" (RestURL Demo.login_info))
                            (world (Demo.constructed []))))).
  { rewrite Hsplit. repeat constructor; exact Hunreachable. }
  split; [|split; [|split]].
  - rewrite (Hret (JStr "tok1") (JInt 1) eq_refl eq_refl eq_refl). reflexivity.
  - exact Hurl.
  - rewrite (Hall (Demo.constructed []) Hnone). reflexivity.
  - rewrite (Hbody 200 "" eq_refl Hstatus). reflexivity.
Defined.

(** C5 as stated fails on answers that can be put to none of its
    three checks.  Every candidate answers with code 0 and a payload
    without a device id: [login] does not go on to the next candidate
    and does not raise the all-URLs error; it ends in [KeyError] after
    one request, with two answers of the script not asked for.  The
    same with bodies that are not JSON, where it ends in
    [ValueError]. *)
Lemma login_unreadable_counterexample :
  Forall (fun out => exists kv e d,
            out = Response 200 "" (Some (JObj kv))
            /\ Py.dict_get "error" kv = Some (JObj e)
            /\ Py.dict_get "code" e = Some (JInt 0)
            /\ Py.dict_get "data" kv = Some (JObj d)
            /\ Py.dict_get "deviceid" d = None)
    Demo.no_deviceid_script
  /\ fst (login (Demo.constructed Demo.no_deviceid_script)) = Raise (KeyError "deviceid")
  /\ fst (login (Demo.constructed Demo.no_deviceid_script))
     <> Raise (InvalidShare "All url login fail.")
  /\ map req_url (exchanges (trace (snd (login (Demo.constructed Demo.no_deviceid_script)))))
     = ["https://a:8088/rest/xx/sessions"]
  /\ world (snd (login (Demo.constructed Demo.no_deviceid_script)))
     = [Demo.no_deviceid; Demo.no_deviceid]
  /\ fst (login (Demo.constructed Demo.not_json_script)) = Raise ValueError
  /\ map req_url (exchanges (trace (snd (login (Demo.constructed Demo.not_json_script)))))
     = ["https://a:8088/rest/xx/sessions"].
Proof.
  split.
  - repeat constructor;
      exists [("error", JObj [("code", JInt 0); ("description", JStr "")]);
              ("data", JObj [("iBaseToken", JStr "tok1"); ("accountstate", JInt 1)])],
             [("code", JInt 0); ("description", JStr "")],
             [("iBaseToken", JStr "tok1"); ("accountstate", JInt 1)];
      repeat split; reflexivity.
  - repeat split; try (vm_compute; reflexivity). vm_compute. discriminate.
Qed.

Lemma login_failure_state_witness :
  is_raise (fst (login (Demo.constructed Demo.expired_script))) = true
  /\ stored_url (snd (login (Demo.constructed Demo.expired_script)))
     = Some ("https://a:8088/rest/" +:+ "dev9")
  /\ stored_token (snd (login (Demo.constructed [])))  = None.
Proof.
  destruct (login_failure_state (E := Demo.env) Demo.login_info eq_refl) as (Hexp & Hall).
  destruct (Hexp [] ["https://b:8088/rest/"; "https://c:8088/rest/"] "https://a:8088/rest/"
              (Demo.constructed Demo.expired_script) Demo.expired_script
              (Demo.envelope 0 (Some (Demo.session_data "dev9" "tok9" 3)))
              (Demo.session_data "dev9" "tok9" 3) (JStr "tok9") (JInt 3) "dev9"
              ltac:(vm_compute; reflexivity) ltac:(vm_compute; reflexivity)
              ltac:(vm_compute; reflexivity) ltac:(vm_compute; reflexivity)
              ltac:(vm_compute; reflexivity) ltac:(vm_compute; reflexivity)
              ltac:(vm_compute; reflexivity) ltac:(vm_compute; reflexivity)
              ltac:(vm_compute; reflexivity))
    as (_ & Hraise & Hurl & _).
  destruct (Hall (Demo.constructed []) [] ltac:(vm_compute; reflexivity))
    as (_ & _ & Htoken).
  auto.
Defined.

(** C6 as stated fails after a password-expired login.  The helper
    logs out and raises, and the base URL and the token it keeps are
    those of the session it has just given up. *)
Lemma login_expired_counterexample :
  fst (login (Demo.constructed Demo.expired_script))
    = Raise (ShareBackendException
               "Password has expired or initial, please change the password.")
  /\ stored_url (snd (login (Demo.constructed Demo.expired_script)))
     = Some "https://a:8088/rest/dev9"
  /\ stored_token (snd (login (Demo.constructed Demo.expired_script)))
     = Some (JStr "tok9")
  /\ map (fun r => (req_method r, req_url r))
       (exchanges (trace (snd (login (Demo.constructed Demo.expired_script)))))
     = [("POST", "https://a:8088/rest/xx/sessions");
        ("DELETE", "https://a:8088/rest/dev9/sessions")].
Proof. vm_compute. repeat split. Qed.

(** ** Paginated scans *)

Section Scans.

Context {World : Type} `{E : Env World}.

Local Abbreviation silent := (@silent World _).
Local Abbreviation callfree := (@callfree World _).

Lemma silent_callfree {A} (m : @M World A) : silent m -> callfree m.
Proof.
  intros Hm st. destruct (Hm st) as (t & Ht & Hc & _).
  rewrite Ht, calls_app, Hc. apply app_nil_r.
Qed.

Lemma callfree_bind {A B} (m : @M World A) (k : A -> @M World B) :
  callfree m -> (forall a, callfree (k a)) -> callfree (bind m k).
Proof.
  intros Hm Hk st. unfold bind. specialize (Hm st).
  destruct (m st) as [[a|e] st1]; cbn [snd] in *; [|exact Hm].
  rewrite (Hk a st1). exact Hm.
Qed.

Lemma callfree_login : callfree login.
Proof.
  intros st. destruct (login_footprint st) as (t & Ht & Hc & _).
  rewrite Ht, calls_app. cbn [calls]. rewrite Hc. apply app_nil_r.
Qed.

Lemma callfree_lift {A} (r : Result A) : callfree (@lift World A r).
Proof. apply silent_callfree, silent_lift. Qed.

Lemma callfree_assert_rest_result (result : Json) (err_str : string) :
  callfree (_assert_rest_result result err_str).
Proof. apply silent_callfree, silent_assert_rest_result. Qed.

Lemma callfree_assert_data_in_result (result : Json) (msg : string) :
  callfree (_assert_data_in_result result msg).
Proof.
  apply callfree_bind; [apply callfree_lift|]. intros present.
  destruct (negb present); apply silent_callfree; [apply silent_raise | apply silent_ret].
Qed.

(** [call] is recorded once, whatever happens inside it. *)
Lemma call_calls (url : string) (data method : option string) (st : State) :
  calls (trace (snd (call url data method st))) = calls (trace st) ++ [(url, data, method)].
Proof.
  assert (Hent : calls (trace (entered url data method st))
                 = calls (trace st) ++ [(url, data, method)]).
  { unfold entered. cbn [trace]. rewrite calls_app. reflexivity. }
  rewrite call_eq.
  pose proof (silent_callfree _ (silent_do_call url data method (SOCKET_TIMEOUT consts))
                (entered url data method st)) as H1.
  destruct (do_call url data method _ (entered url data method st)) as [[r|e] st1];
    cbn [snd] in H1; [|cbn [snd]; congruence].
  destruct (error_code r) as [code|e]; [|cbn [snd]; congruence].
  destruct (needs_relogin code); [|cbn [snd]; congruence].
  pose proof (callfree_login st1) as H2.
  destruct (login st1) as [[d|e] st2]; cbn [snd] in H2; [|cbn [snd]; congruence].
  rewrite (silent_callfree _ (silent_do_call url data method (SOCKET_TIMEOUT consts)) st2).
  congruence.
Qed.

Lemma bind_call_calls {B} (url : string) (data method : option string)
    (k : Json -> @M World B) (st : State) :
  (forall result, callfree (k result)) ->
  calls (trace (snd (bind (call url data method) k st)))
    = calls (trace st) ++ [(url, data, method)].
Proof.
  intros Hk. unfold bind. pose proof (call_calls url data method st) as Hc.
  destruct (call url data method st) as [[r|e] st1]; cbn [snd] in Hc; [|exact Hc].
  rewrite (Hk r st1). exact Hc.
Qed.

Lemma access_range_calls (share_id : string) (b : Z) (share_client_type : string)
    (vstore_id : option string) (st : State) :
  calls (trace (snd (_get_access_from_share_range share_id b share_client_type
                       vstore_id st)))
    = calls (trace st) ++ [access_page_call share_id share_client_type vstore_id b].
Proof.
  apply bind_call_calls. intros result.
  apply callfree_bind; [apply callfree_assert_rest_result|]. intros; apply callfree_lift.
Qed.

Lemma share_range_calls (share_name : string) (b : Z) (share_url_type : string)
    (vstore_id : option string) (st : State) :
  calls (trace (snd (_get_share_by_name_range share_name b share_url_type vstore_id st)))
    = calls (trace st) ++ [share_page_call share_url_type vstore_id b].
Proof.
  apply bind_call_calls. intros result.
  apply callfree_bind; [apply callfree_assert_rest_result|]. intros _.
  apply callfree_bind; [apply callfree_lift|]. intros data.
  apply callfree_bind; [apply callfree_lift|]. intros; apply callfree_lift.
Qed.

Lemma access_count_calls (share_id share_client_type : string) (vstore_id : option string)
    (st : State) :
  calls (trace (snd (_get_access_count share_id share_client_type vstore_id st)))
    = calls (trace st)
      ++ [("/" +:+ share_client_type +:+ "/count?" +:+ "filter=PARENTID::" +:+ share_id,
           vstore_params vstore_id, Some "GET")].
Proof.
  apply bind_call_calls. intros result.
  apply callfree_bind; [apply callfree_assert_rest_result|]. intros _.
  apply callfree_bind; [apply callfree_assert_data_in_result|]. intros _.
  apply callfree_bind; [apply callfree_lift|]. intros d.
  apply callfree_bind; [apply callfree_lift|]. intros; apply callfree_lift.
Qed.

Lemma share_count_calls (share_url_type : string) (st : State) :
  calls (trace (snd (_get_share_count share_url_type st)))
    = calls (trace st) ++ [("/" +:+ share_url_type +:+ "/count", None, Some "GET")].
Proof.
  apply bind_call_calls. intros result.
  apply callfree_bind; [apply callfree_assert_rest_result|]. intros _.
  apply callfree_bind; [apply callfree_lift|]. intros d.
  apply callfree_bind; [apply callfree_lift|]. intros; apply callfree_lift.
Qed.

(** A page without a match leaves the access id as it was. *)
Lemma scan_access_no_match (access_to : string) (items : list Json) (access_id : Json) :
  no_match access_to items = true ->
  scan_access access_to items access_id = Return access_id.
Proof.
  induction items as [|item items IH]; cbn [no_match forallb scan_access]; [reflexivity|].
  destruct (Py.getitem item "NAME") as [name|e]; [|discriminate].
  destruct (names_access access_to name); [discriminate|]. exact IH.
Qed.

(** The access scan goes through the windows that have no match
    until the budget is used up. *)
Lemma access_loop_exhausted (share_id access_to share_client_type : string)
    (vstore_id : option string) (access_id : Json) :
  Py.truthy access_id = false ->
  forall (k : nat) (count b : Z) (st st2 : State) (fuel : nat),
    access_misses share_id access_to share_client_type vstore_id k b st = Some st2 ->
    count <= 100 * Z.of_nat k ->
    (k = O \/ 100 * (Z.of_nat k - 1) < count) ->
    (k < fuel)%nat ->
    access_loop fuel share_id access_to share_client_type vstore_id count b access_id st
      = Some (Return access_id, st2)
    /\ calls (trace st2)
       = calls (trace st)
         ++ map (access_page_call share_id share_client_type vstore_id) (windows_from b k).
Proof.
  intros Hfalsy. induction k as [|k IH]; intros count b st st2 fuel Hmiss Hle Hgt Hfuel.
  - cbn in Hmiss. inversion Hmiss; subst st2.
    destruct fuel as [|fuel]; [lia|]. cbn [access_loop].
    replace (Z.ltb 0 count) with false by (symmetry; apply Z.ltb_ge; lia).
    split; [reflexivity|]. cbn. symmetry. apply app_nil_r.
  - destruct fuel as [|fuel]; [lia|]. cbn [access_loop access_misses] in *.
    replace (Z.ltb 0 count) with true by (symmetry; apply Z.ltb_lt; lia).
    rewrite Hfalsy.
    pose proof (access_range_calls share_id b share_client_type vstore_id st) as Hc.
    destruct (_get_access_from_share_range share_id b share_client_type vstore_id st)
      as [[page|e] st1]; [|discriminate].
    destruct (Py.iter page) as [items|e]; [|discriminate].
    destruct (no_match access_to items) eqn:Hno; [|discriminate].
    rewrite (scan_access_no_match _ _ _ Hno).
    destruct (IH (count - 100) (b + 100) st1 st2 fuel Hmiss) as (Hloop & Hcalls);
      try lia.
    split; [exact Hloop|].
    rewrite Hcalls. cbn [snd] in Hc. rewrite Hc. cbn [windows_from map].
    rewrite <- app_assoc. reflexivity.
Qed.

(** The access scan stops at the first window that has a match. *)
Lemma access_loop_found (share_id access_to share_client_type : string)
    (vstore_id : option string) (access_id : Json) :
  Py.truthy access_id = false ->
  forall (k : nat) (count b : Z) (st st2 st3 : State) (fuel : nat)
         (page : Json) (items : list Json) (found : Json),
    access_misses share_id access_to share_client_type vstore_id k b st = Some st2 ->
    100 * Z.of_nat k < count ->
    _get_access_from_share_range share_id (b + 100 * Z.of_nat k) share_client_type
      vstore_id st2 = (Return page, st3) ->
    Py.iter page = Return items ->
    scan_access access_to items access_id = Return found ->
    Py.truthy found = true ->
    (S k < fuel)%nat ->
    access_loop fuel share_id access_to share_client_type vstore_id count b access_id st
      = Some (Return found, st3)
    /\ calls (trace st3)
       = calls (trace st)
         ++ map (access_page_call share_id share_client_type vstore_id)
              (windows_from b (S k)).
Proof.
  intros Hfalsy. induction k as [|k IH];
    intros count b st st2 st3 fuel page items found Hmiss Hlt Hpage Hiter Hscan Hfound Hfuel.
  - cbn in Hmiss. inversion Hmiss; subst st2. clear Hmiss.
    replace (b + 100 * Z.of_nat 0) with b in Hpage by lia.
    destruct fuel as [|[|fuel]]; [lia|lia|]. cbn [access_loop].
    replace (Z.ltb 0 count) with true by (symmetry; apply Z.ltb_lt; lia).
    rewrite Hfalsy, Hpage, Hiter, Hscan, Hfound.
    pose proof (access_range_calls share_id b share_client_type vstore_id st) as Hc.
    rewrite Hpage in Hc. cbn [snd] in Hc.
    split; [destruct (Z.ltb 0 (count - 100)); reflexivity | exact Hc].
  - destruct fuel as [|fuel]; [lia|]. cbn [access_loop access_misses] in *.
    replace (Z.ltb 0 count) with true by (symmetry; apply Z.ltb_lt; lia).
    rewrite Hfalsy.
    pose proof (access_range_calls share_id b share_client_type vstore_id st) as Hc.
    destruct (_get_access_from_share_range share_id b share_client_type vstore_id st)
      as [[page1|e] st1]; [|discriminate].
    destruct (Py.iter page1) as [items1|e]; [|discriminate].
    destruct (no_match access_to items1) eqn:Hno; [|discriminate].
    rewrite (scan_access_no_match _ _ _ Hno).
    replace (b + 100 * Z.of_nat (S k)) with (b + 100 + 100 * Z.of_nat k) in Hpage by lia.
    destruct (IH (count - 100) (b + 100) st1 st2 st3 fuel page items found
                Hmiss ltac:(lia) Hpage Hiter Hscan Hfound ltac:(lia)) as (Hloop & Hcalls).
    split; [exact Hloop|].
    rewrite Hcalls. cbn [snd] in Hc. rewrite Hc.
    cbn [windows_from map]. rewrite <- app_assoc. reflexivity.
Qed.

(** The access loop ends within [count / 100] iterations, rounded up. *)
Lemma access_loop_terminates (share_id access_to share_client_type : string)
    (vstore_id : option string) :
  forall (fuel : nat) (count b : Z) (access_id : Json) (st : State),
    count <= 100 * Z.of_nat fuel ->
    access_loop (S fuel) share_id access_to share_client_type vstore_id count b access_id st
      <> None.
Proof.
  induction fuel as [|fuel IH]; intros count b access_id st Hle.
  - cbn [access_loop].
    replace (Z.ltb 0 count) with false by (symmetry; apply Z.ltb_ge; lia). discriminate.
  - remember (S fuel) as f eqn:Hf. cbn [access_loop].
    destruct (Z.ltb 0 count); [|discriminate].
    destruct (Py.truthy access_id); [discriminate|].
    destruct (_get_access_from_share_range _ _ _ _ st) as [[page|e] st1]; [|discriminate].
    destruct (Py.iter page) as [items|e]; [|discriminate].
    destruct (scan_access access_to items access_id) as [access_id'|e]; [|discriminate].
    subst f. apply IH. lia.
Qed.

Lemma find_share_falsy (share_path : string) (items : list Json) (share : Json) :
  find_share share_path items = Return share ->
  Py.truthy share = false -> share = JObj [].
Proof.
  induction items as [|item items IH]; cbn [find_share].
  - intros H _. inversion H. reflexivity.
  - destruct (Py.getitem item "SHAREPATH") as [sp|e]; [|discriminate].
    destruct (Py.eq (JStr share_path) sp); [|exact IH].
    destruct (Py.getitem item "ID") as [i|e]; [|discriminate].
    destruct (Py.getitem item "FSID") as [f|e]; [|discriminate].
    intros H Ht. inversion H; subst. discriminate.
Qed.

(** A page query that finds no share returns the empty dict. *)
Lemma share_range_falsy (share_name : string) (b : Z) (share_url_type : string)
    (vstore_id : option string) (st st' : State) (share : Json) :
  _get_share_by_name_range share_name b share_url_type vstore_id st = (Return share, st') ->
  Py.truthy share = false -> share = JObj [].
Proof.
  unfold _get_share_by_name_range, bind, lift.
  destruct (call _ _ _ st) as [[result|e] st1]; [|discriminate].
  destruct (_assert_rest_result result _ st1) as [[[]|e] st2]; [|discriminate].
  destruct (Py.get_default result "data" (JList [])) as [data|e]; [|discriminate].
  destruct (Py.iter data) as [items|e]; [|discriminate].
  destruct (find_share _ items) as [s|e] eqn:Hfind; [|discriminate].
  intros H. inversion H; subst. now apply (find_share_falsy _ _ _ Hfind).
Qed.

(** The share scan goes through the windows that have no share of the
    name until the budget has become negative. *)
Lemma share_loop_exhausted (share_name share_url_type : string)
    (vstore_id : option string) :
  forall (k : nat) (count b : Z) (st st2 : State) (fuel : nat),
    share_misses share_name share_url_type vstore_id k b st = Some st2 ->
    count < 100 * Z.of_nat k ->
    (k = O \/ 100 * (Z.of_nat k - 1) <= count) ->
    (k < fuel)%nat ->
    share_loop fuel share_name share_url_type vstore_id count b (JObj []) st
      = Some (Return (JObj []), st2)
    /\ calls (trace st2)
       = calls (trace st)
         ++ map (share_page_call share_url_type vstore_id) (windows_from b k).
Proof.
  induction k as [|k IH]; intros count b st st2 fuel Hmiss Hlt Hge Hfuel.
  - cbn in Hmiss. inversion Hmiss; subst st2.
    destruct fuel as [|fuel]; [lia|]. cbn [share_loop].
    replace (Z.ltb count 0) with true by (symmetry; apply Z.ltb_lt; lia).
    split; [reflexivity|]. cbn. symmetry. apply app_nil_r.
  - destruct fuel as [|fuel]; [lia|]. cbn [share_loop share_misses] in *.
    replace (Z.ltb count 0) with false by (symmetry; apply Z.ltb_ge; lia).
    cbn [Py.truthy orb].
    pose proof (share_range_calls share_name b share_url_type vstore_id st) as Hc.
    destruct (_get_share_by_name_range share_name b share_url_type vstore_id st)
      as [[share|e] st1] eqn:Hrange; [|discriminate].
    destruct (Py.truthy share) eqn:Ht; [discriminate|].
    rewrite (share_range_falsy _ _ _ _ _ _ _ Hrange Ht).
    destruct (IH (count - 100) (b + 100) st1 st2 fuel Hmiss) as (Hloop & Hcalls);
      try lia.
    split; [exact Hloop|].
    rewrite Hcalls. cbn [snd] in Hc. rewrite Hc. cbn [windows_from map].
    rewrite <- app_assoc. reflexivity.
Qed.

(** The share scan stops at the first window that has the share. *)
Lemma share_loop_found (share_name share_url_type : string) (vstore_id : option string) :
  forall (k : nat) (count b : Z) (st st2 st3 : State) (fuel : nat) (share : Json),
    share_misses share_name share_url_type vstore_id k b st = Some st2 ->
    100 * Z.of_nat k <= count ->
    _get_share_by_name_range share_name (b + 100 * Z.of_nat k) share_url_type vstore_id st2
      = (Return share, st3) ->
    Py.truthy share = true ->
    (S k < fuel)%nat ->
    share_loop fuel share_name share_url_type vstore_id count b (JObj []) st
      = Some (Return share, st3)
    /\ calls (trace st3)
       = calls (trace st)
         ++ map (share_page_call share_url_type vstore_id) (windows_from b (S k)).
Proof.
  induction k as [|k IH];
    intros count b st st2 st3 fuel share Hmiss Hle Hpage Hfound Hfuel.
  - cbn in Hmiss. inversion Hmiss; subst st2. clear Hmiss.
    replace (b + 100 * Z.of_nat 0) with b in Hpage by lia.
    destruct fuel as [|[|fuel]]; [lia|lia|]. cbn [share_loop].
    replace (Z.ltb count 0) with false by (symmetry; apply Z.ltb_ge; lia).
    cbn [Py.truthy orb]. rewrite Hpage, Hfound, orb_true_r.
    pose proof (share_range_calls share_name b share_url_type vstore_id st) as Hc.
    rewrite Hpage in Hc. cbn [snd] in Hc. split; [reflexivity | exact Hc].
  - destruct fuel as [|fuel]; [lia|]. cbn [share_loop share_misses] in *.
    replace (Z.ltb count 0) with false by (symmetry; apply Z.ltb_ge; lia).
    cbn [Py.truthy orb].
    pose proof (share_range_calls share_name b share_url_type vstore_id st) as Hc.
    destruct (_get_share_by_name_range share_name b share_url_type vstore_id st)
      as [[share1|e] st1] eqn:Hrange; [|discriminate].
    destruct (Py.truthy share1) eqn:Ht; [discriminate|].
    rewrite (share_range_falsy _ _ _ _ _ _ _ Hrange Ht).
    replace (b + 100 * Z.of_nat (S k)) with (b + 100 + 100 * Z.of_nat k) in Hpage by lia.
    destruct (IH (count - 100) (b + 100) st1 st2 st3 fuel share
                Hmiss ltac:(lia) Hpage Hfound ltac:(lia)) as (Hloop & Hcalls).
    split; [exact Hloop|].
    rewrite Hcalls. cbn [snd] in Hc. rewrite Hc.
    cbn [windows_from map]. rewrite <- app_assoc. reflexivity.
Qed.

(** The share loop ends within [count / 100 + 1] iterations. *)
Lemma share_loop_terminates (share_name share_url_type : string)
    (vstore_id : option string) :
  forall (fuel : nat) (count b : Z) (share : Json) (st : State),
    count < 100 * Z.of_nat fuel ->
    share_loop (S fuel) share_name share_url_type vstore_id count b share st <> None.
Proof.
  induction fuel as [|fuel IH]; intros count b share st Hlt.
  - cbn [share_loop].
    replace (Z.ltb count 0) with true by (symmetry; apply Z.ltb_lt; lia). discriminate.
  - remember (S fuel) as f eqn:Hf. cbn [share_loop].
    destruct (Z.ltb count 0 || Py.truthy share); [discriminate|].
    destruct (_get_share_by_name_range _ _ _ _ st) as [[share'|e] st1]; [|discriminate].
    subst f. apply IH. lia.
Qed.

(** [ceil(n / 100)] and [floor(n / 100) + 1] as bounds on [n]. *)
Lemma pages_access_bounds (n : Z) :
  0 <= n ->
  n <= 100 * Z.of_nat (pages_access n)
  /\ (pages_access n = O \/ 100 * (Z.of_nat (pages_access n) - 1) < n).
Proof.
  intros Hn. unfold pages_access.
  pose proof (Z.div_mod (n + 99) 100 ltac:(lia)) as Hdm.
  pose proof (Z.mod_pos_bound (n + 99) 100 ltac:(lia)) as Hmod.
  assert (0 <= (n + 99) / 100) by (apply Z.div_pos; lia).
  rewrite Z2Nat.id by assumption. split; [lia|]. right. lia.
Qed.

Lemma pages_share_bounds (n : Z) :
  0 <= n ->
  n < 100 * Z.of_nat (pages_share n)
  /\ 100 * (Z.of_nat (pages_share n) - 1) <= n.
Proof.
  intros Hn. unfold pages_share.
  pose proof (Z.div_mod n 100 ltac:(lia)) as Hdm.
  pose proof (Z.mod_pos_bound n 100 ltac:(lia)) as Hmod.
  assert (0 <= n / 100) by (apply Z.div_pos; lia).
  rewrite Nat2Z.inj_succ, Z2Nat.id by assumption. lia.
Qed.

Lemma windows_length (k : nat) : length (windows k) = k.
Proof.
  unfold windows. generalize 0. induction k as [|k IH]; intros b; [reflexivity|].
  cbn [windows_from length]. rewrite IH. reflexivity.
Qed.

Lemma access_scan_found (fuel : nat) (share_id access_to share_proto share_client_type : string)
    (vstore_id : option string) (n : Z) (k : nat) (st st1 st2 st3 : State)
    (page : Json) (items : list Json) (found : Json) :
  _get_share_client_type share_proto st = (Return share_client_type, st) ->
  _get_access_count share_id share_client_type vstore_id st = (Return n, st1) ->
  access_misses share_id access_to share_client_type vstore_id k 0 st1 = Some st2 ->
  100 * Z.of_nat k < n ->
  _get_access_from_share_range share_id (100 * Z.of_nat k) share_client_type vstore_id st2
    = (Return page, st3) ->
  Py.iter page = Return items ->
  scan_access access_to items JNull = Return found ->
  Py.truthy found = true ->
  (S k < fuel)%nat ->
  _get_access_from_share fuel share_id access_to share_proto vstore_id st
    = Some (Return found, st3)
  /\ calls (trace st3)
     = calls (trace st) ++ access_scan_calls share_id share_client_type vstore_id (S k).
Proof.
  intros Htype Hcount Hmiss Hlt Hpage Hiter Hscan Hfound Hfuel.
  unfold _get_access_from_share. rewrite Htype, Hcount.
  destruct (access_loop_found share_id access_to share_client_type vstore_id JNull eq_refl
              k n 0 st1 st2 st3 fuel page items found Hmiss Hlt Hpage Hiter Hscan
              Hfound Hfuel) as (Hloop & Hcalls).
  split; [exact Hloop|].
  pose proof (access_count_calls share_id share_client_type vstore_id st) as Hc.
  rewrite Hcount in Hc. cbn [snd] in Hc.
  rewrite Hcalls, Hc. unfold access_scan_calls, windows. rewrite <- app_assoc. reflexivity.
Qed.

Lemma access_scan_exhausted (fuel : nat)
    (share_id access_to share_proto share_client_type : string)
    (vstore_id : option string) (n : Z) (st st1 st2 : State) :
  _get_share_client_type share_proto st = (Return share_client_type, st) ->
  _get_access_count share_id share_client_type vstore_id st = (Return n, st1) ->
  0 <= n ->
  access_misses share_id access_to share_client_type vstore_id (pages_access n) 0 st1
    = Some st2 ->
  (pages_access n < fuel)%nat ->
  _get_access_from_share fuel share_id access_to share_proto vstore_id st
    = Some (Return JNull, st2)
  /\ calls (trace st2)
     = calls (trace st)
       ++ access_scan_calls share_id share_client_type vstore_id (pages_access n).
Proof.
  intros Htype Hcount Hn Hmiss Hfuel.
  unfold _get_access_from_share. rewrite Htype, Hcount.
  destruct (pages_access_bounds n Hn) as (Hle & Hgt).
  destruct (access_loop_exhausted share_id access_to share_client_type vstore_id JNull
              eq_refl (pages_access n) n 0 st1 st2 fuel Hmiss Hle Hgt Hfuel)
    as (Hloop & Hcalls).
  split; [exact Hloop|].
  pose proof (access_count_calls share_id share_client_type vstore_id st) as Hc.
  rewrite Hcount in Hc. cbn [snd] in Hc.
  rewrite Hcalls, Hc. unfold access_scan_calls, windows. rewrite <- app_assoc. reflexivity.
Qed.

Lemma share_scan_found (fuel : nat) (share_name share_url_type : string)
    (vstore_id : option string) (n : Z) (k : nat) (st st1 st2 st3 : State) (share : Json) :
  _get_share_count share_url_type st = (Return n, st1) ->
  share_misses share_name share_url_type vstore_id k 0 st1 = Some st2 ->
  100 * Z.of_nat k <= n ->
  _get_share_by_name_range share_name (100 * Z.of_nat k) share_url_type vstore_id st2
    = (Return share, st3) ->
  Py.truthy share = true ->
  (S k < fuel)%nat ->
  _get_share_by_name fuel share_name share_url_type vstore_id st = Some (Return share, st3)
  /\ calls (trace st3)
     = calls (trace st) ++ share_scan_calls share_url_type vstore_id (S k).
Proof.
  intros Hcount Hmiss Hle Hpage Hfound Hfuel.
  unfold _get_share_by_name. rewrite Hcount.
  destruct (share_loop_found share_name share_url_type vstore_id k n 0 st1 st2 st3 fuel
              share Hmiss Hle Hpage Hfound Hfuel) as (Hloop & Hcalls).
  split; [exact Hloop|].
  pose proof (share_count_calls share_url_type st) as Hc.
  rewrite Hcount in Hc. cbn [snd] in Hc.
  rewrite Hcalls, Hc. unfold share_scan_calls, windows. rewrite <- app_assoc. reflexivity.
Qed.

Lemma share_scan_exhausted (fuel : nat) (share_name share_url_type : string)
    (vstore_id : option string) (n : Z) (st st1 st2 : State) :
  _get_share_count share_url_type st = (Return n, st1) ->
  0 <= n ->
  share_misses share_name share_url_type vstore_id (pages_share n) 0 st1 = Some st2 ->
  (pages_share n < fuel)%nat ->
  _get_share_by_name fuel share_name share_url_type vstore_id st
    = Some (Return (JObj []), st2)
  /\ calls (trace st2)
     = calls (trace st) ++ share_scan_calls share_url_type vstore_id (pages_share n).
Proof.
  intros Hcount Hn Hmiss Hfuel.
  unfold _get_share_by_name. rewrite Hcount.
  destruct (pages_share_bounds n Hn) as (Hlt & Hge).
  destruct (share_loop_exhausted share_name share_url_type vstore_id (pages_share n) n 0
              st1 st2 fuel Hmiss Hlt (or_intror Hge) Hfuel) as (Hloop & Hcalls).
  split; [exact Hloop|].
  pose proof (share_count_calls share_url_type st) as Hc.
  rewrite Hcount in Hc. cbn [snd] in Hc.
  rewrite Hcalls, Hc. unfold share_scan_calls, windows. rewrite <- app_assoc. reflexivity.
Qed.

(** C3, as the code has it.  Both lookups ask the count endpoint
    first and then for windows of 100 items, [range=[0-100]],
    [range=[100-200]], and so on.  The access lookup whose first [k]
    windows have no match and whose next window, still within the
    budget, has one returns that match after exactly [k + 1] page
    queries; if none of the [ceil(n / 100)] windows of the budget has a
    match it returns [None] after exactly these.  The share lookup does
    the same with a budget of [floor(n / 100) + 1] windows.  How many
    items a page holds plays no role: a short or an empty page does not
    end the scan. *)
Theorem paginated_lookup (fuel : nat) (vstore_id : option string) (n : Z)
    (st st1 st2 : State) :
  (forall (share_id access_to share_proto share_client_type : string),
     _get_share_client_type share_proto st = (Return share_client_type, st) ->
     _get_access_count share_id share_client_type vstore_id st = (Return n, st1) ->
     (forall (k : nat) (st3 : State) (page : Json) (items : list Json) (found : Json),
        access_misses share_id access_to share_client_type vstore_id k 0 st1 = Some st2 ->
        100 * Z.of_nat k < n ->
        _get_access_from_share_range share_id (100 * Z.of_nat k) share_client_type
          vstore_id st2 = (Return page, st3) ->
        Py.iter page = Return items ->
        scan_access access_to items JNull = Return found ->
        Py.truthy found = true ->
        (S k < fuel)%nat ->
        _get_access_from_share fuel share_id access_to share_proto vstore_id st
          = Some (Return found, st3)
        /\ calls (trace st3)
           = calls (trace st)
             ++ access_scan_calls share_id share_client_type vstore_id (S k))
     /\ (0 <= n ->
         access_misses share_id access_to share_client_type vstore_id (pages_access n) 0 st1
           = Some st2 ->
         (pages_access n < fuel)%nat ->
         _get_access_from_share fuel share_id access_to share_proto vstore_id st
           = Some (Return JNull, st2)
         /\ calls (trace st2)
            = calls (trace st)
              ++ access_scan_calls share_id share_client_type vstore_id (pages_access n)))
  /\ (forall (share_name share_url_type : string),
        _get_share_count share_url_type st = (Return n, st1) ->
        (forall (k : nat) (st3 : State) (share : Json),
           share_misses share_name share_url_type vstore_id k 0 st1 = Some st2 ->
           100 * Z.of_nat k <= n ->
           _get_share_by_name_range share_name (100 * Z.of_nat k) share_url_type
             vstore_id st2 = (Return share, st3) ->
           Py.truthy share = true ->
           (S k < fuel)%nat ->
           _get_share_by_name fuel share_name share_url_type vstore_id st
             = Some (Return share, st3)
           /\ calls (trace st3)
              = calls (trace st) ++ share_scan_calls share_url_type vstore_id (S k))
        /\ (0 <= n ->
            share_misses share_name share_url_type vstore_id (pages_share n) 0 st1
              = Some st2 ->
            (pages_share n < fuel)%nat ->
            _get_share_by_name fuel share_name share_url_type vstore_id st
              = Some (Return (JObj []), st2)
            /\ calls (trace st2)
               = calls (trace st)
                 ++ share_scan_calls share_url_type vstore_id (pages_share n))).
Proof.
  split.
  - intros share_id access_to share_proto share_client_type Htype Hcount. split.
    + intros k st3 page items found. now apply access_scan_found.
    + intros Hn. now apply access_scan_exhausted.
  - intros share_name share_url_type Hcount. split.
    + intros k st3 share. now apply share_scan_found.
    + intros Hn. now apply share_scan_exhausted.
Qed.

(** C10.  When the count endpoint reports [n >= 0] and no window has
    a match, the share scan makes exactly [floor(n / 100) + 1] page
    queries, one of them even for [n = 0], and the access scan exactly
    [ceil(n / 100)], none for [n = 0].  Both loops end for every count:
    the budget goes down by 100 with every iteration, so [fuel + 1]
    iterations are enough for a count of at most [100 * fuel]. *)
Theorem scan_page_counts (n : Z) :
  0 <= n ->
  (forall (fuel : nat) (share_name share_url_type : string) (vstore_id : option string)
          (st st1 st2 : State),
     _get_share_count share_url_type st = (Return n, st1) ->
     share_misses share_name share_url_type vstore_id (S (Z.to_nat (n / 100))) 0 st1
       = Some st2 ->
     (S (Z.to_nat (n / 100)) < fuel)%nat ->
     _get_share_by_name fuel share_name share_url_type vstore_id st
       = Some (Return (JObj []), st2)
     /\ calls (trace st2)
        = calls (trace st)
          ++ ("/" +:+ share_url_type +:+ "/count", None, Some "GET")
          :: map (share_page_call share_url_type vstore_id)
               (windows (S (Z.to_nat (n / 100))))
     /\ length (windows (S (Z.to_nat (n / 100)))) = S (Z.to_nat (n / 100)))
  /\ (forall (fuel : nat) (share_id access_to share_proto share_client_type : string)
             (vstore_id : option string) (st st1 st2 : State),
        _get_share_client_type share_proto st = (Return share_client_type, st) ->
        _get_access_count share_id share_client_type vstore_id st = (Return n, st1) ->
        access_misses share_id access_to share_client_type vstore_id
          (Z.to_nat ((n + 99) / 100)) 0 st1 = Some st2 ->
        (Z.to_nat ((n + 99) / 100) < fuel)%nat ->
        _get_access_from_share fuel share_id access_to share_proto vstore_id st
          = Some (Return JNull, st2)
        /\ calls (trace st2)
           = calls (trace st)
             ++ ("/" +:+ share_client_type +:+ "/count?" +:+ "filter=PARENTID::" +:+ share_id,
                 vstore_params vstore_id, Some "GET")
             :: map (access_page_call share_id share_client_type vstore_id)
                  (windows (Z.to_nat ((n + 99) / 100)))
        /\ length (windows (Z.to_nat ((n + 99) / 100))) = Z.to_nat ((n + 99) / 100))
  /\ (forall (fuel : nat) (share_name share_url_type : string) (vstore_id : option string)
             (b : Z) (share : Json) (st : State),
        n < 100 * Z.of_nat fuel ->
        share_loop (S fuel) share_name share_url_type vstore_id n b share st <> None)
  /\ (forall (fuel : nat) (share_id access_to share_client_type : string)
             (vstore_id : option string) (b : Z) (access_id : Json) (st : State),
        n <= 100 * Z.of_nat fuel ->
        access_loop (S fuel) share_id access_to share_client_type vstore_id n b access_id st
          <> None).
Proof.
  intros Hn. split; [|split; [|split]].
  - intros fuel share_name share_url_type vstore_id st st1 st2 Hcount Hmiss Hfuel.
    destruct (share_scan_exhausted fuel share_name share_url_type vstore_id n st st1 st2
                Hcount Hn Hmiss Hfuel) as (Hres & Hcalls).
    split; [exact Hres|]. split; [exact Hcalls|apply windows_length].
  - intros fuel share_id access_to share_proto share_client_type vstore_id st st1 st2
      Htype Hcount Hmiss Hfuel.
    destruct (access_scan_exhausted fuel share_id access_to share_proto share_client_type
                vstore_id n st st1 st2 Htype Hcount Hn Hmiss Hfuel) as (Hres & Hcalls).
    split; [exact Hres|]. split; [exact Hcalls|apply windows_length].
  - intros fuel share_name share_url_type vstore_id b share st Hlt.
    now apply share_loop_terminates.
  - intros fuel share_id access_to share_client_type vstore_id b access_id st Hle.
    now apply access_loop_terminates.
Qed.

End Scans.

Lemma paginated_lookup_witness :
  _get_access_from_share 3 "7" "client150" "NFS" None (Demo.logged_in Demo.lookup_script)
    = Some (Return (JStr "150"), Demo.lookup_window2)
  /\ calls (trace Demo.lookup_window2)
     = calls (trace (Demo.logged_in Demo.lookup_script))
       ++ access_scan_calls "7" "NFS_SHARE_AUTH_CLIENT" None 2
  /\ world Demo.lookup_window2 = [Demo.page (Demo.access_items 200 50)].
Proof.
  destruct (paginated_lookup (E := Demo.env) 3 None 250
              (Demo.logged_in Demo.lookup_script) Demo.lookup_counted Demo.lookup_window1)
    as (Haccess & _).
  destruct (Haccess "7" "client150" "NFS" "NFS_SHARE_AUTH_CLIENT"
              eq_refl ltac:(vm_compute; reflexivity)) as (Hfound & _).
  destruct (Hfound 1%nat Demo.lookup_window2 (JList (Demo.access_items 100 100))
              (Demo.access_items 100 100) (JStr "150")
              ltac:(vm_compute; reflexivity) ltac:(lia)
              ltac:(vm_compute; reflexivity) eq_refl
              ltac:(vm_compute; reflexivity) eq_refl ltac:(lia)) as (Hres & Hcalls).
  split; [exact Hres|]. split; [exact Hcalls|]. vm_compute. reflexivity.
Defined.

(** C3 as stated fails on an empty page.  The array reports 250 access
    rules and leaves the first window empty: the scan goes on to the
    second window and finds the rule there. *)
Lemma empty_page_counterexample :
  fst (_get_access_from_share_range "7" 0 "NFS_SHARE_AUTH_CLIENT" None
         (snd (_get_access_count "7" "NFS_SHARE_AUTH_CLIENT" None
                 (Demo.logged_in Demo.empty_page_script))))
    = Return (JList [])
  /\ option_map (fun p => (fst p, calls (trace (snd p))))
       (_get_access_from_share 3 "7" "client150" "NFS" None
          (Demo.logged_in Demo.empty_page_script))
     = Some (Return (JStr "150"),
             [("/NFS_SHARE_AUTH_CLIENT/count?filter=PARENTID::7", None, Some "GET");
              ("/NFS_SHARE_AUTH_CLIENT?filter=PARENTID::7&range=[0-100]", None, Some "GET");
              ("/NFS_SHARE_AUTH_CLIENT?filter=PARENTID::7&range=[100-200]", None,
               Some "GET")]).
Proof. vm_compute. split; reflexivity. Qed.

Lemma scan_page_counts_witness :
  option_map (fun p => (fst p, length (calls (trace (snd p)))))
    (_get_share_by_name 4 "share-1" "NFSHARE" None (Demo.logged_in Demo.share_200_script))
    = Some (Return (JObj []), 4%nat)
  /\ option_map (fun p => (fst p, length (calls (trace (snd p)))))
       (_get_access_from_share 3 "7" "nobody" "NFS" None
          (Demo.logged_in Demo.access_200_script))
     = Some (Return JNull, 3%nat).
Proof.
  destruct (scan_page_counts (E := Demo.env) 200 ltac:(lia)) as (Hshare & Haccess & _).
  split.
  - destruct (share_misses "share-1" "NFSHARE" None (S (Z.to_nat (200 / 100))) 0
                (snd (_get_share_count "NFSHARE" (Demo.logged_in Demo.share_200_script))))
      as [st2|] eqn:Hmiss; [|vm_compute in Hmiss; discriminate].
    destruct (Hshare 4%nat "share-1" "NFSHARE" None (Demo.logged_in Demo.share_200_script)
                _ st2 ltac:(vm_compute; reflexivity) Hmiss ltac:(vm_compute; lia))
      as (Hres & Hcalls & Hlen).
    rewrite Hres. cbn [option_map fst snd]. rewrite Hcalls, length_app.
    cbn [length]. rewrite length_map, Hlen. reflexivity.
  - destruct (access_misses "7" "nobody" "NFS_SHARE_AUTH_CLIENT" None
                (Z.to_nat ((200 + 99) / 100)) 0
                (snd (_get_access_count "7" "NFS_SHARE_AUTH_CLIENT" None
                        (Demo.logged_in Demo.access_200_script))))
      as [st2|] eqn:Hmiss; [|vm_compute in Hmiss; discriminate].
    destruct (Haccess 3%nat "7" "nobody" "NFS" "NFS_SHARE_AUTH_CLIENT" None
                (Demo.logged_in Demo.access_200_script) _ st2 eq_refl
                ltac:(vm_compute; reflexivity) Hmiss ltac:(vm_compute; lia))
      as (Hres & Hcalls & Hlen).
    rewrite Hres. cbn [option_map fst snd]. rewrite Hcalls, length_app.
    cbn [length]. rewrite length_map, Hlen. reflexivity.
Defined.

(** ** QoS policies *)

Section Qos.

Context {World : Type} `{E : Env World}.

Lemma eq_JStr (v : Json) (s : string) : Py.eq v (JStr s) = true -> v = JStr s.
Proof.
  destruct v; cbn [Py.eq]; try discriminate.
  intros H. apply String.eqb_eq in H. now subst.
Qed.

Lemma append_cons (c : ascii) (s t : string) : String c s +:+ t = String c (s +:+ t).
Proof. reflexivity. Qed.

Lemma append_nil (t : string) : "" +:+ t = t.
Proof. reflexivity. Qed.

Lemma string_length_append (s t : string) :
  String.length (s +:+ t) = (String.length s + String.length t)%nat.
Proof.
  induction s as [|c s IH]; [reflexivity|].
  rewrite append_cons. cbn [String.length]. now rewrite IH.
Qed.

Lemma substring_prefix (s t : string) : String.substring 0 (String.length s) (s +:+ t) = s.
Proof.
  induction s as [|c s IH].
  - rewrite append_nil. destruct t; reflexivity.
  - rewrite append_cons. cbn [String.length String.substring]. now rewrite IH.
Qed.

(** [s[1:-1]] takes a wrapping pair of characters off. *)
Lemma slice_wrapped (c c' : ascii) (s : string) :
  Py.slice_1_m1 (String c (s +:+ String c' "")) = s.
Proof.
  unfold Py.slice_1_m1. cbn [String.length].
  rewrite string_length_append. cbn [String.length].
  replace (S (String.length s + 1) - 2)%nat with (String.length s) by lia.
  cbn [String.substring]. apply substring_prefix.
Qed.

Lemma split_no_sep (sep : ascii) (x : string) :
  Py.has_char sep x = false -> Py.split sep x = [x].
Proof.
  induction x as [|c x IH]; cbn [Py.has_char Py.split]; [reflexivity|].
  intros H. apply orb_false_iff in H as (Hc & Hx).
  rewrite Hc, (IH Hx). reflexivity.
Qed.

Lemma split_app_sep (sep : ascii) (x s : string) :
  Py.has_char sep x = false ->
  Py.split sep (x +:+ String sep s) = x :: Py.split sep s.
Proof.
  induction x as [|c x IH]; cbn [Py.has_char].
  - intros _. rewrite append_nil. cbn [Py.split]. now rewrite Ascii.eqb_refl.
  - intros H. apply orb_false_iff in H as (Hc & Hx).
    rewrite append_cons. cbn [Py.split]. rewrite Hc, (IH Hx). reflexivity.
Qed.

Lemma split_join (sep : ascii) (l : list string) :
  l <> [] ->
  Forall (fun x => Py.has_char sep x = false) l ->
  Py.split sep (Py.join (String sep "") l) = l.
Proof.
  intros Hne Hall. induction Hall as [|x l Hx Hall IH]; [congruence|].
  cbn [Py.join]. destruct l as [|y l].
  - now apply split_no_sep.
  - rewrite append_cons, append_nil, split_app_sep by exact Hx.
    rewrite IH by discriminate. reflexivity.
Qed.

Lemma has_char_wrapped (sep c c' : ascii) (s : string) :
  Ascii.eqb c sep = false -> Ascii.eqb c' sep = false ->
  Py.has_char sep s = false ->
  Py.has_char sep (String c (s +:+ String c' "")) = false.
Proof.
  intros Hc Hc' Hs. cbn [Py.has_char]. rewrite Hc. cbn [orb].
  induction s as [|a s IH].
  - rewrite append_nil. cbn [Py.has_char]. now rewrite Hc'.
  - rewrite append_cons. cbn [Py.has_char] in *.
    apply orb_false_iff in Hs as (H1 & H2). rewrite H1. cbn [orb]. now apply IH.
Qed.

Lemma slice_quoted (i : string) : Py.slice_1_m1 (Py.DQ +:+ i +:+ Py.DQ) = i.
Proof. unfold Py.DQ. rewrite append_cons, append_nil. apply slice_wrapped. Qed.

(** What [add_share_to_qos] reads out of a well-formed list string is
    the list of ids. *)
Lemma parsed_fslist (ids : list string) :
  Forall (fun i => id_ok i = true) ids ->
  List.filter (fun i => negb (String.eqb "" i))
    (map Py.slice_1_m1 (Py.split "," (Py.slice_1_m1 (fslist_string ids)))) = ids.
Proof.
  intros Hok. destruct ids as [|i ids]; [reflexivity|].
  unfold fslist_string. rewrite append_cons, append_nil, slice_wrapped.
  rewrite split_join.
  - rewrite map_map. induction Hok as [|j l Hj Hl IH]; [reflexivity|].
    cbn [map List.filter]. rewrite slice_quoted.
    unfold id_ok in Hj. apply andb_true_iff in Hj as (Hne & _).
    rewrite Hne. f_equal. exact IH.
  - discriminate.
  - apply List.Forall_map. eapply List.Forall_impl; [|exact Hok].
    intros j Hj. unfold id_ok in Hj. apply andb_true_iff in Hj as (_ & Hc).
    apply negb_true_iff in Hc. unfold Py.DQ. rewrite append_cons, append_nil.
    now apply has_char_wrapped.
Qed.

Lemma filter_andb {A} (p q : A -> bool) (l : list A) :
  List.filter (fun x => p x && q x) l = List.filter q (List.filter p l).
Proof.
  induction l as [|x l IH]; [reflexivity|]. cbn [List.filter].
  destruct (p x); cbn [andb List.filter]; [destruct (q x)|]; now rewrite IH.
Qed.

Lemma kept_fs_ids_parsed (fs_id : string) (ids : list string) :
  Forall (fun i => id_ok i = true) ids ->
  kept_fs_ids fs_id (fslist_string ids)
    = List.filter (fun i => negb (String.eqb i fs_id)) ids.
Proof.
  intros Hok. unfold kept_fs_ids. rewrite filter_andb, (parsed_fslist ids Hok). reflexivity.
Qed.

(** The id is in the new list once, whatever the list string was. *)
Lemma new_fs_list_once (fs_id fs_list : string) :
  count_occ string_dec (new_fs_list fs_id fs_list) fs_id = 1%nat.
Proof.
  unfold new_fs_list. rewrite count_occ_app. cbn [count_occ].
  destruct (string_dec fs_id fs_id) as [_|Hne]; [|congruence].
  replace (count_occ string_dec (kept_fs_ids fs_id fs_list) fs_id) with O; [reflexivity|].
  symmetry. apply count_occ_not_In. unfold kept_fs_ids. intros Hin.
  apply List.filter_In in Hin as (_ & Hp). apply andb_true_iff in Hp as (_ & Hp).
  rewrite String.eqb_refl in Hp. discriminate.
Qed.

Lemma split_length_cons (sep c : ascii) (s : string) :
  Ascii.eqb c sep = false ->
  length (Py.split sep (String c s)) = length (Py.split sep s).
Proof.
  intros Hc. cbn [Py.split]. rewrite Hc.
  destruct (split_cons sep s) as (w & ws & ->). reflexivity.
Qed.

Lemma split_length_snoc (sep c : ascii) (s : string) :
  Ascii.eqb c sep = false ->
  length (Py.split sep (s +:+ String c "")) = length (Py.split sep s).
Proof.
  intros Hc. induction s as [|a s IH].
  - rewrite append_nil. cbn [Py.split]. rewrite Hc. reflexivity.
  - rewrite append_cons. cbn [Py.split]. destruct (Ascii.eqb a sep).
    + cbn [length]. now rewrite IH.
    + destruct (split_cons sep (s +:+ String c "")) as (w & ws & Hw).
      destruct (split_cons sep s) as (w' & ws' & Hw').
      rewrite Hw, Hw' in *. exact IH.
Qed.

(** The number [find_available_qos] compares with the maximum is the
    number of ids of a well-formed list string that is not empty, and 1
    for the empty one. *)
Lemma fs_num_fslist (ids : list string) :
  Forall (fun i => id_ok i = true) ids ->
  fs_num (fslist_string ids) = Z.of_nat (Nat.max 1 (length ids)).
Proof.
  intros Hok. destruct ids as [|i ids]; [reflexivity|].
  unfold fs_num, fslist_string. f_equal. rewrite append_cons, append_nil.
  rewrite split_length_cons by reflexivity. rewrite split_length_snoc by reflexivity.
  rewrite split_join.
  - rewrite length_map. cbn [length]. lia.
  - discriminate.
  - apply List.Forall_map. eapply List.Forall_impl; [|exact Hok].
    intros j Hj. unfold id_ok in Hj. apply andb_true_iff in Hj as (_ & Hc).
    apply negb_true_iff in Hc. unfold Py.DQ. rewrite append_cons, append_nil.
    now apply has_char_wrapped.
Qed.

(** What the test on a policy amounts to when it passes. *)
Lemma qos_usable_true (item : Json) :
  qos_usable item = Return true ->
  exists fslist name,
    Py.getitem item "FSLIST" = Return (JStr fslist)
    /\ Py.getitem item "RUNNINGSTATUS" = Return (JStr (STATUS_QOS_ACTIVE consts))
    /\ fs_num fslist < MAX_FS_NUM_IN_QOS consts
    /\ Py.getitem item "NAME" = Return (JStr name)
    /\ String.prefix (QOS_NAME_PREFIX consts) name = true
    /\ Py.getitem item "LUNLIST" = Return (JStr empty_list_string).
Proof.
  unfold qos_usable.
  destruct (Py.getitem item "FSLIST") as [[| | |fslist| |]|e]; try discriminate.
  destruct (Py.getitem item "RUNNINGSTATUS") as [status|e]; [|discriminate].
  destruct (Py.eq status (JStr (STATUS_QOS_ACTIVE consts))) eqn:Hs; [|discriminate].
  cbn [negb]. destruct (Z.ltb (fs_num fslist) (MAX_FS_NUM_IN_QOS consts)) eqn:Hn;
    [|discriminate].
  cbn [negb].
  destruct (Py.getitem item "NAME") as [[| | |name| |]|e]; try discriminate.
  destruct (String.prefix (QOS_NAME_PREFIX consts) name) eqn:Hp; [|discriminate].
  cbn [negb]. destruct (Py.getitem item "LUNLIST") as [lunlist|e]; [|discriminate].
  intros H. inversion H as [Hl]. exists fslist, name.
  apply eq_JStr in Hs. apply eq_JStr in Hl. apply Z.ltb_lt in Hn. subst. auto 10.
Qed.

(** The policy the loop leaves with was usable. *)
Lemma qos_loop_selected (temp_qos : Json) (items : list Json) (qos_id fs_list : Json) :
  qos_loop temp_qos items = Return (qos_id, fs_list) ->
  qos_id <> JNull ->
  exists item,
    In item items /\ qos_usable item = Return true
    /\ Py.getitem item "ID" = Return qos_id
    /\ Py.getitem item "FSLIST" = Return fs_list.
Proof.
  induction items as [|item items IH]; cbn [qos_loop].
  - intros H Hid. inversion H. congruence.
  - assert (Hrest : qos_loop temp_qos items = Return (qos_id, fs_list) ->
                    qos_id <> JNull ->
                    exists item', In item' (item :: items)
                      /\ qos_usable item' = Return true
                      /\ Py.getitem item' "ID" = Return qos_id
                      /\ Py.getitem item' "FSLIST" = Return fs_list).
    { intros H Hid. destruct (IH H Hid) as (item' & Hin & Hrest).
      exists item'. split; [now right|exact Hrest]. }
    destruct (qos_keys_match temp_qos item _) as [[|]|e]; [|exact Hrest|discriminate].
    destruct (qos_usable item) as [[|]|e] eqn:Hu; [|exact Hrest|discriminate].
    destruct (Py.getitem item "ID") as [i|e] eqn:Hi; [|discriminate].
    destruct (Py.getitem item "FSLIST") as [f|e] eqn:Hf; [|discriminate].
    intros H _. inversion H; subst. exists item. split; [now left|auto].
Qed.

Lemma find_available_qos_selected (qos : Json) (st st' : State) (qos_id fs_list : Json) :
  find_available_qos qos st = (Return (qos_id, fs_list), st') ->
  qos_id <> JNull ->
  exists result data items item,
    get_qos st = (Return result, st')
    /\ Py.getitem result "data" = Return data
    /\ Py.iter data = Return items
    /\ In item items
    /\ qos_usable item = Return true
    /\ Py.getitem item "ID" = Return qos_id
    /\ Py.getitem item "FSLIST" = Return fs_list.
Proof.
  unfold find_available_qos, bind, lift.
  destruct (get_qos st) as [[result|e] st1] eqn:Hq; [|discriminate].
  destruct (Py.contains "data" result) as [[|]|e]; [| |discriminate].
  - destruct (with_latency qos) as [temp_qos|e]; [|discriminate].
    destruct (Py.getitem result "data") as [data|e] eqn:Hd; [|discriminate].
    destruct (Py.iter data) as [items|e] eqn:Hit; [|discriminate].
    destruct (qos_loop temp_qos items) as [[i f]|e] eqn:Hloop; [|discriminate].
    intros H Hid. inversion H; subst.
    destruct (qos_loop_selected _ _ _ _ Hloop Hid) as (item & Hin & Hu & Hi & Hf).
    exists result, data, items, item. repeat split; assumption.
  - intros H Hid. inversion H; subst. congruence.
Qed.

(** C8, as the code has it.  A policy is picked for reuse only when its
    running status is the active one, its list string has fewer than 64
    comma-separated entries (so fewer than 64 filesystems), its name
    starts with the driver's prefix and its LUN list is the empty
    ['[""]'].  Adding a filesystem reads the ids out of the quote-wrapped,
    comma-separated list string, leaves out the id to be added, appends
    it once, and sends the resulting list of ids as it is, a JSON
    array under ["FSLIST"] in the body of a PUT to the policy. *)
Theorem qos_reuse_and_update :
  MAX_FS_NUM_IN_QOS consts = 64 ->
  (forall (qos : Json) (st st' : State) (qos_id fs_list : Json),
     find_available_qos qos st = (Return (qos_id, fs_list), st') ->
     qos_id <> JNull ->
     exists result data items item fslist name,
       get_qos st = (Return result, st')
       /\ Py.getitem result "data" = Return data
       /\ Py.iter data = Return items
       /\ In item items
       /\ Py.getitem item "ID" = Return qos_id
       /\ fs_list = JStr fslist
       /\ Py.getitem item "FSLIST" = Return (JStr fslist)
       /\ Py.getitem item "RUNNINGSTATUS" = Return (JStr (STATUS_QOS_ACTIVE consts))
       /\ fs_num fslist < 64
       /\ Py.getitem item "NAME" = Return (JStr name)
       /\ String.prefix (QOS_NAME_PREFIX consts) name = true
       /\ Py.getitem item "LUNLIST" = Return (JStr empty_list_string))
  /\ (forall ids : list string,
        Forall (fun i => id_ok i = true) ids ->
        fs_num (fslist_string ids) < 64 -> (length ids < 64)%nat)
  /\ (forall (fs_id : string) (ids : list string),
        Forall (fun i => id_ok i = true) ids ->
        new_fs_list fs_id (fslist_string ids)
          = List.filter (fun i => negb (String.eqb i fs_id)) ids ++ [fs_id])
  /\ (forall fs_id fs_list : string,
        count_occ string_dec (new_fs_list fs_id fs_list) fs_id = 1%nat)
  /\ (forall (qos_id fs_id fs_list : string) (st : State),
        calls (trace (snd (add_share_to_qos qos_id fs_id fs_list st)))
          = calls (trace st)
            ++ [("/ioclass/" +:+ qos_id,
                 Some (dumps (JObj [("FSLIST", JList (map JStr (new_fs_list fs_id fs_list)));
                                    ("TYPE", JInt 230);
                                    ("ID", JStr qos_id)])),
                 Some "PUT")]).
Proof.
  intros Hmax. split; [|split; [|split; [|split]]].
  - intros qos st st' qos_id fs_list Hfind Hid.
    destruct (find_available_qos_selected _ _ _ _ _ Hfind Hid)
      as (result & data & items & item & Hq & Hd & Hi & Hin & Hu & Hid' & Hfs).
    destruct (qos_usable_true _ Hu) as (fslist & name & Hf & Hs & Hn & Hname & Hp & Hl).
    exists result, data, items, item, fslist, name.
    rewrite Hmax in Hn. rewrite Hf in Hfs. inversion Hfs; subst.
    repeat split; assumption.
  - intros ids Hok Hn. rewrite (fs_num_fslist ids Hok) in Hn. lia.
  - intros fs_id ids Hok. unfold new_fs_list. now rewrite kept_fs_ids_parsed.
  - apply new_fs_list_once.
  - intros qos_id fs_id fs_list st. apply bind_call_calls.
    intros result. apply callfree_assert_rest_result.
Qed.

End Qos.

Lemma qos_reuse_and_update_witness :
  fst (find_available_qos (JObj [("MAXIOPS", JStr "100")]) (Demo.logged_in Demo.qos_script))
    = Return (JStr "q1", JStr (fslist_string ["1"; "2"]))
  /\ fs_num (fslist_string ["1"; "2"]) < 64
  /\ new_fs_list "2" (fslist_string ["1"; "2"]) = ["1"; "2"].
Proof.
  destruct (qos_reuse_and_update (E := Demo.env) eq_refl) as (Hpick & _ & Hnew & _).
  assert (Hfind : find_available_qos (JObj [("MAXIOPS", JStr "100")])
                    (Demo.logged_in Demo.qos_script)
                  = (Return (JStr "q1", JStr (fslist_string ["1"; "2"])),
                     snd (find_available_qos (JObj [("MAXIOPS", JStr "100")])
                            (Demo.logged_in Demo.qos_script))))
    by (vm_compute; reflexivity).
  split; [rewrite Hfind; reflexivity|]. split.
  - destruct (Hpick _ _ _ _ _ Hfind ltac:(discriminate))
      as (result & data & items & item & fslist & name & _ & _ & _ & _ & _ & Hfs & _ & _
          & Hn & _).
    injection Hfs as <-. exact Hn.
  - rewrite (Hnew "2" ["1"; "2"]); [reflexivity|].
    repeat constructor.
Defined.

(** C8 as stated fails on the encoding of the update.  The policy
    holds the filesystems 1 and 2 and 3 is added: the update carries
    the list of the three ids, not a list string. *)
Lemma qos_update_counterexample :
  qos_update "q1" "3" (fslist_string ["1"; "2"])
    = JObj [("FSLIST", JList [JStr "1"; JStr "2"; JStr "3"]);
            ("TYPE", JInt 230); ("ID", JStr "q1")]
  /\ Py.getitem (qos_update "q1" "3" (fslist_string ["1"; "2"])) "FSLIST"
     <> Return (JStr (fslist_string ["1"; "2"; "3"]))
  /\ calls (trace (snd (add_share_to_qos "q1" "3" (fslist_string ["1"; "2"])
                          (Demo.logged_in [Demo.ok (Demo.envelope 0 None)]))))
     = [("/ioclass/q1",
         Some (Demo.encode (JObj [("FSLIST", JList [JStr "1"; JStr "2"; JStr "3"]);
                                  ("TYPE", JInt 230); ("ID", JStr "q1")])),
         Some "PUT")].
Proof.
  split; [vm_compute; reflexivity|]. split; [|vm_compute; reflexivity].
  vm_compute. discriminate.
Qed.

(** * Further properties of the operations *)

(** ** Names sent to the array *)

Section Names.

Context {World : Type} `{E : Env World}.




Lemma has_char_app (a : ascii) (s t : string) :
  Py.has_char a (s +:+ t) = Py.has_char a s || Py.has_char a t.
Proof.
  induction s as [|c s IH]; [reflexivity|].
  rewrite append_cons. cbn [Py.has_char]. now rewrite IH, orb_assoc.
Qed.


End Names.

(** ** Protocol dispatch *)

Section Protocols.

Context {World : Type} `{E : Env World}.

Variable specs_of : string -> Result Json.

(** X2.  For a protocol that is neither NFS nor CIFS, every operation
    that dispatches on the protocol raises [InvalidInput] with the same
    reason and leaves the helper as it was: nothing is sent to the
    array, and no fuel is needed for the two scans.  [create_share]
    raises this [InvalidInput] as well: its own [InvalidShare] for the
    protocol is never reached. *)
Theorem unsupported_protocol_rejected (share_proto : string) (st : State) :
  String.eqb share_proto "NFS" = false ->
  String.eqb share_proto "CIFS" = false ->
  (forall share_name fs_id vstore_id,
     create_share share_name fs_id share_proto vstore_id st
       = protocol_rejected share_proto st)
  /\ (forall access_id vstore_id,
        _remove_access_from_share access_id share_proto vstore_id st
          = protocol_rejected share_proto st)
  /\ (forall access_id vstore_id,
        _get_level_by_access_id access_id share_proto vstore_id st
          = protocol_rejected share_proto st)
  /\ (forall access_id access_level vstore_id,
        _change_access_rest access_id share_proto access_level vstore_id st
          = protocol_rejected share_proto st)
  /\ (forall share_id access_to access_level share_type_id vstore_id,
        _allow_access_rest specs_of share_id access_to share_proto access_level
          share_type_id vstore_id st
          = protocol_rejected share_proto st)
  /\ (forall fuel share_id access_to vstore_id,
        _get_access_from_share fuel share_id access_to share_proto vstore_id st
          = Some (protocol_rejected share_proto st))
  /\ (forall fuel share_id vstore_id,
        _get_all_access_from_share fuel share_id share_proto vstore_id st
          = Some (protocol_rejected share_proto st)).
Proof.
  intros Hnfs Hcifs.
  assert (Hc : _get_share_client_type share_proto st = protocol_rejected share_proto st).
  { unfold _get_share_client_type. now rewrite Hnfs, Hcifs. }
  assert (Hu : _get_share_url_type share_proto st = protocol_rejected share_proto st).
  { unfold _get_share_url_type. now rewrite Hnfs, Hcifs. }
  unfold protocol_rejected in *.
  repeat split; intros.
  - unfold create_share, bind. now rewrite Hu.
  - unfold _remove_access_from_share, bind. now rewrite Hc.
  - unfold _get_level_by_access_id, bind. now rewrite Hc.
  - unfold _change_access_rest. now rewrite Hnfs, Hcifs.
  - unfold _allow_access_rest. now rewrite Hnfs, Hcifs.
  - unfold _get_access_from_share. now rewrite Hc.
  - unfold _get_all_access_from_share. now rewrite Hc.
Qed.

End Protocols.


Lemma unsupported_protocol_rejected_witness :
  create_share "share-1" "4" "FTP" None (Demo.logged_in [])
    = (Raise (InvalidInput "Invalid NAS protocol supplied: FTP."), Demo.logged_in [])
  /\ _get_all_access_from_share 0 "7" "FTP" None (Demo.logged_in [])
     = Some (Raise (InvalidInput "Invalid NAS protocol supplied: FTP."), Demo.logged_in []).
Proof.
  assert (Hnfs : String.eqb "FTP" "NFS" = false) by reflexivity.
  assert (Hcifs : String.eqb "FTP" "CIFS" = false) by reflexivity.
  pose proof (unsupported_protocol_rejected (E := Demo.env) (fun _ => Return JNull) "FTP"
                (Demo.logged_in []) Hnfs Hcifs) as (Hcreate & _ & _ & _ & _ & _ & Hall).
  split; [exact (Hcreate "share-1" "4" None)|exact (Hall O "7" None)].
Defined.

(** ** Requests checked with [_assert_rest_result] *)

Section Checked.

Context {World : Type} `{E : Env World}.

Local Abbreviation callfree := (@callfree World _).

(** A request whose envelope is handed to [_assert_rest_result]
    before anything else is done with it. *)
Lemma checked_call_eq {B} (url : string) (data method : option string) (err_str : string)
    (k : Json -> @M World B) (st st1 : State) (result code : Json) :
  call url data method st = (Return result, st1) ->
  error_code result = Return code ->
  bind (call url data method) (fun result =>
    bind (_assert_rest_result result err_str) (fun _ => k result)) st =
  if Py.eq code (JInt 0) then k result st1
  else (Raise (InvalidShare (failure_reason err_str result)), st1).
Proof.
  intros Hcall Hcode. unfold bind at 1. rewrite Hcall.
  unfold bind at 1. rewrite (assert_rest_result_eq _ _ _ _ Hcode).
  destruct (Py.eq code (JInt 0)); reflexivity.
Qed.

(** What follows a computation without handing anything to [call]
    leaves the requests as they are. *)
Lemma bind_callfree_calls {A B} (m : @M World A) (k : A -> @M World B) (st : State) :
  (forall a, callfree (k a)) ->
  calls (trace (snd (bind m k st))) = calls (trace (snd (m st))).
Proof.
  intros Hk. unfold bind. destruct (m st) as [[a|e] st1]; [|reflexivity].
  cbn [snd]. apply Hk.
Qed.

Lemma checked_call_calls (url : string) (data method : option string) (err_str : string)
    (st : State) :
  calls (trace (snd (bind (call url data method)
                       (fun result => _assert_rest_result result err_str) st)))
    = calls (trace st) ++ [(url, data, method)].
Proof. apply bind_call_calls. intros result. apply callfree_assert_rest_result. Qed.

End Checked.

(** ** The filesystems of a QoS policy *)

Section QosLists.

Context {World : Type} `{E : Env World}.

Lemma split_wrapped_join (ids : list string) :
  ids <> [] ->
  Forall (fun i => id_ok i = true) ids ->
  map Py.slice_1_m1 (Py.split "," (Py.slice_1_m1 (fslist_string ids))) = ids.
Proof.
  intros Hne Hok. destruct ids as [|i ids]; [congruence|].
  unfold fslist_string. rewrite append_cons, append_nil, slice_wrapped.
  rewrite split_join.
  - rewrite map_map. clear Hne. induction Hok as [|j l Hj Hl IH]; [reflexivity|].
    cbn [map]. rewrite slice_quoted. f_equal. exact IH.
  - discriminate.
  - apply List.Forall_map. eapply List.Forall_impl; [|exact Hok].
    intros j Hj. unfold id_ok in Hj. apply andb_true_iff in Hj as (_ & Hc).
    apply negb_true_iff in Hc. unfold Py.DQ. rewrite append_cons, append_nil.
    apply has_char_wrapped; [reflexivity|reflexivity|exact Hc].
Qed.

(** X3.  [get_fs_list_in_qos] asks for the policy once and reads its
    list string back into the ids: for a policy that lists the ids
    [ids] (none empty, none with a comma) it returns exactly [ids], in
    order; for a policy without filesystems, whose list string is
    ['[""]'], it returns the one-element list of the empty id, not the
    empty list.  A failed envelope raises [InvalidShare] before the
    payload is read. *)
Theorem qos_filesystem_list (qos_id : string) (st st1 : State) (result code : Json) :
  call ("/ioclass/" +:+ qos_id) None (Some "GET") st = (Return result, st1) ->
  error_code result = Return code ->
  (Py.eq code (JInt 0) = false ->
   get_fs_list_in_qos qos_id st
     = (Raise (InvalidShare (failure_reason "Get QoS information error." result)), st1))
  /\ (Py.eq code (JInt 0) = true ->
      forall qos_info,
        Py.getitem result "data" = Return qos_info ->
        (forall ids,
           ids <> [] ->
           Forall (fun i => id_ok i = true) ids ->
           Py.getitem qos_info "FSLIST" = Return (JStr (fslist_string ids)) ->
           get_fs_list_in_qos qos_id st = (Return ids, st1))
        /\ (Py.getitem qos_info "FSLIST" = Return (JStr empty_list_string) ->
            get_fs_list_in_qos qos_id st = (Return [""], st1)))
  /\ calls (trace (snd (get_fs_list_in_qos qos_id st)))
     = calls (trace st) ++ [("/ioclass/" +:+ qos_id, None, Some "GET")].
Proof.
  intros Hcall Hcode.
  assert (Hinfo : get_qos_info qos_id st =
                  if Py.eq code (JInt 0) then (Py.getitem result "data", st1)
                  else (Raise (InvalidShare
                                 (failure_reason "Get QoS information error." result)), st1)).
  { unfold get_qos_info. rewrite (checked_call_eq _ _ _ _ _ _ _ _ _ Hcall Hcode).
    reflexivity. }
  split; [|split].
  - intros H0. unfold get_fs_list_in_qos. unfold bind at 1. now rewrite Hinfo, H0.
  - intros H0 qos_info Hdata.
    assert (Hrun : forall s, Py.getitem qos_info "FSLIST" = Return (JStr s) ->
                   get_fs_list_in_qos qos_id st
                   = (Return (map Py.slice_1_m1 (Py.split "," (Py.slice_1_m1 s))), st1)).
    { intros s Hs. unfold get_fs_list_in_qos. unfold bind at 1.
      rewrite Hinfo, H0, Hdata. unfold bind, lift. now rewrite Hs. }
    split.
    + intros ids Hne Hok Hs. rewrite (Hrun _ Hs). now rewrite split_wrapped_join.
    + intros Hs. now rewrite (Hrun _ Hs).
  - unfold get_fs_list_in_qos. rewrite bind_callfree_calls.
    + unfold get_qos_info. apply bind_call_calls. intros r.
      apply callfree_bind; [apply callfree_assert_rest_result|]. intros; apply callfree_lift.
    + intros info. apply callfree_bind; [apply callfree_lift|]. intros; apply callfree_lift.
Qed.

Lemma without_fs_count (fs_id i : string) (fs_list : list string) :
  i <> fs_id ->
  count_occ string_dec (without_fs fs_id fs_list) i = count_occ string_dec fs_list i.
Proof.
  intros Hne. unfold without_fs. induction fs_list as [|x l IH]; [reflexivity|].
  cbn [List.filter count_occ]. destruct (String.eqb x fs_id) eqn:Hx; cbn [negb].
  - apply String.eqb_eq in Hx. subst x.
    destruct (string_dec fs_id i) as [->|_]; [congruence|exact IH].
  - cbn [count_occ]. destruct (string_dec x i); now rewrite IH.
Qed.

Lemma without_fs_fixed (fs_id : string) (fs_list : list string) :
  ~ In fs_id fs_list -> without_fs fs_id fs_list = fs_list.
Proof.
  unfold without_fs. induction fs_list as [|x l IH]; [reflexivity|].
  intros Hin. cbn [List.filter]. destruct (String.eqb x fs_id) eqn:Hx; cbn [negb].
  - apply String.eqb_eq in Hx. subst x. exfalso. apply Hin. now left.
  - f_equal. apply IH. intros H. apply Hin. now right.
Qed.

(** X4.  [remove_fs_from_qos] sends one update whose [FSLIST] is the
    list it was given without the filesystem: the id is not in the list
    sent, every other id is in it as often as before and in the same
    order, and a list that did not hold the id is sent as it is.  It
    undoes [add_share_to_qos]: taking the id out of the list
    [add_share_to_qos] builds gives the ids that list kept. *)
Theorem qos_remove_filesystem (fs_id qos_id : string) (fs_list : list string) (st : State) :
  calls (trace (snd (remove_fs_from_qos fs_id fs_list qos_id st)))
    = calls (trace st)
      ++ [("/ioclass/" +:+ qos_id,
           Some (dumps (JObj [("FSLIST", JList (map JStr (without_fs fs_id fs_list)));
                              ("TYPE", JInt 230);
                              ("ID", JStr qos_id)])),
           Some "PUT")]
  /\ ~ In fs_id (without_fs fs_id fs_list)
  /\ (forall i, i <> fs_id ->
        count_occ string_dec (without_fs fs_id fs_list) i = count_occ string_dec fs_list i)
  /\ (forall l1 l2, without_fs fs_id (l1 ++ l2) = without_fs fs_id l1 ++ without_fs fs_id l2)
  /\ (~ In fs_id fs_list -> without_fs fs_id fs_list = fs_list)
  /\ (forall s, without_fs fs_id (new_fs_list fs_id s) = kept_fs_ids fs_id s).
Proof.
  split; [apply checked_call_calls|].
  split; [|split; [|split; [|split]]].
  - unfold without_fs. intros Hin. apply List.filter_In in Hin as (_ & Hp).
    rewrite String.eqb_refl in Hp. discriminate.
  - intros i Hi. now apply without_fs_count.
  - intros l1 l2. unfold without_fs. apply List.filter_app.
  - apply without_fs_fixed.
  - intros s. unfold new_fs_list, without_fs. rewrite List.filter_app.
    cbn [List.filter]. rewrite String.eqb_refl. cbn [negb]. rewrite app_nil_r.
    apply without_fs_fixed. unfold kept_fs_ids. intros Hin.
    apply List.filter_In in Hin as (_ & Hp). apply andb_true_iff in Hp as (_ & Hp).
    rewrite String.eqb_refl in Hp. discriminate.
Qed.

End QosLists.

Lemma qos_filesystem_list_witness :
  get_fs_list_in_qos "q1" (Demo.logged_in [Demo.ok (Demo.envelope 0 (Some Demo.policy))])
    = (Return ["1"; "2"],
       snd (call "/ioclass/q1" None (Some "GET")
              (Demo.logged_in [Demo.ok (Demo.envelope 0 (Some Demo.policy))]))).
Proof.
  assert (Hcall : call "/ioclass/q1" None (Some "GET")
                    (Demo.logged_in [Demo.ok (Demo.envelope 0 (Some Demo.policy))])
                  = (Return (Demo.envelope 0 (Some Demo.policy)),
                     snd (call "/ioclass/q1" None (Some "GET")
                            (Demo.logged_in [Demo.ok (Demo.envelope 0 (Some Demo.policy))]))))
    by (vm_compute; reflexivity).
  assert (Hcode : error_code (Demo.envelope 0 (Some Demo.policy)) = Return (JInt 0))
    by reflexivity.
  assert (Hdata : Py.getitem (Demo.envelope 0 (Some Demo.policy)) "data" = Return Demo.policy)
    by reflexivity.
  assert (Hfs : Py.getitem Demo.policy "FSLIST" = Return (JStr (fslist_string ["1"; "2"])))
    by reflexivity.
  assert (Hne : ["1"; "2"] <> @nil string) by discriminate.
  assert (Hok : Forall (fun i => id_ok i = true) ["1"; "2"])
    by (repeat constructor).
  pose proof (qos_filesystem_list (E := Demo.env) "q1" _ _ _ _ Hcall Hcode) as (_ & Hlist & _).
  exact (proj1 (Hlist eq_refl Demo.policy Hdata) ["1"; "2"] Hne Hok Hfs).
Defined.

Lemma qos_remove_filesystem_witness :
  without_fs "3" ["1"; "2"] = ["1"; "2"]
  /\ count_occ string_dec (without_fs "2" ["1"; "2"; "1"]) "1" = 2%nat.
Proof.
  assert (Hout : ~ In "3" ["1"; "2"]).
  { intros [H|[H|[]]]; discriminate. }
  assert (Hne : "1" <> "2") by discriminate.
  split.
  - exact (proj1 (proj2 (proj2 (proj2 (proj2
             (qos_remove_filesystem (E := Demo.env) "3" "q1" ["1"; "2"]
                (Demo.logged_in []))))))
             Hout).
  - exact (proj1 (proj2 (proj2
             (qos_remove_filesystem (E := Demo.env) "2" "q1" ["1"; "2"; "1"]
                (Demo.logged_in []))))
             "1" Hne).
Defined.

(** ** VLANs, logical ports and DNS *)

Section Network.

Context {World : Type} `{E : Env World}.

Variable port_exist : Z.

Local Abbreviation callfree := (@callfree World _).

Lemma getitem_contains (result d : Json) (k : string) :
  Py.getitem result k = Return d -> Py.contains k result = Return true.
Proof.
  destruct result as [| | | | |kv]; try discriminate. cbn [Py.getitem Py.contains].
  destruct (Py.dict_get k kv); [reflexivity|discriminate].
Qed.

(** X5.  [delete_vlan] sends one DELETE and tolerates exactly one
    failure: the logical-port-exists code returns without raising, a
    zero code returns, every other code raises [InvalidShare] with the
    envelope in its reason. *)
Theorem delete_vlan_tolerance (vlan_id : string) (st st1 : State) (result code : Json) :
  call ("/vlan/" +:+ vlan_id) None (Some "DELETE") st = (Return result, st1) ->
  error_code result = Return code ->
  delete_vlan port_exist vlan_id st =
    (if Py.eq code (JInt port_exist) then Return tt
     else if Py.eq code (JInt 0) then Return tt
     else Raise (InvalidShare (failure_reason "Delete vlan error." result)), st1)
  /\ calls (trace (snd (delete_vlan port_exist vlan_id st)))
     = calls (trace st) ++ [("/vlan/" +:+ vlan_id, None, Some "DELETE")].
Proof.
  intros Hcall Hcode. split.
  - unfold delete_vlan. apply (tolerant_delete_eq _ _ _ _ _ _ _ Hcall Hcode).
  - unfold delete_vlan. apply bind_call_calls. intros r.
    apply callfree_bind; [apply callfree_lift|]. intros c.
    destruct (Py.eq c (JInt port_exist));
      [apply silent_callfree, silent_ret|apply callfree_assert_rest_result].
Qed.

Lemma lif_loop_skip (home_port_id ip subnet : string) (pre rest : list Json) (st : State) :
  Forall (fun x => lif_matches home_port_id ip subnet x = Return false) pre ->
  lif_loop home_port_id ip subnet (pre ++ rest) st
    = lif_loop home_port_id ip subnet rest st.
Proof.
  induction 1 as [|x pre Hx Hpre IH]; [reflexivity|].
  cbn [app lif_loop]. unfold bind at 1, lift. rewrite Hx. exact IH.
Qed.

(** X6.  [get_logical_port] asks for the ports once and takes the first
    one whose home port, address and mask all agree; ports after it
    are not looked at.  A port that is operational is returned with no
    further request; any other is activated first, with one PUT to
    [/LIF/<id>], and a failed activation raises instead of returning
    the port.  Without a match, or without data, the answer is
    [(False, None)]. *)
Theorem logical_port_lookup (home_port_id ip subnet : string) (st st1 : State)
    (result code : Json) :
  call "/LIF" None (Some "GET") st = (Return result, st1) ->
  error_code result = Return code ->
  Py.eq code (JInt 0) = true ->
  (Py.contains "data" result = Return false ->
   get_logical_port home_port_id ip subnet st = (Return (false, JNull), st1))
  /\ (forall items,
        Py.getitem result "data" = Return (JList items) ->
        (Forall (fun x => lif_matches home_port_id ip subnet x = Return false) items ->
         get_logical_port home_port_id ip subnet st = (Return (false, JNull), st1))
        /\ (forall pre item post status i,
              items = pre ++ item :: post ->
              Forall (fun x => lif_matches home_port_id ip subnet x = Return false) pre ->
              lif_matches home_port_id ip subnet item = Return true ->
              Py.getitem item "OPERATIONALSTATUS" = Return status ->
              Py.getitem item "ID" = Return i ->
              (Py.eq status (JStr "true") = true ->
               get_logical_port home_port_id ip subnet st = (Return (true, i), st1))
              /\ (Py.eq status (JStr "true") = false ->
                  get_logical_port home_port_id ip subnet st =
                    match _activate_logical_port i st1 with
                    | (Return _, st2) => (Return (true, i), st2)
                    | (Raise e, st2) => (Raise e, st2)
                    end)))
  /\ (forall (i : string) (s : State),
        calls (trace (snd (_activate_logical_port (JStr i) s)))
          = calls (trace s)
            ++ [("/LIF/" +:+ i,
                 Some (dumps (JObj [("OPERATIONALSTATUS", JStr "true")])),
                 Some "PUT")]).
Proof.
  intros Hcall Hcode H0.
  assert (Hhead : forall k : Json -> @M World (bool * Json),
            bind (call "/LIF" None (Some "GET")) (fun result =>
              bind (_assert_rest_result result "Get logical port error.")
                (fun _ => k result)) st = k result st1).
  { intros k. rewrite (checked_call_eq _ _ _ _ _ _ _ _ _ Hcall Hcode). now rewrite H0. }
  split; [|split].
  - intros Hnone. unfold get_logical_port. rewrite Hhead.
    unfold bind, lift. now rewrite Hnone.
  - intros items Hdata.
    assert (Hrun : get_logical_port home_port_id ip subnet st
                   = lif_loop home_port_id ip subnet items st1).
    { unfold get_logical_port. rewrite Hhead.
      unfold bind at 1, lift. rewrite (getitem_contains _ _ _ Hdata). cbn [negb].
      unfold bind at 1. rewrite Hdata. unfold bind at 1. reflexivity. }
    split.
    + intros Hall. rewrite Hrun.
      rewrite <- (app_nil_r items). rewrite (lif_loop_skip _ _ _ _ _ _ Hall). reflexivity.
    + intros pre item post status i -> Hpre Hitem Hstatus Hid.
      rewrite Hrun, (lif_loop_skip _ _ _ _ _ _ Hpre). cbn [lif_loop].
      unfold bind, lift, ret. rewrite Hitem, Hstatus.
      split; intros Hs; rewrite Hs; cbn [negb]; rewrite Hid; [reflexivity|].
      destruct (_activate_logical_port i st1) as [[[]|e] st2]; reflexivity.
  - intros i s. unfold _activate_logical_port. unfold bind at 1, lift. cbn [concat_url].
    apply checked_call_calls.
Qed.

(** X7.  [set_DNS_ip_address] refuses more than three addresses
    before anything is sent: [InvalidInput], the helper unchanged.  Up
    to three are sent in one PUT whose [ADDRESS] is the JSON text of
    the list, encoded a second time with the body; the answer is the
    payload of the envelope, or [None] when it has none. *)
Theorem dns_address_limit (dns_ip_list : list string) (st : State) :
  ((3 < length dns_ip_list)%nat ->
   set_DNS_ip_address dns_ip_list st
     = (Raise (InvalidInput "Most three ips can be set to DNS."), st))
  /\ ((length dns_ip_list <= 3)%nat ->
      let data :=
        Some (dumps (JObj [("ADDRESS", JStr (dumps (JList (map JStr dns_ip_list))));
                           ("TYPE", JStr "260")])) in
      calls (trace (snd (set_DNS_ip_address dns_ip_list st)))
        = calls (trace st) ++ [("/DNS_Server", data, Some "PUT")]
      /\ (forall st1 kv code,
            call "/DNS_Server" data (Some "PUT") st = (Return (JObj kv), st1) ->
            error_code (JObj kv) = Return code ->
            set_DNS_ip_address dns_ip_list st =
              (if Py.eq code (JInt 0) then
                 match Py.dict_get "data" kv with
                 | Some d => Return d
                 | None => Return JNull
                 end
               else Raise (InvalidShare (failure_reason "Set DNS ip address error."
                                           (JObj kv))), st1))).
Proof.
  split.
  - intros Hlen. unfold set_DNS_ip_address.
    destruct (Nat.ltb_spec 3 (length dns_ip_list)); [reflexivity|lia].
  - intros Hlen data. unfold set_DNS_ip_address.
    destruct (Nat.ltb_spec 3 (length dns_ip_list)); [lia|].
    split.
    + apply bind_call_calls. intros r.
      apply callfree_bind; [apply callfree_assert_rest_result|]. intros _.
      apply callfree_bind; [apply callfree_lift|]. intros present.
      destruct present; [apply callfree_lift|apply silent_callfree, silent_ret].
    + intros st1 kv code Hcall Hcode.
      rewrite (checked_call_eq _ _ _ _ _ _ _ _ _ Hcall Hcode).
      destruct (Py.eq code (JInt 0)); [|reflexivity].
      unfold bind, lift. cbn [Py.contains Py.getitem].
      destruct (Py.dict_get "data" kv); reflexivity.
Qed.

End Network.

Lemma delete_vlan_tolerance_witness :
  delete_vlan Demo.logical_port_exist "3"
    (Demo.logged_in [Demo.ok (Demo.envelope Demo.logical_port_exist None)])
    = (Return tt,
       snd (call "/vlan/3" None (Some "DELETE")
              (Demo.logged_in [Demo.ok (Demo.envelope Demo.logical_port_exist None)]))).
Proof.
  assert (Hcall : call "/vlan/3" None (Some "DELETE")
                    (Demo.logged_in [Demo.ok (Demo.envelope Demo.logical_port_exist None)])
                  = (Return (Demo.envelope Demo.logical_port_exist None),
                     snd (call "/vlan/3" None (Some "DELETE")
                            (Demo.logged_in
                               [Demo.ok (Demo.envelope Demo.logical_port_exist None)]))))
    by (vm_compute; reflexivity).
  assert (Hcode : error_code (Demo.envelope Demo.logical_port_exist None)
                  = Return (JInt Demo.logical_port_exist)) by reflexivity.
  exact (proj1 (delete_vlan_tolerance (E := Demo.env) Demo.logical_port_exist "3" _ _ _ _
                  Hcall Hcode)).
Defined.

Lemma logical_port_lookup_witness :
  get_logical_port "eth1" "10.0.0.2" "255.255.255.0" (Demo.logged_in Demo.port_script)
    = match _activate_logical_port (JStr "2")
              (snd (call "/LIF" None (Some "GET") (Demo.logged_in Demo.port_script))) with
      | (Return _, st2) => (Return (true, JStr "2"), st2)
      | (Raise e, st2) => (Raise e, st2)
      end.
Proof.
  assert (Hcall : call "/LIF" None (Some "GET") (Demo.logged_in Demo.port_script)
                  = (Return (Demo.envelope 0 (Some (JList Demo.ports))),
                     snd (call "/LIF" None (Some "GET") (Demo.logged_in Demo.port_script))))
    by (vm_compute; reflexivity).
  assert (Hcode : error_code (Demo.envelope 0 (Some (JList Demo.ports))) = Return (JInt 0))
    by reflexivity.
  assert (Hzero : Py.eq (JInt 0) (JInt 0) = true) by reflexivity.
  assert (Hdata : Py.getitem (Demo.envelope 0 (Some (JList Demo.ports))) "data"
                  = Return (JList Demo.ports)) by reflexivity.
  assert (Hitems : Demo.ports
                   = [Demo.port "1" "eth0" "10.0.0.1" "255.255.255.0" "true"]
                     ++ Demo.port "2" "eth1" "10.0.0.2" "255.255.255.0" "false"
                     :: [Demo.port "3" "eth1" "10.0.0.2" "255.255.255.0" "true"])
    by reflexivity.
  assert (Hpre : Forall (fun x => lif_matches "eth1" "10.0.0.2" "255.255.255.0" x
                                  = Return false)
                   [Demo.port "1" "eth0" "10.0.0.1" "255.255.255.0" "true"])
    by (repeat constructor).
  assert (Hitem : lif_matches "eth1" "10.0.0.2" "255.255.255.0"
                    (Demo.port "2" "eth1" "10.0.0.2" "255.255.255.0" "false")
                  = Return true) by reflexivity.
  assert (Hstatus : Py.getitem (Demo.port "2" "eth1" "10.0.0.2" "255.255.255.0" "false")
                      "OPERATIONALSTATUS" = Return (JStr "false")) by reflexivity.
  assert (Hid : Py.getitem (Demo.port "2" "eth1" "10.0.0.2" "255.255.255.0" "false") "ID"
                = Return (JStr "2")) by reflexivity.
  assert (Hdown : Py.eq (JStr "false") (JStr "true") = false) by reflexivity.
  pose proof (logical_port_lookup (E := Demo.env) "eth1" "10.0.0.2" "255.255.255.0"
                _ _ _ _ Hcall Hcode Hzero) as (_ & Hfound & _).
  exact (proj2 (proj2 (Hfound Demo.ports Hdata) _ _ _ _ _ Hitems Hpre Hitem Hstatus Hid)
           Hdown).
Defined.

Lemma dns_address_limit_witness :
  set_DNS_ip_address ["10.0.0.1"; "10.0.0.2"; "10.0.0.3"; "10.0.0.4"] (Demo.logged_in [])
    = (Raise (InvalidInput "Most three ips can be set to DNS."), Demo.logged_in [])
  /\ calls (trace (snd (set_DNS_ip_address ["10.0.0.1"; "10.0.0.2"] (Demo.logged_in []))))
     = [("/DNS_Server",
         Some (Demo.encode
                 (JObj [("ADDRESS", JStr (Demo.encode (JList [JStr "10.0.0.1";
                                                               JStr "10.0.0.2"])));
                        ("TYPE", JStr "260")])),
         Some "PUT")].
Proof.
  assert (Hmany : (3 < length ["10.0.0.1"; "10.0.0.2"; "10.0.0.3"; "10.0.0.4"])%nat)
    by (cbn [length]; lia).
  assert (Hfew : (length ["10.0.0.1"; "10.0.0.2"] <= 3)%nat) by (cbn [length]; lia).
  split.
  - exact (proj1 (dns_address_limit (E := Demo.env) _ (Demo.logged_in [])) Hmany).
  - exact (proj1 (proj2 (dns_address_limit (E := Demo.env) _ (Demo.logged_in [])) Hfew)).
Defined.

(** ** All the access rules of a share *)

Section AllAccess.

Context {World : Type} `{E : Env World}.

Lemma all_access_loop_collects (share_id share_client_type : string)
    (vstore_id : option string) :
  forall (k : nat) (count b : Z) (acc ids : list Json) (st st2 : State) (fuel : nat),
    access_pages share_id share_client_type vstore_id k b st = Some (ids, st2) ->
    count <= 100 * Z.of_nat k ->
    (k = O \/ 100 * (Z.of_nat k - 1) < count) ->
    (k < fuel)%nat ->
    all_access_loop fuel share_id share_client_type vstore_id count b acc st
      = Some (Return (acc ++ ids), st2)
    /\ calls (trace st2)
       = calls (trace st)
         ++ map (access_page_call share_id share_client_type vstore_id) (windows_from b k).
Proof.
  induction k as [|k IH]; intros count b acc ids st st2 fuel Hpages Hle Hgt Hfuel.
  - cbn in Hpages. inversion Hpages; subst ids st2.
    destruct fuel as [|fuel]; [lia|]. cbn [all_access_loop].
    replace (Z.ltb 0 count) with false by (symmetry; apply Z.ltb_ge; lia).
    rewrite !app_nil_r. split; reflexivity.
  - destruct fuel as [|fuel]; [lia|]. cbn [all_access_loop access_pages] in *.
    replace (Z.ltb 0 count) with true by (symmetry; apply Z.ltb_lt; lia).
    pose proof (access_range_calls share_id b share_client_type vstore_id st) as Hc.
    destruct (_get_access_from_share_range share_id b share_client_type vstore_id st)
      as [[page|e] st1]; [|discriminate].
    destruct (Py.iter page) as [items|e]; [|discriminate].
    destruct (page_ids items) as [here|e]; [|discriminate].
    destruct (access_pages share_id share_client_type vstore_id k (b + 100) st1)
      as [[more st3]|] eqn:Hmore; [|discriminate].
    inversion Hpages; subst ids st3.
    destruct (IH (count - 100) (b + 100) (acc ++ here) more st1 st2 fuel Hmore)
      as (Hloop & Hcalls); try lia.
    split; [rewrite Hloop, app_assoc; reflexivity|].
    rewrite Hcalls. cbn [snd] in Hc. rewrite Hc. cbn [windows_from map].
    rewrite <- app_assoc. reflexivity.
Qed.

Lemma all_access_loop_terminates (share_id share_client_type : string)
    (vstore_id : option string) :
  forall (fuel : nat) (count b : Z) (acc : list Json) (st : State),
    count <= 100 * Z.of_nat fuel ->
    all_access_loop (S fuel) share_id share_client_type vstore_id count b acc st <> None.
Proof.
  induction fuel as [|fuel IH]; intros count b acc st Hle.
  - cbn [all_access_loop].
    replace (Z.ltb 0 count) with false by (symmetry; apply Z.ltb_ge; lia). discriminate.
  - remember (S fuel) as f eqn:Hf. cbn [all_access_loop].
    destruct (Z.ltb 0 count); [|discriminate].
    destruct (_get_access_from_share_range _ _ _ _ st) as [[page|e] st1]; [|discriminate].
    destruct (Py.iter page) as [items|e]; [|discriminate].
    destruct (page_ids items) as [ids|e]; [|discriminate].
    subst f. apply IH. lia.
Qed.

Lemma pages_access_budget (n : Z) :
  n <= 100 * Z.of_nat (pages_access n)
  /\ (pages_access n = O \/ 100 * (Z.of_nat (pages_access n) - 1) < n).
Proof.
  destruct (Z.le_gt_cases 0 n) as [Hn|Hn]; [now apply pages_access_bounds|].
  assert (Hz : pages_access n = O).
  { unfold pages_access.
    pose proof (Z.div_mod (n + 99) 100 ltac:(lia)) as Hdm.
    pose proof (Z.mod_pos_bound (n + 99) 100 ltac:(lia)) as Hmod.
    lia. }
  rewrite Hz. split; [lia|now left].
Qed.

(** X8.  [_get_all_access_from_share] asks for the count, then for
    exactly [ceil(count / 100)] windows, whatever the pages hold, and
    returns the ids of the pages one after the other, in the order
    the array gave them; a count of zero or less asks for no window and
    gives the empty list.  The count is asked for without the vstore id
    even when the windows are asked for with it.  The loop ends for
    every count. *)
Theorem all_access_collected (share_id share_proto share_client_type : string)
    (vstore_id : option string) (n : Z) (st st1 : State) :
  _get_share_client_type share_proto st = (Return share_client_type, st) ->
  _get_access_count share_id share_client_type None st = (Return n, st1) ->
  (forall (fuel : nat) (ids : list Json) (st2 : State),
     access_pages share_id share_client_type vstore_id (pages_access n) 0 st1
       = Some (ids, st2) ->
     (pages_access n < fuel)%nat ->
     _get_all_access_from_share fuel share_id share_proto vstore_id st
       = Some (Return ids, st2)
     /\ calls (trace st2)
        = calls (trace st)
          ++ ("/" +:+ share_client_type +:+ "/count?" +:+ "filter=PARENTID::" +:+ share_id,
              None, Some "GET")
          :: map (access_page_call share_id share_client_type vstore_id)
               (windows (pages_access n)))
  /\ (n <= 0 ->
      forall fuel, _get_all_access_from_share (S fuel) share_id share_proto vstore_id st
                   = Some (Return [], st1))
  /\ (forall fuel, n <= 100 * Z.of_nat fuel ->
        _get_all_access_from_share (S fuel) share_id share_proto vstore_id st <> None).
Proof.
  intros Htype Hcount. split; [|split].
  - intros fuel ids st2 Hpages Hfuel.
    unfold _get_all_access_from_share. rewrite Htype, Hcount.
    destruct (pages_access_budget n) as (Hle & Hgt).
    destruct (all_access_loop_collects share_id share_client_type vstore_id
                (pages_access n) n 0 [] ids st1 st2 fuel Hpages Hle Hgt Hfuel)
      as (Hloop & Hcalls).
    split; [exact Hloop|].
    pose proof (access_count_calls share_id share_client_type None st) as Hc.
    rewrite Hcount in Hc. cbn [snd vstore_params] in Hc.
    rewrite Hcalls, Hc. unfold windows. rewrite <- app_assoc. reflexivity.
  - intros Hn fuel. unfold _get_all_access_from_share. rewrite Htype, Hcount.
    cbn [all_access_loop].
    replace (Z.ltb 0 n) with false by (symmetry; apply Z.ltb_ge; lia). reflexivity.
  - intros fuel Hle. unfold _get_all_access_from_share. rewrite Htype, Hcount.
    now apply all_access_loop_terminates.
Qed.

End AllAccess.

Lemma all_access_collected_witness :
  option_map fst (_get_all_access_from_share 5 "7" "NFS" None
                    (Demo.logged_in Demo.access_200_script))
    = Some (Return (map (fun i => JStr (Py.text_type (Z.of_nat i))) (seq 0 200)))
  /\ _get_all_access_from_share 3 "7" "NFS" None (Demo.logged_in Demo.access_200_script)
     <> None.
Proof.
  assert (Htype : _get_share_client_type "NFS" (Demo.logged_in Demo.access_200_script)
                  = (Return "NFS_SHARE_AUTH_CLIENT", Demo.logged_in Demo.access_200_script))
    by reflexivity.
  assert (Hcount : _get_access_count "7" "NFS_SHARE_AUTH_CLIENT" None
                     (Demo.logged_in Demo.access_200_script)
                   = (Return 200,
                      snd (_get_access_count "7" "NFS_SHARE_AUTH_CLIENT" None
                             (Demo.logged_in Demo.access_200_script))))
    by (vm_compute; reflexivity).
  assert (Hpages : access_pages "7" "NFS_SHARE_AUTH_CLIENT" None (pages_access 200) 0
                     (snd (_get_access_count "7" "NFS_SHARE_AUTH_CLIENT" None
                             (Demo.logged_in Demo.access_200_script)))
                   = Some (map (fun i => JStr (Py.text_type (Z.of_nat i))) (seq 0 200),
                           snd (_get_access_from_share_range "7" 100 "NFS_SHARE_AUTH_CLIENT"
                                  None
                                  (snd (_get_access_from_share_range "7" 0
                                          "NFS_SHARE_AUTH_CLIENT" None
                                          (snd (_get_access_count "7"
                                                  "NFS_SHARE_AUTH_CLIENT" None
                                                  (Demo.logged_in
                                                     Demo.access_200_script))))))))
    by (vm_compute; reflexivity).
  assert (Hfuel : (pages_access 200 < 5)%nat) by (vm_compute; lia).
  assert (Hbudget : 200 <= 100 * Z.of_nat 2) by lia.
  pose proof (all_access_collected (E := Demo.env) "7" "NFS" "NFS_SHARE_AUTH_CLIENT" None
                200 _ _ Htype Hcount) as (Hrun & _ & Hends).
  split.
  - rewrite (proj1 (Hrun 5%nat _ _ Hpages Hfuel)). reflexivity.
  - exact (Hends 2%nat Hbudget).
Defined.

(** ** Lookups by name *)

Section Lookups.

Context {World : Type} `{E : Env World}.

(** The item is named, and not [name]. *)
Local Abbreviation other_name name :=
  (fun x : Json => exists m, Py.getitem x "NAME" = Return m /\ Py.eq (JStr name) m = false).

Lemma find_id_skip (name : string) (pre rest : list Json) :
  Forall (other_name name) pre ->
  find_id_by_name name (pre ++ rest) = find_id_by_name name rest.
Proof.
  induction 1 as [|x pre (m & Hm & Hne) Hpre IH]; [reflexivity|].
  cbn [app find_id_by_name]. now rewrite Hm, Hne.
Qed.

Lemma error_code_dict (result code : Json) :
  error_code result = Return code -> exists kv, result = JObj kv.
Proof.
  destruct result as [| | | | |kv]; try discriminate. intros _. now exists kv.
Qed.

(** X9.  The lookups by name ([get_fsid_by_name],
    [_get_partition_id_by_name], [_get_cache_id_by_name]) ask for the
    whole collection once and return the id of the first item that has
    the name, whatever follows it; when no item has the name, or the
    envelope has no data, they return [None].  [get_fsid_by_name]
    alone replaces the hyphens of the name first, so a share name with
    hyphens finds the filesystem named with underscores. *)
Theorem lookup_by_name (name : string) (st st1 : State) (result code : Json) :
  error_code result = Return code ->
  Py.eq code (JInt 0) = true ->
  (forall items,
     Py.getitem result "data" = Return (JList items) ->
     (call "/cachepartition" None (Some "GET") st = (Return result, st1) ->
      _get_partition_id_by_name name st = (find_id_by_name name items, st1))
     /\ (call "/SMARTCACHEPARTITION" None (Some "GET") st = (Return result, st1) ->
         _get_cache_id_by_name name st = (find_id_by_name name items, st1))
     /\ (call "/FILESYSTEM?range=[0-8191]" None (Some "GET") st = (Return result, st1) ->
         get_fsid_by_name name st
           = (find_id_by_name (Py.replace "-" "_" name) items, st1)))
  /\ (Py.contains "data" result = Return false ->
      (call "/cachepartition" None (Some "GET") st = (Return result, st1) ->
       _get_partition_id_by_name name st = (Return JNull, st1))
      /\ (call "/SMARTCACHEPARTITION" None (Some "GET") st = (Return result, st1) ->
          _get_cache_id_by_name name st = (Return JNull, st1))
      /\ (call "/FILESYSTEM?range=[0-8191]" None (Some "GET") st = (Return result, st1) ->
          get_fsid_by_name name st = (Return JNull, st1)))
  /\ (forall items pre item post n,
        items = pre ++ item :: post ->
        Forall (other_name name) pre ->
        Py.getitem item "NAME" = Return n ->
        Py.eq (JStr name) n = true ->
        find_id_by_name name items = Py.getitem item "ID")
  /\ (forall items,
        Forall (other_name name) items -> find_id_by_name name items = Return JNull).
Proof.
  intros Hcode H0.
  destruct (error_code_dict _ _ Hcode) as (kv & ->).
  split; [|split; [|split]].
  - intros items Hdata. cbn [Py.getitem] in Hdata.
    destruct (Py.dict_get "data" kv) as [d|] eqn:Hd; [|discriminate].
    inversion Hdata; subst d.
    repeat split; intros Hcall.
    + unfold _get_partition_id_by_name.
      rewrite (checked_call_eq _ _ _ _ _ _ _ _ _ Hcall Hcode), H0.
      unfold bind, lift. cbn [Py.contains Py.getitem]. rewrite Hd. reflexivity.
    + unfold _get_cache_id_by_name.
      rewrite (checked_call_eq _ _ _ _ _ _ _ _ _ Hcall Hcode), H0.
      unfold bind, lift. cbn [Py.contains Py.getitem]. rewrite Hd. reflexivity.
    + unfold get_fsid_by_name.
      rewrite (checked_call_eq _ _ _ _ _ _ _ _ _ Hcall Hcode), H0.
      unfold bind, lift. cbn [Py.get_default]. rewrite Hd. reflexivity.
  - intros Hnone. cbn [Py.contains] in Hnone.
    destruct (Py.dict_get "data" kv) as [d|] eqn:Hd; [discriminate|].
    repeat split; intros Hcall.
    + unfold _get_partition_id_by_name.
      rewrite (checked_call_eq _ _ _ _ _ _ _ _ _ Hcall Hcode), H0.
      unfold bind, lift. cbn [Py.contains]. rewrite Hd. reflexivity.
    + unfold _get_cache_id_by_name.
      rewrite (checked_call_eq _ _ _ _ _ _ _ _ _ Hcall Hcode), H0.
      unfold bind, lift. cbn [Py.contains]. rewrite Hd. reflexivity.
    + unfold get_fsid_by_name.
      rewrite (checked_call_eq _ _ _ _ _ _ _ _ _ Hcall Hcode), H0.
      unfold bind, lift. cbn [Py.get_default]. rewrite Hd. reflexivity.
  - intros items pre item post n -> Hpre Hn Heq.
    rewrite (find_id_skip _ _ _ Hpre). cbn [find_id_by_name]. now rewrite Hn, Heq.
  - intros items Hall. rewrite <- (app_nil_r items). now rewrite find_id_skip.
Qed.

End Lookups.

Lemma lookup_by_name_witness :
  get_fsid_by_name "share-b" (Demo.logged_in [Demo.page Demo.filesystems])
    = (Return (JStr "12"),
       snd (call "/FILESYSTEM?range=[0-8191]" None (Some "GET")
              (Demo.logged_in [Demo.page Demo.filesystems])))
  /\ find_id_by_name "share_b" Demo.filesystems
     = Py.getitem (Demo.named "12" "share_b") "ID".
Proof.
  assert (Hcall : call "/FILESYSTEM?range=[0-8191]" None (Some "GET")
                    (Demo.logged_in [Demo.page Demo.filesystems])
                  = (Return (Demo.envelope 0 (Some (JList Demo.filesystems))),
                     snd (call "/FILESYSTEM?range=[0-8191]" None (Some "GET")
                            (Demo.logged_in [Demo.page Demo.filesystems]))))
    by (vm_compute; reflexivity).
  assert (Hcode : error_code (Demo.envelope 0 (Some (JList Demo.filesystems)))
                  = Return (JInt 0)) by reflexivity.
  assert (Hzero : Py.eq (JInt 0) (JInt 0) = true) by reflexivity.
  assert (Hdata : Py.getitem (Demo.envelope 0 (Some (JList Demo.filesystems))) "data"
                  = Return (JList Demo.filesystems)) by reflexivity.
  assert (Hitems : Demo.filesystems
                   = [Demo.named "11" "share_a"] ++ Demo.named "12" "share_b"
                     :: [Demo.named "13" "share_b"]) by reflexivity.
  assert (Hpre : Forall (fun x => exists m, Py.getitem x "NAME" = Return m
                                            /\ Py.eq (JStr "share_b") m = false)
                   [Demo.named "11" "share_a"]).
  { constructor; [|constructor]. exists (JStr "share_a"). split; reflexivity. }
  assert (Hname : Py.getitem (Demo.named "12" "share_b") "NAME" = Return (JStr "share_b"))
    by reflexivity.
  assert (Hsame : Py.eq (JStr "share_b") (JStr "share_b") = true) by reflexivity.
  pose proof (lookup_by_name (E := Demo.env) "share-b"
                (Demo.logged_in [Demo.page Demo.filesystems])
                (snd (call "/FILESYSTEM?range=[0-8191]" None (Some "GET")
                        (Demo.logged_in [Demo.page Demo.filesystems])))
                _ _ Hcode Hzero) as (Hrun & _).
  pose proof (lookup_by_name (E := Demo.env) "share_b" (Demo.logged_in []) (Demo.logged_in [])
                _ _ Hcode Hzero) as (_ & _ & Hfirst & _).
  split.
  - rewrite (proj2 (proj2 (Hrun _ Hdata)) Hcall). reflexivity.
  - exact (Hfirst _ _ _ _ _ Hitems Hpre Hname Hsame).
Defined.

(** ** The information of a filesystem *)

Section FsInfo.

Context {World : Type} `{E : Env World}.

Lemma dict_get_set_same (k : string) (v : Json) (kv : list (string * Json)) :
  Py.dict_get k (Py.dict_set k v kv) = Some v.
Proof.
  induction kv as [|[k' v'] kv IH]; cbn [Py.dict_set Py.dict_get].
  - now rewrite String.eqb_refl.
  - destruct (String.eqb k k') eqn:Hk; cbn [Py.dict_get].
    + now rewrite String.eqb_refl.
    + now rewrite Hk.
Qed.

Lemma dict_get_set_other (k k' : string) (v : Json) (kv : list (string * Json)) :
  k <> k' -> Py.dict_get k (Py.dict_set k' v kv) = Py.dict_get k kv.
Proof.
  intros Hne. apply String.eqb_neq in Hne.
  induction kv as [|[k2 v2] kv IH]; cbn [Py.dict_set Py.dict_get].
  - now rewrite Hne.
  - destruct (String.eqb k' k2) eqn:Hk; cbn [Py.dict_get].
    + apply String.eqb_eq in Hk. subst k2. now rewrite Hne.
    + now rewrite IH.
Qed.

Lemma dict_get_del_same (k : string) (kv : list (string * Json)) :
  Py.dict_get k (Py.dict_del k kv) = None.
Proof.
  unfold Py.dict_del. induction kv as [|[k' v'] kv IH]; [reflexivity|].
  cbn [List.filter fst]. destruct (String.eqb k k') eqn:Hk; cbn [negb]; [exact IH|].
  cbn [Py.dict_get]. now rewrite Hk.
Qed.

Lemma dict_get_del_other (k k' : string) (kv : list (string * Json)) :
  k <> k' -> Py.dict_get k (Py.dict_del k' kv) = Py.dict_get k kv.
Proof.
  intros Hne. apply String.eqb_neq in Hne. unfold Py.dict_del.
  induction kv as [|[k2 v2] kv IH]; [reflexivity|].
  cbn [List.filter fst]. destruct (String.eqb k' k2) eqn:Hk; cbn [negb Py.dict_get].
  - apply String.eqb_eq in Hk. subst k2. now rewrite Hne.
  - now rewrite IH.
Qed.

Lemma dict_pop_eq (k : string) (kv : list (string * Json)) :
  dict_pop k kv = match Py.dict_get k kv with
                  | Some v => Return (v, Py.dict_del k kv)
                  | None => Raise (KeyError k)
                  end.
Proof. reflexivity. Qed.

(** X10.  [_get_fs_info_by_id] hands back the filesystem the array
    described under the driver's names: when the five keys of the
    array are there, each value is found under its new key, the old
    keys are gone, and every other key keeps its value; when one of
    them is missing the operation ends in [KeyError] for a missing
    key.  An envelope without data raises [InvalidShare]. *)
Theorem fs_info_renamed (fsid : string) (st st1 : State) (result code : Json) :
  call ("/filesystem/" +:+ fsid) None (Some "GET") st = (Return result, st1) ->
  error_code result = Return code ->
  Py.eq code (JInt 0) = true ->
  (Py.contains "data" result = Return false ->
   _get_fs_info_by_id fsid st
     = (Raise (InvalidShare ("Get filesystem info by id error!" +:+ " " +:+ Py.DQ
                             +:+ "data" +:+ Py.DQ +:+ " was not in result.")), st1))
  /\ (forall kv,
        Py.getitem result "data" = Return (JObj kv) ->
        _get_fs_info_by_id fsid st = (rename_fs_fields (JObj kv), st1)
        /\ (Forall (fun p => Py.dict_get (fst p) kv <> None) fs_renames ->
            exists kv',
              rename_fs_fields (JObj kv) = Return (JObj kv')
              /\ Forall (fun p => Py.dict_get (snd p) kv' = Py.dict_get (fst p) kv
                                  /\ Py.dict_get (fst p) kv' = None) fs_renames
              /\ (forall k, ~ In k (map fst fs_renames) -> ~ In k (map snd fs_renames) ->
                    Py.dict_get k kv' = Py.dict_get k kv))
        /\ (Exists (fun p => Py.dict_get (fst p) kv = None) fs_renames ->
            exists k, In k (map fst fs_renames)
                      /\ Py.dict_get k kv = None
                      /\ rename_fs_fields (JObj kv) = Raise (KeyError k))).
Proof.
  intros Hcall Hcode H0.
  assert (Hhead : forall k : Json -> @M World Json,
            bind (call ("/filesystem/" +:+ fsid) None (Some "GET")) (fun result =>
              bind (_assert_rest_result result "Get filesystem info by id error!")
                (fun _ => k result)) st = k result st1).
  { intros k. rewrite (checked_call_eq _ _ _ _ _ _ _ _ _ Hcall Hcode). now rewrite H0. }
  split.
  - intros Hnone. unfold _get_fs_info_by_id. rewrite Hhead.
    unfold bind at 1. unfold _assert_data_in_result, bind, lift. now rewrite Hnone.
  - intros kv Hdata. split; [|split].
    + unfold _get_fs_info_by_id. rewrite Hhead.
      unfold bind at 1. unfold _assert_data_in_result, bind, lift.
      rewrite (getitem_contains _ _ _ Hdata). cbn [negb]. unfold ret. now rewrite Hdata.
    + intros Hall. unfold fs_renames in *.
      repeat match goal with
             | H : Forall _ (_ :: _) |- _ => inversion H; clear H; subst
             end.
      cbn [fst snd] in *.
      destruct (Py.dict_get "PARENTNAME" kv) as [v1|] eqn:Hk1; [|congruence].
      destruct (Py.dict_get "ENABLECOMPRESSION" kv) as [v2|] eqn:Hk2; [|congruence].
      destruct (Py.dict_get "ENABLEDEDUP" kv) as [v3|] eqn:Hk3; [|congruence].
      destruct (Py.dict_get "CACHEPARTITIONID" kv) as [v4|] eqn:Hk4; [|congruence].
      destruct (Py.dict_get "SMARTCACHEPARTITIONID" kv) as [v5|] eqn:Hk5; [|congruence].
      eexists. split.
      * unfold rename_fs_fields.
        rewrite dict_pop_eq, Hk1.
        rewrite dict_pop_eq, dict_get_del_other, Hk2 by discriminate.
        rewrite dict_pop_eq, !dict_get_del_other, Hk3 by discriminate.
        rewrite dict_pop_eq, !dict_get_del_other, Hk4 by discriminate.
        rewrite dict_pop_eq, !dict_get_del_other, Hk5 by discriminate.
        reflexivity.
      * split.
        -- repeat constructor; cbn [fst snd];
             repeat first
               [ rewrite dict_get_set_same
               | rewrite dict_get_del_same
               | rewrite dict_get_set_other by discriminate
               | rewrite dict_get_del_other by discriminate ];
             congruence.
        -- intros k Hold Hnew. cbn [map fst snd In] in Hold, Hnew.
           rewrite !dict_get_set_other by (intros ->; apply Hnew; tauto).
           rewrite !dict_get_del_other by (intros ->; apply Hold; tauto).
           reflexivity.
    + intros Hex. unfold fs_renames in *. cbn [map fst].
      unfold rename_fs_fields. rewrite dict_pop_eq.
      destruct (Py.dict_get "PARENTNAME" kv) as [v1|] eqn:Hk1;
        [|exists "PARENTNAME"; cbn [In]; tauto].
      rewrite dict_pop_eq, dict_get_del_other by discriminate.
      destruct (Py.dict_get "ENABLECOMPRESSION" kv) as [v2|] eqn:Hk2;
        [|exists "ENABLECOMPRESSION"; cbn [In]; tauto].
      rewrite dict_pop_eq, !dict_get_del_other by discriminate.
      destruct (Py.dict_get "ENABLEDEDUP" kv) as [v3|] eqn:Hk3;
        [|exists "ENABLEDEDUP"; cbn [In]; tauto].
      rewrite dict_pop_eq, !dict_get_del_other by discriminate.
      destruct (Py.dict_get "CACHEPARTITIONID" kv) as [v4|] eqn:Hk4;
        [|exists "CACHEPARTITIONID"; cbn [In]; tauto].
      rewrite dict_pop_eq, !dict_get_del_other by discriminate.
      destruct (Py.dict_get "SMARTCACHEPARTITIONID" kv) as [v5|] eqn:Hk5;
        [|exists "SMARTCACHEPARTITIONID"; cbn [In]; tauto].
      exfalso.
      repeat match goal with
             | H : Exists _ (_ :: _) |- _ => inversion H; clear H; subst
             | H : Exists _ [] |- _ => inversion H
             end; cbn [fst] in *; congruence.
Qed.

End FsInfo.

Lemma fs_info_renamed_witness :
  _get_fs_info_by_id "4"
    (Demo.logged_in [Demo.ok (Demo.envelope 0 (Some (JObj Demo.fs_fields)))])
    = (rename_fs_fields (JObj Demo.fs_fields),
       snd (call "/filesystem/4" None (Some "GET")
              (Demo.logged_in [Demo.ok (Demo.envelope 0 (Some (JObj Demo.fs_fields)))])))
  /\ exists kv',
       rename_fs_fields (JObj Demo.fs_fields) = Return (JObj kv')
       /\ Forall (fun p => Py.dict_get (snd p) kv' = Py.dict_get (fst p) Demo.fs_fields
                           /\ Py.dict_get (fst p) kv' = None) fs_renames
       /\ (forall k, ~ In k (map fst fs_renames) -> ~ In k (map snd fs_renames) ->
             Py.dict_get k kv' = Py.dict_get k Demo.fs_fields).
Proof.
  assert (Hcall : call "/filesystem/4" None (Some "GET")
                    (Demo.logged_in [Demo.ok (Demo.envelope 0 (Some (JObj Demo.fs_fields)))])
                  = (Return (Demo.envelope 0 (Some (JObj Demo.fs_fields))),
                     snd (call "/filesystem/4" None (Some "GET")
                            (Demo.logged_in
                               [Demo.ok (Demo.envelope 0 (Some (JObj Demo.fs_fields)))]))))
    by (vm_compute; reflexivity).
  assert (Hcode : error_code (Demo.envelope 0 (Some (JObj Demo.fs_fields)))
                  = Return (JInt 0)) by reflexivity.
  assert (Hzero : Py.eq (JInt 0) (JInt 0) = true) by reflexivity.
  assert (Hdata : Py.getitem (Demo.envelope 0 (Some (JObj Demo.fs_fields))) "data"
                  = Return (JObj Demo.fs_fields)) by reflexivity.
  assert (Hkeys : Forall (fun p => Py.dict_get (fst p) Demo.fs_fields <> None) fs_renames)
    by (repeat constructor; discriminate).
  pose proof (fs_info_renamed (E := Demo.env) "4" _ _ _ _ Hcall Hcode Hzero) as (_ & Hrun).
  destruct (Hrun Demo.fs_fields Hdata) as (Hinfo & Hnew & _).
  split; [exact Hinfo|exact (Hnew Hkeys)].
Defined.

(** ** Export locations *)

Section ExportLocations.

Lemma split_go_plain (sep s : string) :
  Py.is_substring sep s = false -> Py.split_go sep 0 s = [s].
Proof.
  induction s as [|c s IH]; [reflexivity|].
  cbn [Py.is_substring Py.split_go]. intros H.
  apply orb_false_iff in H as (Hp & Hs). rewrite Hp, (IH Hs). reflexivity.
Qed.

Lemma prefix_app (s t : string) : String.prefix s (s +:+ t) = true.
Proof.
  induction s as [|c s IH]; [rewrite append_nil; destruct t; reflexivity|].
  rewrite append_cons. cbn [String.prefix].
  destruct (ascii_dec c c) as [_|Hne]; [exact IH|congruence].
Qed.

Lemma prefix_head_differs (c d : ascii) (s t : string) :
  Ascii.eqb c d = false -> String.prefix (String d s) (String c t) = false.
Proof.
  intros Hc. cbn [String.prefix].
  destruct (ascii_dec d c) as [->|_]; [|reflexivity].
  rewrite Ascii.eqb_refl in Hc. discriminate.
Qed.

Lemma split_go_skip (sep u t : string) :
  Py.split_go sep (String.length u) (u +:+ t) = Py.split_go sep 0 t.
Proof.
  induction u as [|c u IH]; [now rewrite append_nil|].
  rewrite append_cons. cbn [String.length Py.split_go]. exact IH.
Qed.

(** At an occurrence of the separator a new piece starts behind it. *)
Lemma split_go_sep (sep t : string) :
  sep <> "" -> Py.split_go sep 0 (sep +:+ t) = "" :: Py.split_go sep 0 t.
Proof.
  destruct sep as [|c sep]; [congruence|]. intros _.
  rewrite append_cons. cbn [Py.split_go].
  rewrite (prefix_app (String c sep) t : String.prefix (String c sep)
                                           (String c (sep +:+ t)) = true).
  replace (String.length (String c sep) - 1)%nat with (String.length sep)
    by (cbn [String.length]; lia).
  f_equal. apply split_go_skip.
Qed.

Lemma split_nfs_location (ip name : string) :
  Py.has_char ":" ip = false ->
  Py.is_substring ":/" name = false ->
  Py.split_str ":/" (ip +:+ ":/" +:+ name) = [ip; name].
Proof.
  intros Hip Hname. unfold Py.split_str.
  induction ip as [|c ip IH].
  - rewrite append_nil, split_go_sep by discriminate.
    now rewrite (split_go_plain _ _ Hname).
  - cbn [Py.has_char] in Hip. apply orb_false_iff in Hip as (Hc & Hip).
    rewrite append_cons. cbn [Py.split_go].
    rewrite (prefix_head_differs _ _ _ _ Hc), (IH Hip). reflexivity.
Qed.

Lemma split_cifs_location (ip name : string) :
  Py.has_char "\" ip = false ->
  Py.has_char "\" name = false ->
  Py.split "\" ("\\" +:+ ip +:+ "\" +:+ name) = [""; ""; ip; name].
Proof.
  intros Hip Hname. rewrite !append_cons, append_nil.
  cbn [Py.split]. rewrite !Ascii.eqb_refl.
  rewrite split_app_sep by exact Hip. now rewrite split_no_sep.
Qed.

Lemma existsb_eqb_In (x : string) (l : list string) :
  existsb (String.eqb x) l = true <-> In x l.
Proof.
  rewrite existsb_exists. split.
  - intros (y & Hy & Heq). apply String.eqb_eq in Heq. now subst y.
  - intros Hin. exists x. split; [exact Hin|apply String.eqb_refl].
Qed.

Lemma truthy_location (ip sep name : string) :
  sep <> "" -> Py.truthy_str (ip +:+ sep +:+ name) = true.
Proof.
  intros Hsep. destruct ip as [|c ip]; [|reflexivity].
  rewrite append_nil. destruct sep as [|c sep]; [congruence|reflexivity].
Qed.

(** X11.  [_get_share_name_by_export_location] reads the location of
    a share back into its name: for an NFS location [ip:/name] and for
    a CIFS location [\\ip\name] it returns [name] as it stands when
    [ip] is one of the logical addresses of the array, and raises
    [InvalidInput] naming the address when it is not.  A missing or
    empty location, and a protocol that is neither NFS nor CIFS, raise
    [InvalidInput] for the location, before the addresses are asked
    for. *)
Theorem export_location_share_name (target_ips : list string) (ip name : string) :
  let answer :=
    if existsb (String.eqb ip) target_ips then Return name
    else Raise (InvalidInput ("The share IP " +:+ ip +:+ " is not configured.")) in
  (Py.has_char ":" ip = false ->
   Py.is_substring ":/" name = false ->
   _get_share_name_by_export_location (Return target_ips)
     (Some (ip +:+ ":/" +:+ name)) "NFS" = answer)
  /\ (Py.has_char "\" ip = false ->
      Py.has_char "\" name = false ->
      _get_share_name_by_export_location (Return target_ips)
        (Some ("\\" +:+ ip +:+ "\" +:+ name)) "CIFS" = answer)
  /\ (In ip target_ips <-> answer = Return name)
  /\ (forall (ips : Result (list string)) (share_proto : string),
        _get_share_name_by_export_location ips None share_proto
          = Raise (InvalidInput "No share with export location None could be found.")
        /\ _get_share_name_by_export_location ips (Some "") share_proto
           = Raise (InvalidInput "No share with export location  could be found."))
  /\ (forall (ips : Result (list string)) (loc share_proto : string),
        String.eqb share_proto "NFS" = false ->
        String.eqb share_proto "CIFS" = false ->
        _get_share_name_by_export_location ips (Some loc) share_proto
          = Raise (InvalidInput ("No share with export location " +:+ loc
                                 +:+ " could be found."))).
Proof.
  intros answer. split; [|split; [|split; [|split]]].
  - intros Hip Hname. unfold _get_share_name_by_export_location, parse_export_location.
    rewrite truthy_location by discriminate. cbn [String.eqb Ascii.eqb Bool.eqb].
    rewrite (split_nfs_location _ _ Hip Hname). unfold answer.
    destruct (existsb (String.eqb ip) target_ips); reflexivity.
  - intros Hip Hname. unfold _get_share_name_by_export_location, parse_export_location.
    rewrite (split_cifs_location _ _ Hip Hname).
    replace (Py.truthy_str ("\\" +:+ ip +:+ "\" +:+ name)) with true
      by (rewrite !append_cons; reflexivity).
    cbn [String.eqb Ascii.eqb Bool.eqb andb]. unfold answer.
    destruct (existsb (String.eqb ip) target_ips); reflexivity.
  - unfold answer. rewrite <- existsb_eqb_In.
    destruct (existsb (String.eqb ip) target_ips); split; congruence.
  - intros ips share_proto. split; reflexivity.
  - intros ips loc share_proto Hnfs Hcifs.
    unfold _get_share_name_by_export_location, parse_export_location.
    rewrite Hnfs, Hcifs. destruct (Py.truthy_str loc); reflexivity.
Qed.

End ExportLocations.

Lemma export_location_share_name_witness :
  _get_share_name_by_export_location (Return ["10.0.0.1"; "10.0.0.2"])
    (Some "10.0.0.2:/share_a") "NFS" = Return "share_a"
  /\ _get_share_name_by_export_location (Return ["10.0.0.1"; "10.0.0.2"])
       (Some "\\10.0.0.3\share_a") "CIFS"
     = Raise (InvalidInput "The share IP 10.0.0.3 is not configured.")
  /\ _get_share_name_by_export_location (Return ["10.0.0.1"]) (Some "10.0.0.1:/share_a") "FTP"
     = Raise (InvalidInput "No share with export location 10.0.0.1:/share_a could be found.").
Proof.
  assert (Hip : Py.has_char ":" "10.0.0.2" = false) by reflexivity.
  assert (Hname : Py.is_substring ":/" "share_a" = false) by reflexivity.
  assert (Hip' : Py.has_char "\" "10.0.0.3" = false) by reflexivity.
  assert (Hname' : Py.has_char "\" "share_a" = false) by reflexivity.
  assert (Hnfs : String.eqb "FTP" "NFS" = false) by reflexivity.
  assert (Hcifs : String.eqb "FTP" "CIFS" = false) by reflexivity.
  split; [|split].
  - exact (proj1 (export_location_share_name ["10.0.0.1"; "10.0.0.2"] "10.0.0.2" "share_a")
             Hip Hname).
  - exact (proj1 (proj2 (export_location_share_name ["10.0.0.1"; "10.0.0.2"] "10.0.0.3"
                           "share_a")) Hip' Hname').
  - exact (proj2 (proj2 (proj2 (proj2
             (export_location_share_name ["10.0.0.1"] "10.0.0.1" "share_a"))))
             (Return ["10.0.0.1"]) "10.0.0.1:/share_a" "FTP" Hnfs Hcifs).
Defined.

(** ** Storage pools *)

Section Pools.

Lemma lstrip_ws_eq (c1 : ascii) (s1 : string) :
  Py.lstrip_ws (String c1 s1) =
    if Py.is_space c1 then Py.lstrip_ws s1
    else
      match s1 with
      | "" => String c1 s1
      | String c2 s2 =>
          if Py.is_space2 c1 c2 then Py.lstrip_ws s2
          else
            match s2 with
            | "" => String c1 s1
            | String c3 s3 =>
                if Py.is_space3 c1 c2 c3 then Py.lstrip_ws s3 else String c1 s1
            end
      end.
Proof. reflexivity. Qed.

(** What [lstrip] leaves does not begin with a blank. *)
Lemma lstrip_ws_starts (s : string) : Py.starts_space (Py.lstrip_ws s) = false.
Proof.
  assert (H : forall n s, (String.length s <= n)%nat ->
                          Py.starts_space (Py.lstrip_ws s) = false).
  { clear s. induction n as [|n IH]; intros s Hlen.
    - destruct s; [reflexivity|cbn [String.length] in Hlen; lia].
    - destruct s as [|c1 s1]; [reflexivity|]. cbn [String.length] in Hlen.
      rewrite lstrip_ws_eq. destruct (Py.is_space c1) eqn:H1; [apply IH; lia|].
      destruct s1 as [|c2 s2]; [cbn [Py.starts_space]; now rewrite H1|].
      cbn [String.length] in Hlen.
      destruct (Py.is_space2 c1 c2) eqn:H2; [apply IH; lia|].
      destruct s2 as [|c3 s3]; [cbn [Py.starts_space]; now rewrite H1, H2|].
      cbn [String.length] in Hlen.
      destruct (Py.is_space3 c1 c2 c3) eqn:H3; [apply IH; lia|].
      cbn [Py.starts_space]. now rewrite H1, H2, H3. }
  apply (H (String.length s)). lia.
Qed.

Lemma lstrip_ws_fixed (s : string) :
  Py.starts_space s = false -> Py.lstrip_ws s = s.
Proof.
  destruct s as [|c1 s1]; [reflexivity|]. cbn [Py.starts_space]. intros H.
  apply orb_false_iff in H as (H1 & H). rewrite lstrip_ws_eq, H1.
  destruct s1 as [|c2 s2]; [reflexivity|].
  apply orb_false_iff in H as (H2 & H). rewrite H2.
  destruct s2 as [|c3 s3]; [reflexivity|]. now rewrite H.
Qed.

(** A string that begins with a blank still does when it goes on. *)
Lemma starts_space_app (r x : string) :
  Py.starts_space r = true -> Py.starts_space (r +:+ x) = true.
Proof.
  destruct r as [|c1 r1]; [discriminate|]. rewrite append_cons.
  cbn [Py.starts_space]. destruct (Py.is_space c1); [reflexivity|]. cbn [orb].
  destruct r1 as [|c2 r2]; [discriminate|]. rewrite append_cons.
  destruct (Py.is_space2 c1 c2); [reflexivity|]. cbn [orb].
  destruct r2 as [|c3 r3]; [discriminate|]. now rewrite append_cons.
Qed.

Lemma rstrip_ws_eq (c : ascii) (s : string) :
  Py.rstrip_ws (String c s) =
    if Py.is_space_char (String c (Py.rstrip_ws s)) then ""
    else String c (Py.rstrip_ws s).
Proof. reflexivity. Qed.

(** What [rstrip] leaves is the front of the string. *)
Lemma rstrip_ws_prefix (s : string) : exists x, s = Py.rstrip_ws s +:+ x.
Proof.
  induction s as [|c s (x & Hx)]; [now exists ""|].
  rewrite rstrip_ws_eq. destruct (Py.is_space_char (String c (Py.rstrip_ws s))).
  - exists (String c s). reflexivity.
  - exists x. rewrite append_cons. now rewrite <- Hx.
Qed.

Lemma rstrip_ws_idem (s : string) : Py.rstrip_ws (Py.rstrip_ws s) = Py.rstrip_ws s.
Proof.
  induction s as [|c s IH]; [reflexivity|]. rewrite rstrip_ws_eq.
  destruct (Py.is_space_char (String c (Py.rstrip_ws s))) eqn:Hc; [reflexivity|].
  rewrite rstrip_ws_eq, IH, Hc. reflexivity.
Qed.

(** [strip()] of a stripped string changes nothing. *)
Lemma strip_ws_idem (s : string) : Py.strip_ws (Py.strip_ws s) = Py.strip_ws s.
Proof.
  unfold Py.strip_ws. pose proof (lstrip_ws_starts s) as Hs.
  destruct (rstrip_ws_prefix (Py.lstrip_ws s)) as (x & Hx).
  assert (Hr : Py.starts_space (Py.rstrip_ws (Py.lstrip_ws s)) = false).
  { destruct (Py.starts_space (Py.rstrip_ws (Py.lstrip_ws s))) eqn:Hr; [|reflexivity].
    rewrite Hx, (starts_space_app _ x Hr) in Hs. discriminate. }
  rewrite (lstrip_ws_fixed _ Hr). apply rstrip_ws_idem.
Qed.

(** The item is a pool of another name, or not of usage type 2. *)
Local Abbreviation other_pool name :=
  (fun x : Json => pool_matches name x = Return false).

Lemma find_pool_skip (name : string) (pre rest : list Json) :
  Forall (other_pool name) pre -> find_pool name (pre ++ rest) = find_pool name rest.
Proof.
  induction 1 as [|x pre Hx Hpre IH]; [reflexivity|].
  cbn [app find_pool]. now rewrite Hx.
Qed.

(** X12.  [_find_pool_info] compares the pool name with white space
    taken off both ends as [str.strip()] takes it off (the blank, the
    control characters 9 to 13 and 28 to 31, and the spaces of Unicode
    such as U+00A0 and U+2003; stripping twice changes nothing), and
    takes the first pool that has the name and the
    usage type ['2']; a pool of the name with another usage type is
    passed over.  What it returns for that pool carries the stripped
    name, the id and the four capacities under the driver's keys, and
    the capacities of tiers 1 and 2 exactly when the array gave them.
    Without such a pool the answer is the empty dict; without a name it
    is [None]. *)
Theorem pool_info_found (pool_name : string) (result : Json) (items : list Json) :
  Py.get_default result "data" (JList []) = Return (JList items) ->
  _find_pool_info None result = Return JNull
  /\ _find_pool_info (Some pool_name) result = find_pool (Py.strip_ws pool_name) items
  /\ _find_pool_info (Some (Py.strip_ws pool_name)) result
     = _find_pool_info (Some pool_name) result
  /\ (Forall (other_pool (Py.strip_ws pool_name)) items ->
      _find_pool_info (Some pool_name) result = Return (JObj []))
  /\ (forall pre post ikv i free total consumed tier0,
        items = pre ++ JObj ikv :: post ->
        Forall (other_pool (Py.strip_ws pool_name)) pre ->
        Py.dict_get "NAME" ikv = Some (JStr (Py.strip_ws pool_name)) ->
        Py.dict_get "USAGETYPE" ikv = Some (JStr "2") ->
        Py.dict_get "ID" ikv = Some i ->
        Py.dict_get "USERFREECAPACITY" ikv = Some free ->
        Py.dict_get "USERTOTALCAPACITY" ikv = Some total ->
        Py.dict_get "USERCONSUMEDCAPACITY" ikv = Some consumed ->
        Py.dict_get "TIER0CAPACITY" ikv = Some tier0 ->
        _find_pool_info (Some pool_name) result =
          Return (JObj ([("name", JStr (Py.strip_ws pool_name)); ("ID", i);
                         ("CAPACITY", free); ("TOTALCAPACITY", total);
                         ("CONSUMEDCAPACITY", consumed); ("TIER0CAPACITY", tier0)]
                        ++ match Py.dict_get "TIER1CAPACITY" ikv with
                           | Some t => [("TIER1CAPACITY", t)]
                           | None => []
                           end
                        ++ match Py.dict_get "TIER2CAPACITY" ikv with
                           | Some t => [("TIER2CAPACITY", t)]
                           | None => []
                           end)))
  /\ (forall ikv usage,
        Py.dict_get "NAME" ikv = Some (JStr (Py.strip_ws pool_name)) ->
        Py.dict_get "USAGETYPE" ikv = Some usage ->
        Py.eq (JStr "2") usage = false ->
        pool_matches (Py.strip_ws pool_name) (JObj ikv) = Return false).
Proof.
  intros Hdata.
  assert (Hrun : forall name, _find_pool_info (Some name) result
                              = find_pool (Py.strip_ws name) items).
  { intros name. unfold _find_pool_info. now rewrite Hdata. }
  split; [reflexivity|]. split; [apply Hrun|]. split; [|split; [|split]].
  - now rewrite !Hrun, strip_ws_idem.
  - intros Hall. rewrite Hrun, <- (app_nil_r items). now rewrite find_pool_skip.
  - intros pre post ikv i free total consumed tier0 -> Hpre Hname Husage Hid Hfree Htotal
      Hconsumed Htier0.
    rewrite Hrun, (find_pool_skip _ _ _ Hpre). cbn [find_pool].
    unfold pool_matches. cbn [Py.getitem]. rewrite Hname, Husage.
    cbn [Py.eq]. rewrite !String.eqb_refl. cbn [negb].
    unfold pool_fields. cbn [Py.getitem Py.contains].
    rewrite Hid, Hfree, Htotal, Hconsumed, Htier0.
    destruct (Py.dict_get "TIER1CAPACITY" ikv) as [t1|];
      destruct (Py.dict_get "TIER2CAPACITY" ikv) as [t2|]; reflexivity.
  - intros ikv usage Hname Husage Hne. unfold pool_matches. cbn [Py.getitem].
    rewrite Hname, Husage.
    replace (Py.eq (JStr (Py.strip_ws pool_name)) (JStr (Py.strip_ws pool_name)))
      with true by (cbn [Py.eq]; now rewrite String.eqb_refl).
    cbn [negb]. now rewrite Hne.
Qed.

End Pools.

Lemma pool_info_found_witness :
  _find_pool_info (Some Demo.padded_pool_name) (Demo.envelope 0 (Some (JList Demo.pools)))
    = Return (JObj [("name", JStr "pool0"); ("ID", JStr "2"); ("CAPACITY", JStr "100");
                    ("TOTALCAPACITY", JStr "300"); ("CONSUMEDCAPACITY", JStr "200");
                    ("TIER0CAPACITY", JStr "0"); ("TIER1CAPACITY", JStr "300")])
  /\ pool_matches "pool0" (JObj (Demo.pool "1" "pool0" "1")) = Return false
  /\ Py.strip_ws Demo.padded_pool_name = "pool0".
Proof.
  assert (Hdata : Py.get_default (Demo.envelope 0 (Some (JList Demo.pools))) "data" (JList [])
                  = Return (JList Demo.pools)) by reflexivity.
  assert (Hitems : Demo.pools
                   = [JObj (Demo.pool "0" "pool1" "2"); JObj (Demo.pool "1" "pool0" "1")]
                     ++ JObj (Demo.pool "2" "pool0" "2") :: []) by reflexivity.
  assert (Hpre : Forall (fun x => pool_matches (Py.strip_ws Demo.padded_pool_name) x
                                 = Return false)
                   [JObj (Demo.pool "0" "pool1" "2"); JObj (Demo.pool "1" "pool0" "1")])
    by (repeat constructor).
  assert (Hname : Py.dict_get "NAME" (Demo.pool "2" "pool0" "2")
                  = Some (JStr (Py.strip_ws Demo.padded_pool_name))) by reflexivity.
  assert (Hname1 : Py.dict_get "NAME" (Demo.pool "1" "pool0" "1")
                   = Some (JStr (Py.strip_ws Demo.padded_pool_name))) by reflexivity.
  assert (Husage1 : Py.dict_get "USAGETYPE" (Demo.pool "1" "pool0" "1") = Some (JStr "1"))
    by reflexivity.
  assert (Hblock : Py.eq (JStr "2") (JStr "1") = false) by reflexivity.
  pose proof (pool_info_found Demo.padded_pool_name _ _ Hdata)
    as (_ & _ & _ & _ & Hfound & Hother).
  split; [|split; [|reflexivity]].
  - exact (Hfound _ _ _ _ _ _ _ _ Hitems Hpre Hname eq_refl eq_refl eq_refl eq_refl eq_refl
             eq_refl).
  - exact (Hother _ _ Hname1 Husage1 Hblock).
Defined.

(** ** What the helper sends *)

Section Requests.

Context {World : Type} `{E : Env World}.

Local Abbreviation sends_well_formed := (@sends_well_formed World _).

Lemma json_headers_fresh : json_headers (headers (self_session fresh_attrs)).
Proof. split; reflexivity. Qed.

Lemma json_headers_token (h : gmap string Json) (token : Json) :
  json_headers h -> json_headers (<["iBaseToken" := token]> h).
Proof.
  intros (Hc & Ht). split; (rewrite lookup_insert_ne by discriminate); assumption.
Qed.

Lemma swf_event (st : State) (w : World) (e : Event) :
  exchanges [e] = [] ->
  sends_well_formed st ->
  sends_well_formed {| world := w; self := self st; trace := trace st ++ [e] |}.
Proof.
  intros He (Ha & Hx). split; [exact Ha|]. cbn [trace].
  rewrite exchanges_app, He, app_nil_r. exact Hx.
Qed.

Lemma swf_set_attrs (st : State) (a : Attrs) :
  json_headers (headers (self_session a)) ->
  sends_well_formed st -> sends_well_formed (snd (set_attrs a st)).
Proof.
  intros Hh (_ & Hx). split; [|exact Hx]. cbn. intros a' Ha'. now inversion Ha'; subst.
Qed.

(** Running [k] after [m] keeps the property when both keep it, [k]
    from whatever [m] returned. *)
Lemma swf_bind {A B} (m : @M World A) (k : A -> @M World B) (st : State) :
  sends_well_formed (snd (m st)) ->
  (forall a st', m st = (Return a, st') -> sends_well_formed st' ->
                 sends_well_formed (snd (k a st'))) ->
  sends_well_formed (snd (bind m k st)).
Proof.
  intros Hm Hk. unfold bind. destruct (m st) as [[a|e] st'] eqn:Hrun; [|exact Hm].
  now apply Hk.
Qed.

Lemma lift_run {A} (r : Result A) (st st' : @State World) (a : A) :
  @lift World A r st = (Return a, st') -> r = Return a /\ st' = st.
Proof. unfold lift. intros H. inversion H. now split. Qed.

Lemma attr_run (name : string) (st st' : @State World) (a : Attrs) :
  attr name st = (Return a, st') -> self st = Some a /\ st' = st.
Proof.
  unfold attr. destruct (self st) as [a'|]; intros H; inversion H. now split.
Qed.

Lemma assert_rest_result_state (result : Json) (err_str : string) (st : State) :
  snd (_assert_rest_result result err_str st) = st.
Proof.
  unfold _assert_rest_result, bind, lift. destruct (error_code result) as [code|e];
    [|reflexivity].
  destruct (negb (Py.eq code (JInt 0))); reflexivity.
Qed.

Lemma swf_do_call (url : string) (data method : option string) (calltimeout : Z)
    (st : State) :
  calltimeout = SOCKET_TIMEOUT consts \/ calltimeout = LOGIN_SOCKET_TIMEOUT consts ->
  sends_well_formed st ->
  sends_well_formed (snd (do_call url data method calltimeout st)).
Proof.
  intros Htime Hst. unfold do_call, bind, attr.
  destruct (self st) as [a|] eqn:Hself; [|exact Hst].
  destruct (valid_method (req_method (request_of a url data method calltimeout)))
    eqn:Hvalid; [|exact Hst].
  unfold exchange, lift.
  destruct (http (world st) (request_of a url data method calltimeout)) as [out w].
  cbn [snd]. destruct Hst as (Ha & Hx). split; [exact Ha|]. cbn [trace].
  rewrite exchanges_app. apply Forall_app. split; [exact Hx|].
  constructor; [|constructor]. split; [exact Hvalid|]. split; [exact Htime|].
  exact (Ha a Hself).
Qed.

Lemma swf_logout (st : State) :
  sends_well_formed st -> sends_well_formed (snd (logout st)).
Proof.
  intros Hst. unfold logout. apply swf_bind.
  - now apply swf_event.
  - intros [] st1 _ H1. apply swf_bind; [unfold attr; destruct (self st1); exact H1|].
    intros a st2 Hrun _. apply attr_run in Hrun as (_ & ->).
    destruct (self_url a) as [base|]; [|exact H1].
    destruct (Py.truthy_str base); [|exact H1].
    apply swf_bind; [apply swf_do_call; [now left|exact H1]|].
    intros result st3 _ H3. now rewrite assert_rest_result_state.
Qed.

Lemma swf_login_loop (login_info : LoginInfo) (url_list : list string) :
  forall st, sends_well_formed st ->
             sends_well_formed (snd (login_loop login_info url_list st)).
Proof.
  induction url_list as [|item_url rest IH]; intros st Hst; [exact Hst|].
  cbn [login_loop].
  assert (Hinit : sends_well_formed (snd (init_http_head st))).
  { unfold init_http_head, bind, log. cbn [snd]. apply swf_set_attrs.
    - apply json_headers_fresh.
    - now apply (swf_event st (world st) EvInitHead). }
  apply swf_bind; [exact Hinit|]. intros [] st1 _ H1.
  apply swf_bind; [apply swf_do_call; [now right|exact H1]|]. intros result st2 _ H2.
  apply swf_bind; [exact H2|]. intros rejected st3 Hrun _.
  apply lift_run in Hrun as (_ & ->).
  destruct rejected; [now apply IH|].
  apply swf_bind; [exact H2|]. intros d st3 Hrun _. apply lift_run in Hrun as (_ & ->).
  apply swf_bind; [exact H2|]. intros deviceid st3 Hrun _.
  apply lift_run in Hrun as (_ & ->).
  apply swf_bind; [exact H2|]. intros new_url st3 Hrun _.
  apply lift_run in Hrun as (_ & ->).
  apply swf_bind; [unfold attr; destruct (self st2); exact H2|].
  intros a st3 Hrun _. apply attr_run in Hrun as (Ha & ->).
  assert (H4 : sends_well_formed
                 (snd (set_attrs {| self_url := Some new_url;
                                    self_session := self_session a |} st2))).
  { apply swf_set_attrs; [|exact H2]. exact (proj1 H2 a Ha). }
  apply swf_bind; [exact H4|]. intros [] st4 _ H4'.
  apply swf_bind; [exact H4'|]. intros d' st5 Hrun _. apply lift_run in Hrun as (_ & ->).
  apply swf_bind; [exact H4'|]. intros token st5 Hrun _.
  apply lift_run in Hrun as (_ & ->).
  apply swf_bind; [unfold attr; destruct (self st4); exact H4'|].
  intros a' st5 Hrun _. apply attr_run in Hrun as (Ha' & ->).
  assert (H6 : sends_well_formed
                 (snd (set_attrs
                         {| self_url := self_url a';
                            self_session :=
                              {| headers := <["iBaseToken" := token]>
                                              (headers (self_session a'));
                                 verify := verify (self_session a') |} |} st4))).
  { apply swf_set_attrs; [|exact H4']. cbn [self_session headers].
    apply json_headers_token. exact (proj1 H4' a' Ha'). }
  apply swf_bind; [exact H6|]. intros [] st6 _ H6'.
  apply swf_bind; [exact H6'|]. intros d'' st7 Hrun _. apply lift_run in Hrun as (_ & ->).
  apply swf_bind; [exact H6'|]. intros accountstate st7 Hrun _.
  apply lift_run in Hrun as (_ & ->).
  destruct (pwd_expired_or_initial accountstate); [|exact H6'].
  apply swf_bind; [now apply swf_logout|]. intros [] st7 _ H7. exact H7.
Qed.

Lemma swf_login (st : State) :
  sends_well_formed st -> sends_well_formed (snd (login st)).
Proof.
  intros Hst. unfold login. apply swf_bind; [now apply swf_event|].
  intros [] st1 _ H1. apply swf_bind; [exact H1|]. intros login_info st2 Hrun _.
  apply lift_run in Hrun as (_ & ->).
  apply swf_bind; [now apply swf_login_loop|]. intros deviceid st2 _ H2.
  destruct deviceid; exact H2.
Qed.

Lemma swf_call (url : string) (data method : option string) (st : State) :
  sends_well_formed st -> sends_well_formed (snd (call url data method st)).
Proof.
  intros Hst. unfold call. apply swf_bind; [now apply swf_event|].
  intros [] st1 _ H1. apply swf_bind; [unfold attr; destruct (self st1); exact H1|].
  intros old_url st2 Hrun _. apply attr_run in Hrun as (_ & ->).
  apply swf_bind; [apply swf_do_call; [now left|exact H1]|]. intros result st2 _ H2.
  apply swf_bind; [exact H2|]. intros code st3 Hrun _. apply lift_run in Hrun as (_ & ->).
  apply swf_bind.
  - destruct (needs_relogin code); [now apply swf_login|exact H2].
  - intros deviceid st3 _ H3.
    destruct deviceid; try (apply swf_do_call; [now left|exact H3]). exact H3.
Qed.

(** X13.  Every request the helper sends, through [call], [login] or
    [logout], uses one of the four methods, one of the two timeouts
    and carries the keep-alive and JSON content-type headers of
    [init_http_head]; storing the token never drops them.  The
    property holds of a helper just constructed, is kept by the three
    methods, and is kept by running one operation after another, so it
    holds along every operation built from them. *)
Theorem requests_well_formed :
  (forall w, sends_well_formed {| world := w; self := None; trace := [] |})
  /\ (forall st,
        sends_well_formed st ->
        sends_well_formed (snd (login st))
        /\ sends_well_formed (snd (logout st))
        /\ (forall url data method, sends_well_formed (snd (call url data method st)))
        /\ (forall result err_str,
              sends_well_formed (snd (_assert_rest_result result err_str st)))
        /\ (forall A (r : Result A), sends_well_formed (snd (@lift World A r st))))
  /\ (forall A B (m : @M World A) (k : A -> @M World B) st,
        sends_well_formed (snd (m st)) ->
        (forall a st', m st = (Return a, st') -> sends_well_formed st' ->
                       sends_well_formed (snd (k a st'))) ->
        sends_well_formed (snd (bind m k st)))
  /\ (forall st r,
        sends_well_formed st -> In r (exchanges (trace st)) ->
        valid_method (req_method r) = true
        /\ (req_timeout r = SOCKET_TIMEOUT consts
            \/ req_timeout r = LOGIN_SOCKET_TIMEOUT consts)
        /\ req_headers r !! "Connection" = Some (JStr "keep-alive")
        /\ req_headers r !! "Content-Type" = Some (JStr "application/json")).
Proof.
  split; [|split; [|split]].
  - intros w. split; [discriminate|constructor].
  - intros st Hst. split; [now apply swf_login|]. split; [now apply swf_logout|].
    split; [intros; now apply swf_call|]. split.
    + intros. now rewrite assert_rest_result_state.
    + intros. exact Hst.
  - intros A B m k st. apply swf_bind.
  - intros st r (_ & Hx) Hin. rewrite List.Forall_forall in Hx.
    destruct (Hx r Hin) as (Hv & Ht & Hc & Hj). auto.
Qed.

End Requests.

Lemma requests_well_formed_witness :
  Forall (fun r => valid_method (req_method r) = true
                   /\ req_headers r !! "Content-Type" = Some (JStr "application/json"))
    (exchanges (trace (snd (call "/filesystem" None (Some "GET")
                              (Demo.logged_in Demo.relogin_script)))))
  /\ length (exchanges (trace (snd (call "/filesystem" None (Some "GET")
                                      (Demo.logged_in Demo.relogin_script))))) = 3%nat.
Proof.
  destruct (requests_well_formed (E := Demo.env)) as (_ & Hkeep & _ & Hread).
  assert (Hstart : sends_well_formed (Demo.logged_in Demo.relogin_script)).
  { split; [|constructor]. intros a Ha. inversion Ha; subst. split; reflexivity. }
  pose proof (proj1 (proj2 (proj2 (Hkeep _ Hstart))) "/filesystem" None (Some "GET"))
    as Hafter.
  split; [|vm_compute; reflexivity].
  apply List.Forall_forall. intros r Hin.
  destruct (Hread _ r Hafter Hin) as (Hv & _ & _ & Hj). split; assumption.
Defined.

(** ** Sessions *)

Section Sessions.

Context {World : Type} `{E : Env World}.

Lemma valid_delete (a : Attrs) (calltimeout : Z) :
  valid_method (req_method (request_of a "/sessions" None (Some "DELETE") calltimeout))
    = true.
Proof. reflexivity. Qed.

(** X14.  [logout] sends nothing when no base URL is stored; with one
    stored it sends one DELETE to [<base>/sessions], with the session's
    headers, and raises [InvalidShare] for any envelope whose code is
    not zero.  It goes through [do_call], not [call]: a connection
    failure or an unauthorized answer does not make it log in again.
    Whatever the answer, the stored base URL and the session stay as
    they were.  On a helper that never ran [init_http_head] it ends in
    [AttributeError]. *)
Theorem logout_contract (st : State) :
  (self st = None ->
   logout st = (Raise (AttributeError "url"),
                {| world := world st; self := None; trace := trace st ++ [EvLogout] |}))
  /\ (forall a,
        self st = Some a ->
        (self_url a = None \/ self_url a = Some "" ->
         logout st = (Return tt,
                      {| world := world st; self := Some a;
                         trace := trace st ++ [EvLogout] |}))
        /\ (forall base,
              self_url a = Some base -> base <> "" ->
              let r := request_of a "/sessions" None (Some "DELETE")
                         (SOCKET_TIMEOUT consts) in
              req_url r = base +:+ "/sessions"
              /\ req_method r = "DELETE"
              /\ req_data r = None
              /\ logout st =
                 (match outcome_result (fst (http (world st) r)) with
                  | Return result =>
                      match error_code result with
                      | Return code =>
                          if Py.eq code (JInt 0) then Return tt
                          else Raise (InvalidShare
                                        (failure_reason "Logout session error." result))
                      | Raise e => Raise e
                      end
                  | Raise e => Raise e
                  end,
                  {| world := snd (http (world st) r); self := Some a;
                     trace := trace st ++ [EvLogout; EvExchange r] |})))
  /\ logins (trace (snd (logout st))) = logins (trace st)
  /\ calls (trace (snd (logout st))) = calls (trace st)
  /\ self (snd (logout st)) = self st.
Proof.
  split; [|split; [|split; [|split]]].
  - intros Hself. unfold logout, bind, log, attr. cbn [self]. rewrite Hself. reflexivity.
  - intros a Hself. split.
    + intros Hurl. unfold logout, bind, log, attr. cbn [self]. rewrite Hself.
      destruct Hurl as [-> | ->]; reflexivity.
    + intros base Hbase Hne r.
      assert (Htruthy : Py.truthy_str base = true) by (destruct base; [congruence|reflexivity]).
      split; [unfold r, request_of; cbn [req_url]; now rewrite Hbase, Htruthy|].
      split; [reflexivity|]. split; [reflexivity|].
      unfold logout. unfold bind at 1, log. unfold bind at 1, attr. cbn [self].
      rewrite Hself, Hbase, Htruthy. unfold bind.
      rewrite (do_call_eq _ _ _ _
                 {| world := world st; self := Some a; trace := trace st ++ [EvLogout] |}
                 a eq_refl (valid_delete a _)).
      cbn [world trace self]. fold r. rewrite <- app_assoc. cbn [app].
      destruct (outcome_result (fst (http (world st) r))) as [result|e]; [|reflexivity].
      unfold _assert_rest_result, bind, lift.
      destruct (error_code result) as [code|e]; [|reflexivity].
      destruct (Py.eq code (JInt 0)); reflexivity.
  - destruct (silent_logout st) as (t & Ht & _ & Hl).
    rewrite Ht, logins_app, Hl. lia.
  - destruct (silent_logout st) as (t & Ht & Hc & _).
    rewrite Ht, calls_app, Hc. apply app_nil_r.
  - apply logout_self.
Qed.

End Sessions.

Lemma logout_contract_witness :
  logout (Demo.logged_in [Demo.ok (Demo.envelope (-401) None)])
    = (Raise (InvalidShare
                (failure_reason "Logout session error." (Demo.envelope (-401) None))),
       {| world := [];
          self := self (Demo.logged_in []);
          trace := [EvLogout;
                    EvExchange
                      {| req_method := "DELETE";
                         req_url := "https://a:8088/rest/dev0/sessions";
                         req_data := None;
                         req_timeout := 52;
                         req_headers := <["iBaseToken" := JStr "tok0"]>
                                          (headers (self_session fresh_attrs)) |}] |})
  /\ logout (Demo.constructed [])
     = (Raise (AttributeError "url"),
        {| world := []; self := None; trace := [EvLogout] |}).
Proof.
  destruct (logout_contract (E := Demo.env)
              (Demo.logged_in [Demo.ok (Demo.envelope (-401) None)])) as (_ & Hsome & _).
  assert (Hself : self (Demo.logged_in [Demo.ok (Demo.envelope (-401) None)])
                  = Some {| self_url := Some "https://a:8088/rest/dev0";
                            self_session :=
                              {| headers := <["iBaseToken" := JStr "tok0"]>
                                              (headers (self_session fresh_attrs));
                                 verify := false |} |}) by reflexivity.
  assert (Hne : "https://a:8088/rest/dev0" <> "") by discriminate.
  split.
  - exact (proj2 (proj2 (proj2 (proj2 (Hsome _ Hself) "https://a:8088/rest/dev0"
                                         eq_refl Hne)))).
  - exact (proj1 (logout_contract (E := Demo.env) (Demo.constructed [])) eq_refl).
Defined.

(** ** The request after a new login *)

Section Relogin.

Context {World : Type} `{E : Env World}.

(** X15.  When the first answer to [call] carries one of the two
    session sentinels and [login] is let in by a candidate, the
    request is sent again with the session [login] has just set up: to
    the candidate's URL followed by the device id, with the new token,
    the same method and the same data; the base URL and the token
    the helper had before are not used.  The outcome of that request
    is the outcome of [call], and the record holds the first request,
    the login attempts in order, and the second request. *)
Theorem call_retries_with_new_session (login_info : LoginInfo) (url : string)
    (data method : option string) (st : State) (a : Attrs) (pre post : list string)
    (item_url : string) (w : World) (result0 code result d token accountstate : Json)
    (deviceid : string) :
  let r0 := request_of a url data method (SOCKET_TIMEOUT consts) in
  let a' := accepted_attrs item_url deviceid token in
  let r' := request_of a' url data method (SOCKET_TIMEOUT consts) in
  let w' := snd (http w (login_request login_info item_url)) in
  _get_login_info = Return login_info ->
  self st = Some a ->
  valid_method (req_method r0) = true ->
  outcome_result (fst (http (world st) r0)) = Return result0 ->
  error_code result0 = Return code ->
  needs_relogin code = true ->
  Py.split ";" (RestURL login_info) = pre ++ item_url :: post ->
  rejected_run login_info pre (snd (http (world st) r0)) = Some w ->
  outcome_result (fst (http w (login_request login_info item_url))) = Return result ->
  login_rejects result = Return false ->
  Py.getitem result "data" = Return d ->
  Py.getitem d "deviceid" = Return (JStr deviceid) ->
  Py.getitem d "iBaseToken" = Return token ->
  Py.getitem d "accountstate" = Return accountstate ->
  pwd_expired_or_initial accountstate = false ->
  call url data method st =
    (outcome_result (fst (http w' r')),
     {| world := snd (http w' r');
        self := Some a';
        trace := trace st
                 ++ [EvCall url data method; EvExchange r0]
                 ++ EvLogin :: attempt_events login_info (pre ++ [item_url])
                 ++ [EvExchange r'] |})
  /\ req_url r' = (if Py.truthy_str (item_url +:+ deviceid)
                   then (item_url +:+ deviceid) +:+ url else url)
  /\ req_headers r' !! "iBaseToken" = Some token
  /\ req_method r' = req_method r0
  /\ req_data r' = req_data r0.
Proof.
  intros r0 a' r' w' Hinfo Hself Hvalid Hout0 Hcode Hrelogin Hsplit Hrej Hout Hrejects
    Hdata Hdev Htok Hacc Hfresh.
  split; [|split; [reflexivity|split; [apply lookup_insert_eq|split; reflexivity]]].
  rewrite call_eq.
  rewrite (do_call_eq url data method _ (entered url data method st) a Hself Hvalid).
  fold r0. cbn [world entered self trace]. rewrite Hout0, Hcode, Hrelogin.
  rewrite (login_eq login_info _ Hinfo), Hsplit.
  rewrite (login_accepting login_info pre post item_url
             {| world := snd (http (world st) r0); self := self st;
                trace := (trace st ++ [EvCall url data method]) ++ [EvExchange r0] |}
             w result d token accountstate deviceid Hrej Hout Hrejects Hdata Hdev Htok Hacc).
  cbv zeta. rewrite Hfresh. cbn [trace].
  rewrite (do_call_eq url data method _
             {| world := w'; self := Some a';
                trace := ((trace st ++ [EvCall url data method]) ++ [EvExchange r0])
                         ++ EvLogin :: attempt_events login_info (pre ++ [item_url]) |}
             a' eq_refl Hvalid).
  fold r'. cbn [world self trace]. f_equal. f_equal.
  rewrite <- !app_assoc. cbn [app]. reflexivity.
Qed.

End Relogin.

Lemma call_retries_with_new_session_witness :
  fst (call "/filesystem" None (Some "GET") (Demo.logged_in Demo.relogin_script))
    = Return (Demo.envelope 0 (Some (JStr "payload")))
  /\ map req_url (exchanges (trace (snd (call "/filesystem" None (Some "GET")
                                           (Demo.logged_in Demo.relogin_script)))))
     = ["https://a:8088/rest/dev0/filesystem"; "https://a:8088/rest/xx/sessions";
        "https://a:8088/rest/dev1/filesystem"]
  /\ stored_token (snd (call "/filesystem" None (Some "GET")
                          (Demo.logged_in Demo.relogin_script)))
     = Some (JStr "tok1").
Proof.
  pose (a := {| self_url := Some "https://a:8088/rest/dev0";
                self_session :=
                  {| headers := <["iBaseToken" := JStr "tok0"]>
                                  (headers (self_session fresh_attrs));
                     verify := false |} |}).
  pose (session := Demo.envelope 0 (Some (Demo.session_data "dev1" "tok1" 1))).
  assert (Hinfo : _get_login_info = Return Demo.login_info) by reflexivity.
  assert (Hself : self (Demo.logged_in Demo.relogin_script) = Some a) by reflexivity.
  assert (Hvalid : valid_method (req_method (request_of a "/filesystem" None (Some "GET")
                                               (SOCKET_TIMEOUT consts))) = true)
    by reflexivity.
  assert (Hout0 : outcome_result
                    (fst (http (world (Demo.logged_in Demo.relogin_script))
                            (request_of a "/filesystem" None (Some "GET")
                               (SOCKET_TIMEOUT consts))))
                  = Return (Demo.envelope (-401) None)) by reflexivity.
  assert (Hcode : error_code (Demo.envelope (-401) None) = Return (JInt (-401)))
    by reflexivity.
  assert (Hrelogin : needs_relogin (JInt (-401)) = true) by reflexivity.
  assert (Hsplit : Py.split ";" (RestURL Demo.login_info)
                   = [] ++ "https://a:8088/rest/"
                     :: ["https://b:8088/rest/"; "https://c:8088/rest/"])
    by (vm_compute; reflexivity).
  assert (Hrej : rejected_run Demo.login_info []
                   (snd (http (world (Demo.logged_in Demo.relogin_script))
                           (request_of a "/filesystem" None (Some "GET")
                              (SOCKET_TIMEOUT consts))))
                 = Some [Demo.ok session; Demo.ok (Demo.envelope 0 (Some (JStr "payload")))])
    by reflexivity.
  assert (Hout : outcome_result
                   (fst (http [Demo.ok session;
                               Demo.ok (Demo.envelope 0 (Some (JStr "payload")))]
                           (login_request Demo.login_info "https://a:8088/rest/")))
                 = Return session) by reflexivity.
  assert (Hrejects : login_rejects session = Return false) by reflexivity.
  assert (Hdata : Py.getitem session "data" = Return (Demo.session_data "dev1" "tok1" 1))
    by reflexivity.
  assert (Hdev : Py.getitem (Demo.session_data "dev1" "tok1" 1) "deviceid"
                 = Return (JStr "dev1")) by reflexivity.
  assert (Htok : Py.getitem (Demo.session_data "dev1" "tok1" 1) "iBaseToken"
                 = Return (JStr "tok1")) by reflexivity.
  assert (Hacc : Py.getitem (Demo.session_data "dev1" "tok1" 1) "accountstate"
                 = Return (JInt 1)) by reflexivity.
  assert (Hfresh : pwd_expired_or_initial (JInt 1) = false) by reflexivity.
  pose proof (call_retries_with_new_session (E := Demo.env) Demo.login_info "/filesystem"
                None (Some "GET") _ a _ _ _ _ _ _ _ _ _ _ _
                Hinfo Hself Hvalid Hout0 Hcode Hrelogin Hsplit Hrej Hout Hrejects
                Hdata Hdev Htok Hacc Hfresh) as (Hcall & _).
  rewrite Hcall. repeat split; vm_compute; reflexivity.
Defined.

(** ** Access rules *)

Section AccessRules.

Context {World : Type} `{E : Env World}.

Variable specs_of : string -> Result Json.

Local Abbreviation callfree := (@callfree World _).

Lemma spec_override_eq (skv : list (string * Json)) (k K : string)
    (access : list (string * Json)) :
  spec_override (JObj skv) k K access =
    Return (match Py.dict_get k skv with
            | Some v => if Py.truthy v then Py.dict_set K v access else access
            | None => access
            end).
Proof.
  unfold spec_override. cbn [get_or_none Py.get Py.getitem].
  destruct (Py.dict_get k skv) as [v|]; [|reflexivity].
  destruct (Py.truthy v); reflexivity.
Qed.

Lemma override_get (skv : list (string * Json)) (k K q : string)
    (access : list (string * Json)) :
  Py.dict_get q (match Py.dict_get k skv with
                 | Some v => if Py.truthy v then Py.dict_set K v access else access
                 | None => access
                 end)
  = if String.eqb q K then
      match Py.dict_get k skv with
      | Some v => if Py.truthy v then Some v else Py.dict_get q access
      | None => Py.dict_get q access
      end
    else Py.dict_get q access.
Proof.
  destruct (String.eqb q K) eqn:Hq.
  - apply String.eqb_eq in Hq. subst q.
    destruct (Py.dict_get k skv) as [v|]; [|reflexivity].
    destruct (Py.truthy v); [apply dict_get_set_same|reflexivity].
  - apply String.eqb_neq in Hq.
    destruct (Py.dict_get k skv) as [v|]; [|reflexivity].
    destruct (Py.truthy v); [now apply dict_get_set_other|reflexivity].
Qed.

(** X16.  [_allow_nfs_access_rest] grants with the settings SYNC 0,
    ALLSQUASH 1 and ROOTSQUASH 0 unless the share type says
    otherwise: a setting the share type gives with a true value
    replaces the default, one it leaves out or gives empty does not,
    and SECURE is sent only when the share type gives it.  The type,
    the name, the share and the access level of the rule cannot be
    changed by the share type.  Without a share type the defaults are
    sent and the share type is not asked for. *)
Theorem nfs_access_settings (share_id access_to access_level : string) :
  nfs_access specs_of share_id access_to access_level None
    = Return (nfs_access_defaults share_id access_to access_level)
  /\ nfs_access specs_of share_id access_to access_level (Some "")
     = Return (nfs_access_defaults share_id access_to access_level)
  /\ (forall t,
        Py.truthy_str t = true ->
        (forall e, specs_of t = Raise e ->
                   nfs_access specs_of share_id access_to access_level (Some t) = Raise e)
        /\ (forall specs, specs_of t = Return specs -> Py.truthy specs = false ->
              nfs_access specs_of share_id access_to access_level (Some t)
                = Return (nfs_access_defaults share_id access_to access_level))
        /\ (forall skv,
              specs_of t = Return (JObj skv) ->
              exists access,
                nfs_access specs_of share_id access_to access_level (Some t) = Return access
                /\ Py.dict_get "SYNC" access = Some (spec_or skv "sync" (JStr "0"))
                /\ Py.dict_get "ALLSQUASH" access
                   = Some (spec_or skv "allsquash" (JStr "1"))
                /\ Py.dict_get "ROOTSQUASH" access
                   = Some (spec_or skv "rootsquash" (JStr "0"))
                /\ Py.dict_get "SECURE" access
                   = match Py.dict_get "secure" skv with
                     | Some v => if Py.truthy v then Some v else None
                     | None => None
                     end
                /\ Py.dict_get "TYPE" access = Some (JStr "16409")
                /\ Py.dict_get "NAME" access = Some (JStr access_to)
                /\ Py.dict_get "PARENTID" access = Some (JStr share_id)
                /\ Py.dict_get "ACCESSVAL" access = Some (JStr access_level)))
  /\ (forall share_type_id vstore_id st access,
        nfs_access specs_of share_id access_to access_level share_type_id = Return access ->
        calls (trace (snd (_allow_access_rest specs_of share_id access_to "NFS" access_level
                             share_type_id vstore_id st)))
          = calls (trace st)
            ++ [("/NFS_SHARE_AUTH_CLIENT",
                 Some (dumps (JObj (with_vstore vstore_id access))), Some "POST")])
  /\ (forall share_type_id vstore_id st e,
        nfs_access specs_of share_id access_to access_level share_type_id = Raise e ->
        _allow_access_rest specs_of share_id access_to "NFS" access_level
          share_type_id vstore_id st = (Raise e, st)).
Proof.
  split; [reflexivity|]. split; [reflexivity|]. split; [|split].
  - intros t Ht. split; [|split].
    + intros e He. unfold nfs_access. now rewrite Ht, He.
    + intros specs Hs Hfalse. unfold nfs_access. now rewrite Ht, Hs, Hfalse.
    + intros skv Hs. unfold nfs_access. rewrite Ht, Hs.
      destruct (Py.truthy (JObj skv)) eqn:Htruthy.
      * rewrite !spec_override_eq. eexists. split; [reflexivity|].
        unfold spec_or.
        repeat split; rewrite !override_get; cbn [String.eqb Ascii.eqb Bool.eqb Py.dict_get];
          try reflexivity.
        -- destruct (Py.dict_get "sync" skv) as [v|]; [destruct (Py.truthy v)|];
             reflexivity.
        -- destruct (Py.dict_get "allsquash" skv) as [v|]; [destruct (Py.truthy v)|];
             reflexivity.
        -- destruct (Py.dict_get "rootsquash" skv) as [v|]; [destruct (Py.truthy v)|];
             reflexivity.
      * destruct skv as [|p skv]; [|discriminate].
        eexists. split; [reflexivity|]. repeat split; reflexivity.
  - intros share_type_id vstore_id st access Haccess.
    unfold _allow_access_rest. cbn [String.eqb Ascii.eqb Bool.eqb].
    unfold _allow_nfs_access_rest. unfold bind at 1, lift. rewrite Haccess.
    apply checked_call_calls.
  - intros share_type_id vstore_id st e Haccess.
    unfold _allow_access_rest. cbn [String.eqb Ascii.eqb Bool.eqb].
    unfold _allow_nfs_access_rest. unfold bind at 1, lift. now rewrite Haccess.
Qed.

(** X17.  [_get_level_by_access_id] asks for the rule once, at
    [/<client type>/<id>], and reads its level from [ACCESSVAL]; when
    that is missing or empty, as for a CIFS rule, it reads
    [PERMISSION], and gives [None] when that is missing too.  For an
    envelope without data the operation ends in [AttributeError]: the
    default it falls back to is a list, which has no [get]. *)
Theorem access_level_read (access_id share_proto share_client_type : string)
    (vstore_id : option string) (st st1 : State) (result code : Json) :
  _get_share_client_type share_proto st = (Return share_client_type, st) ->
  call ("/" +:+ share_client_type +:+ "/" +:+ access_id) (vstore_params vstore_id)
    (Some "GET") st = (Return result, st1) ->
  error_code result = Return code ->
  (Py.eq code (JInt 0) = false ->
   _get_level_by_access_id access_id share_proto vstore_id st
     = (Raise (InvalidShare (failure_reason "Get access information error!" result)), st1))
  /\ (Py.eq code (JInt 0) = true ->
      (Py.contains "data" result = Return false ->
       _get_level_by_access_id access_id share_proto vstore_id st
         = (Raise (AttributeError "get"), st1))
      /\ (forall info,
            Py.getitem result "data" = Return (JObj info) ->
            (forall level,
               Py.dict_get "ACCESSVAL" info = Some level ->
               Py.truthy level = true ->
               _get_level_by_access_id access_id share_proto vstore_id st
                 = (Return level, st1))
            /\ (Py.dict_get "ACCESSVAL" info = None
                \/ (exists level, Py.dict_get "ACCESSVAL" info = Some level
                                  /\ Py.truthy level = false) ->
                _get_level_by_access_id access_id share_proto vstore_id st
                  = (Return match Py.dict_get "PERMISSION" info with
                            | Some p => p
                            | None => JNull
                            end, st1))))
  /\ calls (trace (snd (_get_level_by_access_id access_id share_proto vstore_id st)))
     = calls (trace st)
       ++ [("/" +:+ share_client_type +:+ "/" +:+ access_id, vstore_params vstore_id,
            Some "GET")].
Proof.
  intros Htype Hcall Hcode.
  destruct (error_code_dict _ _ Hcode) as (kv & ->).
  assert (Hrun : forall k : Json -> @M World Json,
            bind (_get_share_client_type share_proto) (fun share_client_type =>
              bind (call ("/" +:+ share_client_type +:+ "/" +:+ access_id)
                      (vstore_params vstore_id) (Some "GET")) (fun result =>
                bind (_assert_rest_result result "Get access information error!")
                  (fun _ => k result))) st =
            if Py.eq code (JInt 0) then k (JObj kv) st1
            else (Raise (InvalidShare
                           (failure_reason "Get access information error!" (JObj kv))),
                  st1)).
  { intros k. unfold bind at 1. rewrite Htype.
    apply (checked_call_eq _ _ _ _ _ _ _ _ _ Hcall Hcode). }
  split; [|split].
  - intros H0. unfold _get_level_by_access_id. now rewrite Hrun, H0.
  - intros H0. split.
    + intros Hnone. unfold _get_level_by_access_id. rewrite Hrun, H0.
      cbn [Py.contains] in Hnone.
      destruct (Py.dict_get "data" kv) as [d|] eqn:Hd; [discriminate|].
      unfold bind, lift. cbn [Py.get_default]. rewrite Hd. reflexivity.
    + intros info Hdata. cbn [Py.getitem] in Hdata.
      destruct (Py.dict_get "data" kv) as [d|] eqn:Hd; [|discriminate].
      inversion Hdata; subst d.
      assert (Hlevel : _get_level_by_access_id access_id share_proto vstore_id st
                = (Return (match Py.dict_get "ACCESSVAL" info with
                           | Some level =>
                               if Py.truthy level then level
                               else match Py.dict_get "PERMISSION" info with
                                    | Some p => p
                                    | None => JNull
                                    end
                           | None => match Py.dict_get "PERMISSION" info with
                                     | Some p => p
                                     | None => JNull
                                     end
                           end), st1)).
      { unfold _get_level_by_access_id. rewrite Hrun, H0.
        unfold bind, lift, ret. cbn [Py.get_default]. rewrite Hd.
        cbn [get_or_none Py.get].
        destruct (Py.dict_get "ACCESSVAL" info) as [level|]; cbn [Py.truthy negb].
        - destruct (Py.truthy level); cbn [negb];
            [reflexivity|destruct (Py.dict_get "PERMISSION" info); reflexivity].
        - destruct (Py.dict_get "PERMISSION" info); reflexivity. }
      split.
      * intros level Hl Ht. now rewrite Hlevel, Hl, Ht.
      * intros [Hnone|(level & Hl & Ht)]; rewrite Hlevel.
        -- now rewrite Hnone.
        -- now rewrite Hl, Ht.
  - unfold _get_level_by_access_id. unfold bind at 1. rewrite Htype.
    apply bind_call_calls. intros r.
    apply callfree_bind; [apply callfree_assert_rest_result|]. intros _.
    apply callfree_bind; [apply callfree_lift|]. intros info.
    apply callfree_bind; [apply callfree_lift|]. intros level.
    destruct (negb (Py.truthy level)); [apply callfree_lift|apply silent_callfree, silent_ret].
Qed.

End AccessRules.

Lemma nfs_access_settings_witness :
  (exists access,
     nfs_access Demo.share_type_specs "5" "10.0.0.9" "1" (Some "type1") = Return access
     /\ Py.dict_get "SYNC" access = Some (JStr "1")
     /\ Py.dict_get "ALLSQUASH" access = Some (JStr "1")
     /\ Py.dict_get "SECURE" access = Some (JStr "true"))
  /\ calls (trace (snd (_allow_access_rest Demo.share_type_specs "5" "10.0.0.9" "NFS" "1"
                          None None (Demo.logged_in []))))
     = [("/NFS_SHARE_AUTH_CLIENT",
         Some (Demo.encode (JObj (nfs_access_defaults "5" "10.0.0.9" "1"))), Some "POST")].
Proof.
  assert (Htruthy : Py.truthy_str "type1" = true) by reflexivity.
  assert (Hspecs : Demo.share_type_specs "type1"
                   = Return (JObj [("sync", JStr "1"); ("allsquash", JStr "");
                                   ("secure", JStr "true")])) by reflexivity.
  destruct (nfs_access_settings (E := Demo.env) Demo.share_type_specs "5" "10.0.0.9" "1")
    as (Hnone & _ & Htyped & Hsent & _).
  split.
  - destruct (proj2 (proj2 (Htyped "type1" Htruthy)) _ Hspecs)
      as (access & Haccess & Hsync & Hall & _ & Hsecure & _).
    exists access. split; [exact Haccess|]. split; [exact Hsync|].
    split; [exact Hall|exact Hsecure].
  - exact (Hsent None None (Demo.logged_in []) _ Hnone).
Defined.

Lemma access_level_read_witness :
  _get_level_by_access_id "9" "CIFS" None
    (Demo.logged_in [Demo.ok (Demo.envelope 0 (Some (JObj [("ID", JStr "9");
                                                           ("PERMISSION", JStr "0")])))])
    = (Return (JStr "0"),
       snd (call "/CIFS_SHARE_AUTH_CLIENT/9" None (Some "GET")
              (Demo.logged_in [Demo.ok (Demo.envelope 0
                                          (Some (JObj [("ID", JStr "9");
                                                       ("PERMISSION", JStr "0")])))])))
  /\ fst (_get_level_by_access_id "9" "NFS" None
            (Demo.logged_in [Demo.ok (Demo.envelope 0 None)]))
     = Raise (AttributeError "get").
Proof.
  pose (info := [("ID", JStr "9"); ("PERMISSION", JStr "0")]).
  assert (Htype : _get_share_client_type "CIFS"
                    (Demo.logged_in [Demo.ok (Demo.envelope 0 (Some (JObj info)))])
                  = (Return "CIFS_SHARE_AUTH_CLIENT",
                     Demo.logged_in [Demo.ok (Demo.envelope 0 (Some (JObj info)))]))
    by reflexivity.
  assert (Hcall : call ("/" +:+ "CIFS_SHARE_AUTH_CLIENT" +:+ "/" +:+ "9") (vstore_params None)
                    (Some "GET")
                    (Demo.logged_in [Demo.ok (Demo.envelope 0 (Some (JObj info)))])
                  = (Return (Demo.envelope 0 (Some (JObj info))),
                     snd (call "/CIFS_SHARE_AUTH_CLIENT/9" None (Some "GET")
                            (Demo.logged_in
                               [Demo.ok (Demo.envelope 0 (Some (JObj info)))]))))
    by (vm_compute; reflexivity).
  assert (Hcode : error_code (Demo.envelope 0 (Some (JObj info))) = Return (JInt 0))
    by reflexivity.
  assert (Hdata : Py.getitem (Demo.envelope 0 (Some (JObj info))) "data"
                  = Return (JObj info)) by reflexivity.
  assert (Hmissing : Py.dict_get "ACCESSVAL" info = None
                     \/ (exists level, Py.dict_get "ACCESSVAL" info = Some level
                                       /\ Py.truthy level = false))
    by (left; reflexivity).
  assert (Htype' : _get_share_client_type "NFS"
                     (Demo.logged_in [Demo.ok (Demo.envelope 0 None)])
                   = (Return "NFS_SHARE_AUTH_CLIENT",
                      Demo.logged_in [Demo.ok (Demo.envelope 0 None)])) by reflexivity.
  assert (Hcall' : call ("/" +:+ "NFS_SHARE_AUTH_CLIENT" +:+ "/" +:+ "9")
                     (vstore_params None) (Some "GET")
                     (Demo.logged_in [Demo.ok (Demo.envelope 0 None)])
                   = (Return (Demo.envelope 0 None),
                      snd (call "/NFS_SHARE_AUTH_CLIENT/9" None (Some "GET")
                             (Demo.logged_in [Demo.ok (Demo.envelope 0 None)]))))
    by (vm_compute; reflexivity).
  assert (Hcode' : error_code (Demo.envelope 0 None) = Return (JInt 0)) by reflexivity.
  assert (Hnodata : Py.contains "data" (Demo.envelope 0 None) = Return false)
    by reflexivity.
  split.
  - destruct (access_level_read (E := Demo.env) "9" "CIFS" _ None _ _ _ _
                Htype Hcall Hcode) as (_ & Hread & _).
    exact (proj2 (proj2 (Hread eq_refl) info Hdata) Hmissing).
  - destruct (access_level_read (E := Demo.env) "9" "NFS" _ None _ _ _ _
                Htype' Hcall' Hcode') as (_ & Hread & _).
    rewrite (proj1 (Hread eq_refl) Hnodata). reflexivity.
Defined.

(** ** The match inside a window *)

Section Windows.

Context {World : Type} `{E : Env World}.


(** The item has another share path. *)
Local Abbreviation other_path share_path :=
  (fun x : Json => exists sp, Py.getitem x "SHAREPATH" = Return sp
                              /\ Py.eq (JStr share_path) sp = false).



End Windows.


(** ** The policy a request matches *)

Section QosMatching.

Context {World : Type} `{E : Env World}.

(** The policy has the value the request has for the option, or both
    have none. *)
Local Abbreviation agree temp_qos item :=
  (fun key : string =>
     exists a b, Py.get temp_qos (Py.upper key) = Return a
                 /\ Py.get item (Py.upper key) = Return b
                 /\ Py.eq_opt a b = true).

(** The loop passes the policy over: an option differs, or the policy
    cannot take another filesystem. *)
Local Abbreviation passed_over temp_qos :=
  (fun item : Json =>
     qos_keys_match temp_qos item (OPTS_QOS_VALUE consts) = Return false
     \/ (qos_keys_match temp_qos item (OPTS_QOS_VALUE consts) = Return true
         /\ qos_usable item = Return false)).

Lemma qos_keys_match_true (temp_qos item : Json) (keys : list string) :
  qos_keys_match temp_qos item keys = Return true ->
  Forall (agree temp_qos item) keys.
Proof.
  induction keys as [|key keys IH]; cbn [qos_keys_match]; [constructor|].
  destruct (Py.get temp_qos (Py.upper key)) as [a|e] eqn:Ha; [|discriminate].
  destruct (Py.get item (Py.upper key)) as [b|e] eqn:Hb; [|discriminate].
  destruct (Py.eq_opt a b) eqn:Hab; cbn [negb]; [|discriminate].
  intros H. constructor; [now exists a, b|now apply IH].
Qed.

Lemma qos_loop_selected_keys (temp_qos : Json) (items : list Json) (qos_id fs_list : Json) :
  qos_loop temp_qos items = Return (qos_id, fs_list) ->
  qos_id <> JNull ->
  exists pre item post,
    items = pre ++ item :: post
    /\ Forall (passed_over temp_qos) pre
    /\ qos_keys_match temp_qos item (OPTS_QOS_VALUE consts) = Return true
    /\ qos_usable item = Return true
    /\ Py.getitem item "ID" = Return qos_id
    /\ Py.getitem item "FSLIST" = Return fs_list.
Proof.
  induction items as [|item items IH]; cbn [qos_loop].
  - intros H Hid. inversion H. congruence.
  - destruct (qos_keys_match temp_qos item _) as [[|]|e] eqn:Hk; [| |discriminate].
    + destruct (qos_usable item) as [[|]|e] eqn:Hu; [| |discriminate].
      * destruct (Py.getitem item "ID") as [i|e] eqn:Hi; [|discriminate].
        destruct (Py.getitem item "FSLIST") as [f|e] eqn:Hf; [|discriminate].
        intros H _. inversion H; subst. exists [], item, items.
        repeat split; [constructor|assumption..].
      * intros H Hid. destruct (IH H Hid) as (pre & item' & post & -> & Hpre & Hrest).
        exists (item :: pre), item', post.
        split; [reflexivity|]. split; [constructor; [now right|exact Hpre]|exact Hrest].
    + intros H Hid. destruct (IH H Hid) as (pre & item' & post & -> & Hpre & Hrest).
      exists (item :: pre), item', post.
      split; [reflexivity|]. split; [constructor; [now left|exact Hpre]|exact Hrest].
Qed.

Lemma qos_loop_skip (temp_qos : Json) (pre rest : list Json) :
  Forall (passed_over temp_qos) pre ->
  qos_loop temp_qos (pre ++ rest) = qos_loop temp_qos rest.
Proof.
  induction 1 as [|x pre Hx Hpre IH]; [reflexivity|].
  cbn [app qos_loop]. destruct Hx as [Hk|(Hk & Hu)]; rewrite Hk; [exact IH|].
  rewrite Hu. exact IH.
Qed.

(** X19.  [find_available_qos] returns the first policy of the
    array's list that has, for every one of the QoS options, the value
    the request has (or none where the request has none) and that can
    take another filesystem; policies before it were passed over for
    one of the two reasons, policies after it are not looked at.  A
    request without LATENCY is matched as if it had LATENCY 0; its
    other options are compared as given.  When no policy qualifies, or
    the envelope has no data, the answer is [(None, [])]. *)
Theorem qos_policy_matching (qos : Json) (st st' : State) :
  (forall qos_id fs_list,
     find_available_qos qos st = (Return (qos_id, fs_list), st') ->
     qos_id <> JNull ->
     exists temp_qos result data pre item post,
       with_latency qos = Return temp_qos
       /\ get_qos st = (Return result, st')
       /\ Py.getitem result "data" = Return data
       /\ Py.iter data = Return (pre ++ item :: post)
       /\ Forall (passed_over temp_qos) pre
       /\ Forall (agree temp_qos item) (OPTS_QOS_VALUE consts)
       /\ qos_usable item = Return true
       /\ Py.getitem item "ID" = Return qos_id
       /\ Py.getitem item "FSLIST" = Return fs_list)
  /\ (forall result temp_qos items,
        get_qos st = (Return result, st') ->
        Py.getitem result "data" = Return (JList items) ->
        with_latency qos = Return temp_qos ->
        find_available_qos qos st = (qos_loop temp_qos items, st')
        /\ (Forall (passed_over temp_qos) items ->
            find_available_qos qos st = (Return (JNull, JList []), st'))
        /\ (forall pre item post,
              items = pre ++ item :: post ->
              Forall (passed_over temp_qos) pre ->
              qos_keys_match temp_qos item (OPTS_QOS_VALUE consts) = Return true ->
              qos_usable item = Return true ->
              find_available_qos qos st =
                (match Py.getitem item "ID" with
                 | Return i =>
                     match Py.getitem item "FSLIST" with
                     | Return f => Return (i, f)
                     | Raise e => Raise e
                     end
                 | Raise e => Raise e
                 end, st')))
  /\ (forall result,
        get_qos st = (Return result, st') ->
        Py.contains "data" result = Return false ->
        find_available_qos qos st = (Return (JNull, JList []), st'))
  /\ (forall kv,
        exists kv',
          with_latency (JObj kv) = Return (JObj kv')
          /\ Py.dict_get "LATENCY" kv'
             = Some match Py.dict_get "LATENCY" kv with
                    | Some v => v
                    | None => JStr "0"
                    end
          /\ (forall k, k <> "LATENCY" -> Py.dict_get k kv' = Py.dict_get k kv)).
Proof.
  split; [|split; [|split]].
  - intros qos_id fs_list. unfold find_available_qos, bind, lift.
    destruct (get_qos st) as [[result|e] st1] eqn:Hq; [|discriminate].
    destruct (Py.contains "data" result) as [[|]|e]; [| |discriminate].
    + destruct (with_latency qos) as [temp_qos|e]; [|discriminate].
      destruct (Py.getitem result "data") as [data|e] eqn:Hd; [|discriminate].
      destruct (Py.iter data) as [items|e] eqn:Hit; [|discriminate].
      destruct (qos_loop temp_qos items) as [[i f]|e] eqn:Hloop; [|discriminate].
      intros H Hid. inversion H; subst.
      destruct (qos_loop_selected_keys _ _ _ _ Hloop Hid)
        as (pre & item & post & -> & Hpre & Hk & Hu & Hi & Hf).
      exists temp_qos, result, data, pre, item, post.
      repeat split; try assumption; try reflexivity.
      now apply qos_keys_match_true.
    + intros H Hid. inversion H; subst. congruence.
  - intros result temp_qos items Hq Hdata Hlat.
    assert (Hrun : find_available_qos qos st = (qos_loop temp_qos items, st')).
    { unfold find_available_qos, bind, lift.
      rewrite Hq, (getitem_contains _ _ _ Hdata), Hlat, Hdata. reflexivity. }
    split; [exact Hrun|]. split.
    + intros Hall. rewrite Hrun, <- (app_nil_r items). now rewrite qos_loop_skip.
    + intros pre item post -> Hpre Hk Hu.
      rewrite Hrun, (qos_loop_skip _ _ _ Hpre). cbn [qos_loop]. rewrite Hk, Hu.
      destruct (Py.getitem item "ID") as [i|e]; [|reflexivity].
      destruct (Py.getitem item "FSLIST"); reflexivity.
  - intros result Hq Hnone. unfold find_available_qos, bind, lift.
    now rewrite Hq, Hnone.
  - intros kv. unfold with_latency. cbn [Py.contains].
    destruct (Py.dict_get "LATENCY" kv) as [v|] eqn:Hl.
    + exists kv. split; [reflexivity|]. split; [exact Hl|reflexivity].
    + exists (Py.dict_set "LATENCY" (JStr "0") kv). split; [reflexivity|].
      split; [apply dict_get_set_same|]. intros k Hk. now apply dict_get_set_other.
Qed.

End QosMatching.

Lemma qos_policy_matching_witness :
  find_available_qos (JObj [("MAXIOPS", JStr "100")]) (Demo.logged_in Demo.policies_script)
    = (Return (JStr "q1", JStr (fslist_string ["1"; "2"])),
       snd (get_qos (Demo.logged_in Demo.policies_script))).
Proof.
  pose (temp_qos := JObj [("MAXIOPS", JStr "100"); ("LATENCY", JStr "0")]).
  assert (Hq : get_qos (Demo.logged_in Demo.policies_script)
               = (Return (Demo.envelope 0 (Some (JList [Demo.other_policy; Demo.policy]))),
                  snd (get_qos (Demo.logged_in Demo.policies_script))))
    by (vm_compute; reflexivity).
  assert (Hdata : Py.getitem (Demo.envelope 0 (Some (JList [Demo.other_policy; Demo.policy])))
                    "data" = Return (JList [Demo.other_policy; Demo.policy]))
    by reflexivity.
  assert (Hlat : with_latency (JObj [("MAXIOPS", JStr "100")]) = Return temp_qos)
    by reflexivity.
  assert (Hitems : [Demo.other_policy; Demo.policy] = [Demo.other_policy] ++ Demo.policy :: [])
    by reflexivity.
  assert (Hpre : Forall (fun item =>
                           qos_keys_match temp_qos item (OPTS_QOS_VALUE consts)
                             = Return false
                           \/ (qos_keys_match temp_qos item (OPTS_QOS_VALUE consts)
                                 = Return true
                               /\ qos_usable item = Return false))
                   [Demo.other_policy]).
  { constructor; [|constructor]. left. vm_compute. reflexivity. }
  assert (Hk : qos_keys_match temp_qos Demo.policy (OPTS_QOS_VALUE consts) = Return true)
    by (vm_compute; reflexivity).
  assert (Hu : qos_usable Demo.policy = Return true) by (vm_compute; reflexivity).
  destruct (qos_policy_matching (E := Demo.env) (JObj [("MAXIOPS", JStr "100")])
              (Demo.logged_in Demo.policies_script)
              (snd (get_qos (Demo.logged_in Demo.policies_script))))
    as (_ & Hfound & _).
  destruct (Hfound _ _ _ Hq Hdata Hlat) as (_ & _ & Hfirst).
  exact (Hfirst _ _ _ Hitems Hpre Hk Hu).
Defined.

(** ** Candidates with line breaks *)

Section Candidates.

Context {World : Type} `{E : Env World}.

Lemma lstrip_free (c : ascii) (u : string) :
  Py.has_char c u = false -> Py.lstrip c u = u.
Proof.
  destruct u as [|a u]; [reflexivity|]. cbn [Py.has_char Py.lstrip].
  intros H. apply orb_false_iff in H as (Ha & _). now rewrite Ha.
Qed.

Lemma rstrip_free (c : ascii) (u : string) :
  Py.has_char c u = false -> Py.rstrip c u = u.
Proof.
  induction u as [|a u IH]; [reflexivity|]. cbn [Py.has_char Py.rstrip].
  intros H. apply orb_false_iff in H as (Ha & Hu). rewrite (IH Hu), Ha.
  destruct u; reflexivity.
Qed.

Lemma rstrip_snoc (c : ascii) (u : string) :
  Py.has_char c u = false -> Py.rstrip c (u +:+ String c "") = u.
Proof.
  induction u as [|a u IH].
  - intros _. rewrite append_nil. cbn [Py.rstrip]. now rewrite Ascii.eqb_refl.
  - cbn [Py.has_char]. intros H. apply orb_false_iff in H as (Ha & Hu).
    rewrite append_cons. cbn [Py.rstrip]. rewrite (IH Hu), Ha.
    destruct u; reflexivity.
Qed.

Lemma strip_trailing (c : ascii) (u : string) :
  u <> "" -> Py.has_char c u = false -> Py.strip c (u +:+ String c "") = u.
Proof.
  intros Hne Hu. unfold Py.strip.
  destruct u as [|a u]; [congruence|].
  rewrite append_cons. cbn [Py.lstrip]. cbn [Py.has_char] in Hu.
  pose proof Hu as Hu'. apply orb_false_iff in Hu' as (Ha & _). rewrite Ha.
  rewrite <- append_cons. now apply rstrip_snoc.
Qed.

Lemma strip_leading (c : ascii) (u : string) :
  Py.has_char c u = false -> Py.strip c (String c "" +:+ u) = u.
Proof.
  intros Hu. unfold Py.strip. rewrite append_cons, append_nil.
  cbn [Py.lstrip]. rewrite Ascii.eqb_refl.
  now rewrite (lstrip_free _ _ Hu), (rstrip_free _ _ Hu).
Qed.

Lemma strip_free (c : ascii) (u : string) :
  Py.has_char c u = false -> Py.strip c u = u.
Proof.
  intros Hu. unfold Py.strip. now rewrite (lstrip_free _ _ Hu), (rstrip_free _ _ Hu).
Qed.

(** X20.  [login] takes line breaks off the ends of a candidate URL
    before it asks the candidate for a session, but stores the
    candidate as the configuration gave it: for a candidate written
    with a line break behind it, the session request goes to the URL
    without the line break, and the base URL stored on success, which
    every later request is prefixed with, has the line break between
    the URL and the device id.  Blanks are not taken off. *)
Theorem login_candidate_newline (login_info : LoginInfo) (u : string) :
  u <> "" ->
  Py.has_char (ascii_of_nat 10) u = false ->
  req_url (login_request login_info (u +:+ Py.LF)) = u +:+ "xx/sessions"
  /\ req_url (login_request login_info (Py.LF +:+ u)) = u +:+ "xx/sessions"
  /\ req_url (login_request login_info (u +:+ " ")) = (u +:+ " ") +:+ "xx/sessions"
  /\ (forall rest st result d deviceid,
        outcome_result (fst (http (world st) (login_request login_info (u +:+ Py.LF))))
          = Return result ->
        login_rejects result = Return false ->
        Py.getitem result "data" = Return d ->
        Py.getitem d "deviceid" = Return (JStr deviceid) ->
        stored_url (snd (login_loop login_info ((u +:+ Py.LF) :: rest) st))
          = Some ((u +:+ Py.LF) +:+ deviceid)
        /\ forall token url data method,
             req_url (request_of (accepted_attrs (u +:+ Py.LF) deviceid token) url data
                        method (SOCKET_TIMEOUT consts))
               = ((u +:+ Py.LF) +:+ deviceid) +:+ url).
Proof.
  intros Hne Hu.
  assert (Hreq : forall item_url,
            req_url (login_request login_info item_url)
              = Py.strip (ascii_of_nat 10) item_url +:+ "xx/sessions") by reflexivity.
  split; [|split; [|split]].
  - rewrite Hreq. unfold Py.LF. now rewrite strip_trailing.
  - rewrite Hreq. unfold Py.LF. now rewrite strip_leading.
  - rewrite Hreq, strip_free; [reflexivity|].
    rewrite has_char_app, Hu. reflexivity.
  - intros rest st result d deviceid Hout Hrej Hdata Hdev. split.
    + exact (login_loop_stores_url _ _ _ _ _ _ _ Hout Hrej Hdata Hdev).
    + intros token url data method. unfold request_of, accepted_attrs.
      cbn [req_url self_url].
      destruct u as [|a u]; [congruence|]. rewrite !append_cons. reflexivity.
Qed.

(** X21.  A helper on which [init_http_head] never ran has no [url]
    attribute: [call] ends in [AttributeError] before anything is sent,
    and so does every operation that starts with a request; [login]
    is what creates the attribute, so it is the one method that can be
    used first. *)
Theorem call_needs_session (st : State) :
  self st = None ->
  (forall url data method,
     call url data method st
       = (Raise (AttributeError "url"), entered url data method st))
  /\ (forall url data method calltimeout,
        do_call url data method calltimeout st = (Raise (AttributeError "url"), st))
  /\ (forall share_name,
        fst (get_fsid_by_name share_name st) = Raise (AttributeError "url")
        /\ exchanges (trace (snd (get_fsid_by_name share_name st)))
           = exchanges (trace st))
  /\ (forall fuel share_id vstore_id,
        option_map fst (_get_all_access_from_share fuel share_id "NFS" vstore_id st)
          = Some (Raise (AttributeError "url")))
  /\ (forall login_info item_url,
        self (snd (bind init_http_head (fun _ =>
                     do_call (login_url item_url) (Some (login_data login_info)) None
                       (LOGIN_SOCKET_TIMEOUT consts)) st))
          = Some fresh_attrs).
Proof.
  intros Hself.
  assert (Hcall : forall url data method,
            call url data method st
              = (Raise (AttributeError "url"), entered url data method st)).
  { intros. unfold call, entered, bind, log, attr. cbn [self]. now rewrite Hself. }
  split; [exact Hcall|]. split; [|split; [|split]].
  - intros. unfold do_call, bind, attr. now rewrite Hself.
  - intros share_name. unfold get_fsid_by_name, bind. rewrite Hcall. cbn [fst snd].
    split; [reflexivity|]. unfold entered. cbn [trace].
    rewrite exchanges_app. apply app_nil_r.
  - intros fuel share_id vstore_id. unfold _get_all_access_from_share.
    cbn [_get_share_client_type String.eqb Ascii.eqb Bool.eqb]. unfold ret.
    unfold _get_access_count, bind. rewrite Hcall. reflexivity.
  - intros login_info item_url. now rewrite login_attempt_eq.
Qed.

End Candidates.

Lemma login_candidate_newline_witness :
  req_url (login_request Demo.login_info ("https://a:8088/rest/" +:+ Py.LF))
    = "https://a:8088/rest/xx/sessions"
  /\ stored_url (snd (login_loop Demo.login_info [("https://a:8088/rest/" +:+ Py.LF)]
                        (Demo.constructed
                           [Demo.ok (Demo.envelope 0
                                       (Some (Demo.session_data "dev1" "tok1" 1)))])))
     = Some (("https://a:8088/rest/" +:+ Py.LF) +:+ "dev1").
Proof.
  assert (Hne : "https://a:8088/rest/" <> "") by discriminate.
  assert (Hfree : Py.has_char (ascii_of_nat 10) "https://a:8088/rest/" = false)
    by reflexivity.
  pose (session := Demo.envelope 0 (Some (Demo.session_data "dev1" "tok1" 1))).
  assert (Hout : outcome_result
                   (fst (http (world (Demo.constructed [Demo.ok session]))
                           (login_request Demo.login_info
                              ("https://a:8088/rest/" +:+ Py.LF))))
                 = Return session) by reflexivity.
  assert (Hrej : login_rejects session = Return false) by reflexivity.
  assert (Hdata : Py.getitem session "data" = Return (Demo.session_data "dev1" "tok1" 1))
    by reflexivity.
  assert (Hdev : Py.getitem (Demo.session_data "dev1" "tok1" 1) "deviceid"
                 = Return (JStr "dev1")) by reflexivity.
  destruct (login_candidate_newline (E := Demo.env) Demo.login_info "https://a:8088/rest/"
              Hne Hfree) as (Hsent & _ & _ & Hstored).
  split; [exact Hsent|].
  exact (proj1 (Hstored [] _ _ _ _ Hout Hrej Hdata Hdev)).
Defined.

Lemma call_needs_session_witness :
  call "/filesystem" None (Some "GET") (Demo.constructed [Demo.ok (Demo.envelope 0 None)])
    = (Raise (AttributeError "url"),
       entered "/filesystem" None (Some "GET")
         (Demo.constructed [Demo.ok (Demo.envelope 0 None)])).
Proof.
  assert (Hself : self (Demo.constructed [Demo.ok (Demo.envelope 0 None)]) = None)
    by reflexivity.
  exact (proj1 (call_needs_session (E := Demo.env) _ Hself) "/filesystem" None (Some "GET")).
Defined.
